(** * protonvpn-nm-lib: server selection and connection lifecycle

    A shallow embedding of [lib/services/server_manager.py],
    [lib/services/connection_manager.py] and the input checks of
    [lib/services/user_manager.py], with the properties of the design
    document that concern them and further properties of the code.

    Layout: the Python runtime notions the code relies on ([Py]), the
    backtracking regular expressions of [re] ([Regex]), the services
    ([ServerManager], [ConnectionManager], [UserManager]), then the lemmas
    and theorems. *)

From Stdlib Require Import Ascii QArith Sorted Permutation.
From stdpp Require Import gmap strings list.

Local Open Scope Z_scope.

(* ================================================================= *)
(** ** Python runtime notions *)

Module Py.

(** The exception classes the two services raise or let through.  Messages
    are not modelled: no caller inspects them.  No handler of the code
    catches a class for one of its subclasses here: [JSONDecodeError] and
    [UnicodeDecodeError] are kinds of [ValueError], but the one handler for
    [ValueError] guards a [list.index] only. *)
Inductive exn :=
| TypeError | ValueError | IndexError | KeyError | AttributeError
| FileNotFoundError | IsADirectoryError | NotADirectoryError | FileExistsError
| JSONDecodeError | UnicodeDecodeError
| NotImplementedError
| ProtonError                      (* proton.api: a failed API request *)
| ImportConnectionError            (* raised by the plugin manager *)
| IllegalServername | ServerListEmptyError
| VirtualDeviceNotFound | IllegalVirtualDevice
| ConnectionNotFound
| AddConnectionCredentialsError
| AddConnectionFinishError | StartConnectionFinishError
| StopConnectionFinishError | RemoveConnectionFinishError.

(** A call either returns a value or raises. *)
Inductive result (A : Type) :=
| Ok (a : A)
| Raise (e : exn).
Global Arguments Ok {A} a.
Global Arguments Raise {A} e.

Definition bind {A B} (r : result A) (k : A -> result B) : result B :=
  match r with
  | Ok a => k a
  | Raise e => Raise e
  end.

(** *** Characters and strings

    A [str] is a Stdlib [string]; each [ascii] stands for the code point of
    one character, so the model covers the strings over code points below
    256.  The character classes are those of Python's Unicode tables on that
    range. *)

Definition code (c : ascii) : N := N_of_ascii c.

Definition between (lo hi : N) (c : ascii) : bool :=
  ((lo <=? code c) && (code c <=? hi))%N.

(** [str.isspace] on one character: TAB..CR, FS..US, space, NEL, NBSP. *)
Definition is_space (c : ascii) : bool :=
  between 9 13 c || between 28 32 c || (code c =? 133)%N || (code c =? 160)%N.

(** [\d] of [re] on a [str] pattern: the decimal digits. *)
Definition is_digit (c : ascii) : bool := between 48 57 c.

Definition is_ascii_upper (c : ascii) : bool := between 65 90 c.
Definition is_ascii_lower (c : ascii) : bool := between 97 122 c.

(** Letters and numeric characters of the upper half of Latin-1. *)
Definition is_latin1_alnum (c : ascii) : bool :=
  (code c =? 170)%N || (code c =? 178)%N || (code c =? 179)%N
  || (code c =? 181)%N || (code c =? 185)%N || (code c =? 186)%N
  || between 188 190 c
  || between 192 214 c || between 216 246 c || between 248 255 c.

(** [\w] of [re] on a [str] pattern: alphanumerics and the underscore. *)
Definition is_word (c : ascii) : bool :=
  is_digit c || is_ascii_upper c || is_ascii_lower c
  || (code c =? 95)%N || is_latin1_alnum c.

Definition shift_code (f : N -> N) (c : ascii) : ascii :=
  ascii_of_N (f (code c)).

(** [str.lower] on one character. *)
Definition lower_char (c : ascii) : ascii :=
  if is_ascii_upper c || ((between 192 214 c) || (between 216 222 c))
  then shift_code (fun n => n + 32)%N c else c.

(** [str.upper] on one character, as a string: the sharp s becomes [SS].
    The upper case of the micro sign is U+039C and that of y-diaeresis
    U+0178, both above code point 255: there the result is [None], a
    string that is none of the strings of the model. *)
Definition upper_char (c : ascii) : option string :=
  if is_ascii_lower c || ((between 224 246 c) || (between 248 254 c))
  then Some (String (shift_code (fun n => n - 32)%N c) EmptyString)
  else if (code c =? 223)%N then Some "SS"
  else if (code c =? 181)%N || (code c =? 255)%N then None
  else Some (String c EmptyString).

Fixpoint lower (s : string) : string :=
  match s with
  | EmptyString => EmptyString
  | String c s' => String (lower_char c) (lower s')
  end.

(** [s.upper()]; [None] when a character of the result lies above code
    point 255. *)
Fixpoint upper (s : string) : option string :=
  match s with
  | EmptyString => Some EmptyString
  | String c s' =>
      match upper_char c, upper s' with
      | Some u, Some us => Some (u +:+ us)
      | _, _ => None
      end
  end.

(** [a == b] for a string [b] that may be none of the model. *)
Definition eq_str (a : string) (b : option string) : bool :=
  match b with
  | Some b => String.eqb a b
  | None => false
  end.

Definition chars : string -> list ascii := String.list_ascii_of_string.
Definition text : list ascii -> string := String.string_of_list_ascii.

Fixpoint drop_while (p : ascii -> bool) (l : list ascii) : list ascii :=
  match l with
  | [] => []
  | c :: l' => if p c then drop_while p l' else l
  end.

(** [s.lstrip(cs)] with [cs] a one-character set, [s.rstrip()], [s.strip()]. *)
Definition lstrip_char (c : ascii) (s : string) : string :=
  text (drop_while (Ascii.eqb c) (chars s)).

Definition lstrip (s : string) : string :=
  text (drop_while is_space (chars s)).

Definition rstrip (s : string) : string :=
  text (reverse (drop_while is_space (reverse (chars s)))).

Definition strip (s : string) : string := rstrip (lstrip s).

(** [os.path.dirname(p)]: [p] up to its last slash, without the slashes
    that end this part unless it is made of slashes only.  Paths are taken
    in normal form, the form in which the worlds below list them. *)
Definition is_slash (c : ascii) : bool := Ascii.eqb c "/".

Definition dirname (p : string) : string :=
  let head := drop_while (fun c => negb (is_slash c)) (reverse (chars p)) in
  if forallb is_slash head then text (reverse head)
  else text (reverse (drop_while is_slash head)).




(** [s.split()]: the maximal runs of non-space characters.  [cur] holds the
    current run, reversed. *)
Fixpoint split_runs (cur : list ascii) (l : list ascii) : list string :=
  match l with
  | [] => match cur with [] => [] | _ => [text (reverse cur)] end
  | c :: l' =>
      if is_space c
      then match cur with
           | [] => split_runs [] l'
           | _ => text (reverse cur) :: split_runs [] l'
           end
      else split_runs (c :: cur) l'
  end.

Definition split (s : string) : list string := split_runs [] (chars s).

(** [sub in s] for strings. *)
Fixpoint contains (sub s : string) : bool :=
  String.prefix sub s ||
  match s with
  | EmptyString => false
  | String _ s' => contains sub s'
  end.

Definition LF : ascii := "010"%char.
Definition CR : ascii := "013"%char.

(** Text-mode reading translates [\r\n] and a lone [\r] to [\n]. *)
Fixpoint universal_newlines (l : list ascii) : list ascii :=
  match l with
  | [] => []
  | c :: l' =>
      if Ascii.eqb c CR
      then LF :: match l' with
                 | d :: l'' => if Ascii.eqb d LF
                               then universal_newlines l''
                               else universal_newlines l'
                 | [] => []
                 end
      else c :: universal_newlines l'
  end.

(** [f.readlines()]: the lines of the text, each with its terminator. *)
Fixpoint lines_of (cur : list ascii) (l : list ascii) : list string :=
  match l with
  | [] => match cur with [] => [] | _ => [text (reverse cur)] end
  | c :: l' =>
      if Ascii.eqb c LF
      then text (reverse (c :: cur)) :: lines_of [] l'
      else lines_of (c :: cur) l'
  end.

Definition readlines (content : string) : list string :=
  lines_of [] (universal_newlines (chars content)).

(** [l[i]] on a list. *)
Definition index {A} (l : list A) (i : nat) : result A :=
  match l !! i with
  | Some a => Ok a
  | None => Raise IndexError
  end.

(** [random.choice(seq)]: [seq[randbelow(len(seq))]], and [IndexError] on
    an empty sequence.  [draw] is the raw random number the generator
    yields; reduced modulo the length it reaches every index. *)
Definition random_choice {A} (draw : nat) (seq : list A) : result A :=
  match seq with
  | [] => Raise IndexError
  | _ => index seq (draw mod length seq)%nat
  end.

(** *** Code that reads and changes a world [W] and may raise *)
Definition M (W A : Type) : Type := W -> result A * W.

Definition ret {W A} (a : A) : M W A := fun w => (Ok a, w).
Definition raise {W A} (e : exn) : M W A := fun w => (Raise e, w).
Definition lift {W A} (r : result A) : M W A := fun w => (r, w).

Definition mbind {W A B} (m : M W A) (k : A -> M W B) : M W B :=
  fun w =>
    match m w with
    | (Ok a, w') => k a w'
    | (Raise e, w') => (Raise e, w')
    end.

(** [try: m except E: h] for the exception classes [handles] accepts. *)
Definition try_except {W A} (m : M W A) (handles : exn -> bool)
    (h : exn -> M W A) : M W A :=
  fun w =>
    match m w with
    | (Ok a, w') => (Ok a, w')
    | (Raise e, w') => if handles e then h e w' else (Raise e, w')
    end.

Declare Scope m_scope.
Delimit Scope m_scope with M.
Notation "x <- m ;; k" := (mbind m (fun x => k))
  (at level 100, m at next level, right associativity) : m_scope.
Notation "m ;;; k" := (mbind m (fun _ => k))
  (at level 100, right associativity) : m_scope.

Definition is_exn (e0 e : exn) : bool :=
  match e0, e with
  | IndexError, IndexError => true
  | KeyError, KeyError => true
  | FileNotFoundError, FileNotFoundError => true
  | ConnectionNotFound, ConnectionNotFound => true
  | _, _ => false
  end.

(** *** Reaching a path

    A path can be opened, created or examined only through the directory
    it lies in.  [kind d] tells what stands at [d]: a directory
    ([Some true]), something else ([Some false]) or nothing.  The root and
    the current directory are always there; the worlds do not list them,
    and the paths the code is given are taken to name neither.  The empty
    path names nothing. *)

(** Whether what stands nearest above [d] is no directory.  [n] bounds the
    steps up; the length of [d] is enough. *)
Fixpoint blocked (kind : string -> option bool) (n : nat) (d : string)
    : bool :=
  match n with
  | O => false
  | S n =>
      let above := dirname d in
      if forallb is_slash (chars above) then false
      else match kind above with
           | Some true => false
           | Some false => true
           | None => blocked kind n above
           end
  end.

(** The error a system call on [path] fails with for the directory the
    path lies in, if it does: [NotADirectoryError] where a regular file
    stands at that directory or nearest above it, [FileNotFoundError]
    where the directory is just not there. *)
Definition parent_error (kind : string -> option bool) (path : string)
    : option exn :=
  let d := dirname path in
  if String.eqb path "" then Some FileNotFoundError
  else if forallb is_slash (chars d) then None
  else match kind d with
       | Some true => None
       | Some false => Some NotADirectoryError
       | None =>
           Some (if blocked kind (String.length d) d then NotADirectoryError
                 else FileNotFoundError)
       end.

(** The error of a call on a path at which nothing stands. *)
Definition absent_error (kind : string -> option bool) (path : string) : exn :=
  match parent_error kind path with
  | Some e => e
  | None => FileNotFoundError
  end.

End Py.

(** [lib.constants], of which the services import four names. *)
Record constants := Constants {
  CACHED_SERVERLIST : string;
  PROTON_XDG_CACHE_HOME : string;
  ENV_CI_NAME : string;
  VIRTUAL_DEVICE_NAME : string
}.


(* ================================================================= *)
(** ** Regular expressions of [re]

    The two patterns of [is_servername_valid] are kept as syntax trees and
    run by a backtracking matcher: [run r st] lists the states in which a
    match of [r] from [st] can end, in the order in which [re] tries them
    (greedy quantifiers take the longer match first, an alternation its left
    branch first), so the head of the list is the match [re] reports. *)

Module Regex.
Import Py.

Inductive regex :=
| Eps
| Lit (c : ascii)                      (* a literal character *)
| Class (p : ascii -> bool)            (* \w, \d, [A-Z] *)
| Cat (r1 r2 : regex)
| Alt (r1 r2 : regex)                  (* r1|r2 *)
| Opt (r : regex)                      (* r? *)
| Rep (r : regex) (lo hi : nat)        (* r{lo,hi} *)
| Group (i : nat) (r : regex)          (* the i-th capturing group *)
| Bol                                  (* ^ *)
| Eol.                                 (* $ *)

(** A matcher state: the offset in the subject, what is left of it, and the
    groups closed so far, the most recent first. *)
Record mstate := MState {
  pos : nat;
  rest : list ascii;
  caps : list (nat * string)
}.

Definition step (p : ascii -> bool) (st : mstate) : list mstate :=
  match rest st with
  | c :: l => if p c then [MState (S (pos st)) l (caps st)] else []
  | [] => []
  end.

(** Closing group [i], opened in [st], in [st']. *)
Definition close (i : nat) (st st' : mstate) : mstate :=
  MState (pos st') (rest st')
         ((i, text (take (pos st' - pos st) (rest st))) :: caps st').

Fixpoint repeat_greedy (f : mstate -> list mstate) (lo hi : nat)
    (st : mstate) : list mstate :=
  match hi with
  | O => match lo with O => [st] | S _ => [] end
  | S hi' =>
      flat_map (repeat_greedy f (Nat.pred lo) hi') (f st)
      ++ match lo with O => [st] | S _ => [] end
  end.

Fixpoint run (r : regex) (st : mstate) : list mstate :=
  match r with
  | Eps => [st]
  | Lit c => step (Ascii.eqb c) st
  | Class p => step p st
  | Cat r1 r2 => flat_map (run r2) (run r1 st)
  | Alt r1 r2 => run r1 st ++ run r2 st
  | Opt r1 => run r1 st ++ [st]
  | Rep r1 lo hi => repeat_greedy (run r1) lo hi st
  | Group i r1 => map (close i st) (run r1 st)
  | Bol => match pos st with O => [st] | S _ => [] end
  | Eol =>
      (* the end of the subject, or just before a newline that ends it *)
      match rest st with
      | [] => [st]
      | [c] => if Ascii.eqb c LF then [st] else []
      | _ => []
      end
  end.

(** [pattern.search(s)]: the first offset at which the pattern matches. *)
Fixpoint search_from (r : regex) (p : nat) (l : list ascii) : option mstate :=
  match head (run r (MState p l [])) with
  | Some m => Some m
  | None =>
      match l with
      | [] => None
      | _ :: l' => search_from r (S p) l'
      end
  end.

Definition search (r : regex) (s : string) : option mstate :=
  search_from r 0 (chars s).

Fixpoint assoc (i : nat) (l : list (nat * string)) : option string :=
  match l with
  | [] => None
  | (j, s) :: l' => if Nat.eqb i j then Some s else assoc i l'
  end.

(** [m.group(i)]; [None] when the group took no part in the match. *)
Definition group (m : mstate) (i : nat) : option string := assoc i (caps m).

Definition cat_all (rs : list regex) : regex := foldr Cat Eps rs.
Definition word (s : string) : regex := cat_all (map Lit (chars s)).

End Regex.

(* ================================================================= *)
(** ** lib/services/server_manager.py *)

Module ServerManager.
Import Py Regex.

(** *** Data

    The catalog the API serves: logical servers and, under each, the
    physical servers ([Servers]) with their entry address.  [Score] is a
    JSON number; a rational holds every finite float exactly and orders
    them as Python does. *)
Record subserver := Subserver { EntryIP : string }.

Record server := Server {
  Name : string;
  Tier : Z;
  Status : Z;
  Features : Z;
  Score : Q;
  ExitCountry : string;
  Servers : list subserver
}.

(** The JSON documents that occur: the answer to [/vpn/logicals], the
    answer to [/vpn], and any document with neither key. *)
Inductive json :=
| JLogicals (LogicalServers : list server)
| JVpn (MaxTier : Z)
| JOther.

(** [proton.api.Session]: an opaque collaborator that answers requests. *)
Record Session := { api_request : string -> result json }.

(** The values a caller may pass where the code checks types at run time. *)
#[warnings="-register-all"]
Inductive pyobj :=
| PyNone
| PyBool (b : bool)
| PyInt (z : Z)
| PyStr (s : string)
| PyList (l : list pyobj)
| PyTuple (l : list pyobj)
| PySession (s : Session).

(** *** The world the server manager acts on

    A path is absent, a directory, or a regular file with its modification
    time.  A regular file holds a JSON document or is [Corrupt]: text
    that is no JSON document, as a write that was cut short leaves it
    ([is_text]), or bytes that are no text.  The modification time of a
    directory is not kept: the code reads it of no directory but one it
    has just made.  Permissions are not modelled: the process may read and
    write wherever a path can be reached.  Times are microseconds, the
    resolution of [datetime].  [requests] records the end points asked of
    the API, oldest first. *)
Inductive node :=
| Dir
| File (mtime : Z) (data : json)
| Corrupt (mtime : Z) (is_text : bool).

Record world := World {
  fs : gmap string node;
  clock : Z;
  requests : list string
}.

Abbreviation M := (Py.M world).
Local Open Scope m_scope.

(** What stands at a path, for [parent_error]. *)
Definition kind (fs : gmap string node) (path : string) : option bool :=
  match fs !! path with
  | Some Dir => Some true
  | Some _ => Some false
  | None => None
  end.

(** [os.path.isdir], [os.path.isfile]: false also where the path cannot
    be reached. *)
Definition isdir (path : string) : M bool :=
  fun w => (Ok match fs w !! path with Some Dir => true | _ => false end, w).

Definition isfile (path : string) : M bool :=
  fun w =>
    (Ok match fs w !! path with
        | Some (File _ _) | Some (Corrupt _ _) => true
        | _ => false
        end, w).

(** [os.path.getmtime]: [FileNotFoundError] where nothing stands, and
    [NotADirectoryError] where a regular file stands in the place of the
    directory. *)
Definition getmtime (path : string) : M Z :=
  fun w =>
    match fs w !! path with
    | Some (File t _) | Some (Corrupt t _) => (Ok t, w)
    | Some Dir => (Ok (clock w), w)
    | None => (Raise (absent_error (kind (fs w)) path), w)
    end.

(** [os.mkdir]: the directory it is to lie in must be there. *)
Definition mkdir (path : string) : M unit :=
  fun w =>
    match fs w !! path with
    | Some _ => (Raise FileExistsError, w)
    | None =>
        match parent_error (kind (fs w)) path with
        | Some e => (Raise e, w)
        | None =>
            (Ok tt, World (<[path := Dir]> (fs w)) (clock w) (requests w))
        end
    end.

Definition now : M Z := fun w => (Ok (clock w), w).

(** [with open(path, "w") as f: json.dump(data, f)]: the file is made in
    the directory it lies in, which must be there, or written over. *)
Definition dump_json (path : string) (data : json) : M unit :=
  fun w =>
    let written :=
      World (<[path := File (clock w) data]> (fs w)) (clock w) (requests w) in
    match fs w !! path with
    | Some Dir => (Raise IsADirectoryError, w)
    | Some _ => (Ok tt, written)
    | None =>
        match parent_error (kind (fs w)) path with
        | Some e => (Raise e, w)
        | None => (Ok tt, written)
        end
    end.

(** [with open(path, "r") as f: json.load(f)] *)
Definition load_json (path : string) : M json :=
  fun w =>
    match fs w !! path with
    | Some (File _ data) => (Ok data, w)
    | Some (Corrupt _ is_text) =>
        (Raise (if is_text then JSONDecodeError else UnicodeDecodeError), w)
    | Some Dir => (Raise IsADirectoryError, w)
    | None => (Raise (absent_error (kind (fs w)) path), w)
    end.

(** [session.api_request(endpoint=...)]: the request goes out, then the
    session answers or raises. *)
Definition request (s : Session) (endpoint : string) : M json :=
  fun w =>
    (api_request s endpoint, World (fs w) (clock w) (requests w ++ [endpoint])).

(** [datetime.timedelta(minutes=n)] *)
Definition timedelta_minutes (n : Z) : Z := n * 60 * 1000000.


(** *** Sorting

    [sorted(pool, key=...)] is stable and compares keys with [<] only; a
    stable sort has one possible result, computed here by insertion. *)
Definition Qltb (a b : Q) : bool := negb (Qle_bool b a).

Fixpoint insert_by {A} (key : A -> Q) (x : A) (l : list A) : list A :=
  match l with
  | [] => [x]
  | y :: l' =>
      if Qltb (key y) (key x) then y :: insert_by key x l' else x :: l
  end.

Fixpoint sorted {A} (key : A -> Q) (l : list A) : list A :=
  match l with
  | [] => []
  | x :: l' => insert_by key x (sorted key l')
  end.

(** *** Servername grammar *)

(** [^((\w\w)(-|#)?(\d{1,3})-?(TOR)?)$] *)
Definition re_short : regex :=
  cat_all [
    Bol;
    Group 1 (cat_all [
      Group 2 (Cat (Class is_word) (Class is_word));
      Opt (Group 3 (Alt (Lit "-") (Lit "#")));
      Group 4 (Rep (Class is_digit) 1 3);
      Opt (Lit "-");
      Opt (Group 5 (word "TOR"))]);
    Eol].

(** [^(((\w\w)(-|#)?([A-Z]{2}|FREE))(-|#)?(\d{1,3})-?(TOR)?)$] *)
Definition re_long : regex :=
  cat_all [
    Bol;
    Group 1 (cat_all [
      Group 2 (cat_all [
        Group 3 (Cat (Class is_word) (Class is_word));
        Opt (Group 4 (Alt (Lit "-") (Lit "#")));
        Group 5 (Alt (Rep (Class is_ascii_upper) 2 2) (word "FREE"))]);
      Opt (Group 6 (Alt (Lit "-") (Lit "#")));
      Group 7 (Rep (Class is_digit) 1 3);
      Opt (Lit "-");
      Opt (Group 8 (word "TOR"))]);
    Eol].

(** ["{0}".format(x)] for a group: [None] prints as its name. *)
Definition format_group (g : option string) : string :=
  match g with Some s => s | None => "None" end.

(** [g.lstrip("0")]; a group that is [None] has no such method. *)
Definition lstrip_zeros (g : option string) : result string :=
  match g with
  | Some s => Ok (lstrip_char "0" s)
  | None => Raise AttributeError
  end.

(** ['-' + tor if tor is not None else ''] *)
Definition tor_suffix (tor : option string) : string :=
  match tor with Some t => "-" +:+ t | None => "" end.

(** The body of [is_servername_valid] up to its last line: the value of
    [return_servername] there, [None] standing for [False]. *)
Definition return_servername (servername : string) : result (option string) :=
  match search re_short servername with
  | Some user_server =>
      let country_code := group user_server 2 in
      bind (lstrip_zeros (group user_server 4)) (fun number =>
      let tor := group user_server 5 in
      let servername := format_group country_code +:+ "#" +:+ number in
      Ok (Some (servername +:+ tor_suffix tor)))
  | None =>
      match search re_long servername with
      | Some user_server =>
          let country_code := group user_server 3 in
          let country_code2 := group user_server 5 in
          bind (lstrip_zeros (group user_server 7)) (fun number =>
          let tor := group user_server 8 in
          Ok (Some (format_group country_code +:+ "-"
                    +:+ format_group country_code2 +:+ "#" +:+ number
                    +:+ tor_suffix tor)))
      | None => Ok None
      end
  end.

(** [not x] for [x] either [False] or a string. *)
Definition falsy (x : option string) : bool :=
  match x with
  | None => true
  | Some s => String.eqb s ""
  end.

Definition is_servername_valid (servername : pyobj) : result bool :=
  match servername with
  | PyStr servername =>
      bind (return_servername servername) (fun return_servername =>
      Ok (if falsy return_servername then false else true))
  | _ => Raise TypeError
  end.

(** The digits captured by whichever pattern matched: group 4 of the short
    pattern, group 7 of the long one. *)
Definition matched_number (servername : string) : option string :=
  match search re_short servername with
  | Some m => group m 4
  | None =>
      match search re_long servername with
      | Some m => group m 7
      | None => None
      end
  end.

Definition digits (ds : list ascii) : Prop := forallb is_digit ds = true.

(** The characters of ['-' + tor], or of the empty string. *)
Definition tor_chars (tor : option string) : list ascii :=
  match tor with
  | Some t => "-"%char :: chars t
  | None => []
  end.

(** *** The manager *)

(** What [cert_manager.generate_vpn_cert(protocol, session, servername,
    ip_list)] is asked to produce.  The certificate manager is an outside
    collaborator; the file it writes is identified here with the request. *)
Record vpn_cert := VpnCert {
  cert_protocol : string;
  cert_servername : string;
  cert_ip_list : list string
}.

Definition generate_vpn_cert (protocol : string) (_ : Session)
    (servername : string) (ip_list : list string) : M vpn_cert :=
  ret (VpnCert protocol servername ip_list).

Definition REFRESH_INTERVAL : Z := 15.

(** [x in xs] on integers. *)
Definition Z_in (x : Z) (xs : list Z) : bool := existsb (Z.eqb x) xs.

Definition allowed_features : gmap string Z :=
  list_to_map [("sc", 1); ("tor", 2); ("p2p", 4); ("stream", 8); ("ipv6", 16)].

(** Returns [None] in Python; here it hands back its arguments at the types
    the checks have established.  (The message of each [TypeError] branch is
    built with a stray unary [+] on a string, itself a [TypeError].) *)
Definition validate_session_protocol (session protocol : pyobj)
    : result (Session * string) :=
  match session with
  | PySession s =>
      match protocol with
      | PyStr p => if (String.length p =? 0)%nat then Raise ValueError else Ok (s, p)
      | _ => Raise TypeError
      end
  | _ => Raise TypeError
  end.

Section Manager.
Variable K : constants.

Definition cache_servers (session : Session) (force : bool)
    (cached_serverlist : pyobj) : M unit :=
  match cached_serverlist with
  | PyStr cached_serverlist =>
      if (String.length cached_serverlist =? 0)%nat then raise FileNotFoundError
      else
        is_directory <- isdir cached_serverlist ;;
        if is_directory then raise IsADirectoryError
        else
          home_exists <- isdir (PROTON_XDG_CACHE_HOME K) ;;
          (if home_exists then ret tt else mkdir (PROTON_XDG_CACHE_HOME K)) ;;;
          last_modified_time <-
            try_except (getmtime cached_serverlist)
                       (is_exn FileNotFoundError) (fun _ => now) ;;
          now_time <- now ;;
          let time_ago := now_time - timedelta_minutes REFRESH_INTERVAL in
          is_file <- isfile cached_serverlist ;;
          if negb is_file || ((time_ago >? last_modified_time) || force)
          then
            data <- request session "/vpn/logicals" ;;
            dump_json cached_serverlist data
          else ret tt
  | _ => raise TypeError
  end.

Definition extract_server_value {A} (servername : string)
    (key : server -> A) (servers : list server) : result A :=
  let value :=
    map key (List.filter (fun server => String.eqb (Name server) servername)
                         servers) in
  index value 0.

Definition generate_ip_list (servername : string) (servers : list server)
    : result (list string) :=
  bind (extract_server_value servername Servers servers) (fun subservers =>
  Ok (map EntryIP subservers)).

Definition fetch_user_tier (session : Session) : M Z :=
  data <- request session "/vpn" ;;
  match data with
  | JVpn max_tier => ret max_tier
  | _ => raise KeyError
  end.

Definition filter_servers (session : Session) : M (list server) :=
  server_data <- load_json (CACHED_SERVERLIST K) ;;
  user_tier <- fetch_user_tier session ;;
  match server_data with
  | JLogicals servers =>
      ret (List.filter
             (fun server => (Tier server <=? user_tier) && (Status server =? 1))
             servers)
  | _ => raise KeyError
  end.

Definition get_fastest_server (draw : nat) (server_pool : list server)
    : result string :=
  let fastest_pool := sorted Score server_pool in
  let pool_size := if (50 <=? length fastest_pool)%nat then 4%nat else 1%nat in
  bind (random_choice draw (take pool_size fastest_pool)) (fun fastest_server =>
  Ok (Name fastest_server)).

Definition fastest (draw : nat) (session protocol : pyobj) : M vpn_cert :=
  checked <- lift (validate_session_protocol session protocol) ;;
  let '(session, protocol) := checked in
  cache_servers session false (PyStr (CACHED_SERVERLIST K)) ;;;
  servers <- filter_servers session ;;
  let excluded_features := [1; 2] in
  let server_pool :=
    List.filter (fun server => negb (Z_in (Features server) excluded_features))
                servers in
  servername <- lift (get_fastest_server draw server_pool) ;;
  ip_list <- try_except (lift (generate_ip_list servername servers))
                        (is_exn IndexError) (fun _ => raise IllegalServername) ;;
  generate_vpn_cert protocol session servername ip_list.

(** [s.strip().upper()] and [s.strip().lower()] on an argument that may
    not be a string. *)
Definition str_method {A} (f : string -> A) (o : pyobj) : result A :=
  match o with
  | PyStr s => Ok (f (strip s))
  | _ => Raise AttributeError
  end.

Definition country_f (draw : nat) (session protocol : pyobj)
    (args : list pyobj) : M vpn_cert :=
  checked <- lift (validate_session_protocol session protocol) ;;
  let '(session, protocol) := checked in
  first <- lift (index args 0) ;;
  match first with
  | PyList l =>
      (* an [IndexError] of [args[0][1]] is raised again as [IndexError] *)
      country_code <- lift (bind (index l 1) (str_method upper)) ;;
      cache_servers session false (PyStr (CACHED_SERVERLIST K)) ;;;
      servers <- filter_servers session ;;
      let excluded_features := [1; 2] in
      let server_pool :=
        List.filter
          (fun server =>
             negb (Z_in (Features server) excluded_features)
             && eq_str (ExitCountry server) country_code)
          servers in
      if (length server_pool =? 0)%nat then raise ValueError
      else
        servername <- lift (get_fastest_server draw server_pool) ;;
        ip_list <- try_except (lift (generate_ip_list servername servers))
                              (is_exn IndexError)
                              (fun _ => raise IllegalServername) ;;
        generate_vpn_cert protocol session servername ip_list
  | _ => raise TypeError
  end.

Definition direct (session protocol : pyobj) (args : list pyobj) : M vpn_cert :=
  checked <- lift (validate_session_protocol session protocol) ;;
  let '(session, protocol) := checked in
  match args with
  | [] => raise ValueError
  | user_input :: _ =>
      user_input <- lift (match user_input with
                          | PyList l => index l 1
                          | _ => Ok user_input
                          end) ;;
      servername <- lift (str_method upper user_input) ;;
      valid <- lift (is_servername_valid user_input) ;;
      if negb valid then raise IllegalServername
      else
        cache_servers session false (PyStr (CACHED_SERVERLIST K)) ;;;
        servers <- filter_servers session ;;
        match servername with
        | Some servername =>
            ip_list <- try_except (lift (generate_ip_list servername servers))
                                  (is_exn IndexError)
                                  (fun _ => raise IllegalServername) ;;
            if negb (existsb (String.eqb servername) (map Name servers))
            then raise TypeError   (* the message is built with a unary [+] *)
            else generate_vpn_cert protocol session servername ip_list
        | None =>
            (* a name with a character above code point 255 is the name of
               no server of the catalog: [value[0]] raises [IndexError] *)
            raise IllegalServername
        end
  end.

Definition feature_f (draw : nat) (session protocol : pyobj)
    (args : list pyobj) : M vpn_cert :=
  checked <- lift (validate_session_protocol session protocol) ;;
  let '(session, protocol) := checked in
  match args with
  | [] => raise ValueError
  | PyList l :: _ =>
      first <- lift (index l 0) ;;
      literal_feature <- lift (str_method lower first) ;;
      match allowed_features !! literal_feature with
      | None => raise ValueError
      | Some feature =>
          cache_servers session false (PyStr (CACHED_SERVERLIST K)) ;;;
          servers <- filter_servers session ;;
          let server_pool :=
            List.filter (fun s => Features s =? feature) servers in
          if (length server_pool =? 0)%nat then raise ServerListEmptyError
          else
            servername <- lift (get_fastest_server draw server_pool) ;;
            ip_list <- try_except (lift (generate_ip_list servername servers))
                                  (is_exn IndexError) (fun _ => raise IllegalServername) ;;
            generate_vpn_cert protocol session servername ip_list
      end
  | _ :: _ => raise TypeError
  end.

Definition random_c (draw : nat) (session protocol : pyobj) : M vpn_cert :=
  checked <- lift (validate_session_protocol session protocol) ;;
  let '(session, protocol) := checked in
  servers <- filter_servers session ;;
  chosen <- lift (random_choice draw servers) ;;
  let servername := Name chosen in
  ip_list <- try_except (lift (generate_ip_list servername servers))
                        (is_exn IndexError) (fun _ => raise IllegalServername) ;;
  generate_vpn_cert protocol session servername ip_list.

End Manager.

(** *** Notions the properties are stated with *)

(** The size of the pool the draw is made from. *)
Definition pool_size (server_pool : list server) : nat :=
  if (50 <=? length server_pool)%nat then 4%nat else 1%nat.

(** Whether the feature mask of a server has one of the bits of [mask]. *)
Definition has_feature (mask : Z) (s : server) : bool :=
  negb (Z.land (Features s) mask =? 0).

Definition feature_literals : list string :=
  ["sc"; "tor"; "p2p"; "stream"; "ipv6"].


(** The refresh rule in the words of the design: forced, or the file is
    absent, or it was last modified more than the refresh interval ago. *)
Definition refresh_due (force : bool) (path : string) (w : world) : bool :=
  force ||
  match fs w !! path with
  | None | Some Dir => true
  | Some (File mtime _) | Some (Corrupt mtime _) =>
      clock w - mtime >? timedelta_minutes REFRESH_INTERVAL
  end.

(** A certificate request is for an eligible server when the cached
    catalog in [w] has a server of that name and those addresses whose tier
    the session reaches and whose status is 1. *)
Definition eligible (K : constants) (s : Session) (w : world)
    (cert : vpn_cert) : Prop :=
  exists t catalog tier server,
    fs w !! CACHED_SERVERLIST K = Some (File t (JLogicals catalog)) /\
    api_request s "/vpn" = Ok (JVpn tier) /\
    In server catalog /\ Tier server <= tier /\ Status server = 1 /\
    Name server = cert_servername cert /\
    cert_ip_list cert = map EntryIP (Servers server).

(** The same files and requests, [d] microseconds later. *)
Definition later (d : Z) (w : world) : world :=
  World (fs w) (clock w + d) (requests w).

End ServerManager.

(* ================================================================= *)
(** ** lib/services/connection_manager.py *)

Module ConnectionManager.
Import Py.
Export ServerManager (pyobj(..)).

(** *** The network-configuration service

    [NM.SettingVpn]: free-form data items and secrets. *)
Record setting_vpn := SettingVpn {
  data_items : gmap string string;
  secrets : gmap string string
}.

(** A connection profile is a VPN profile, which carries a VPN setting, or a
    profile of another type, which carries none. *)
Inductive profile :=
| Vpn (s : setting_vpn)
| Other (type_name : string).

(** [NM.Connection], [NM.RemoteConnection] *)
Record connection := Connection {
  get_id : string;
  get_profile : profile
}.

Definition get_connection_type (c : connection) : string :=
  match get_profile c with
  | Vpn _ => "vpn"
  | Other t => t
  end.

Definition get_setting_vpn (c : connection) : option setting_vpn :=
  match get_profile c with
  | Vpn s => Some s
  | Other _ => None
  end.

(** [NM.ActiveConnection]: an activation of a saved profile. *)
Record active_connection := ActiveConnection { get_connection : connection }.

Definition add_data_item (key item : string) (s : setting_vpn) : setting_vpn :=
  SettingVpn (<[key := item]> (data_items s)) (secrets s).

Definition add_secret (key secret : string) (s : setting_vpn) : setting_vpn :=
  SettingVpn (data_items s) (<[key := secret]> (secrets s)).

Definition get_data_item (key : string) (s : setting_vpn) : option string :=
  data_items s !! key.

(** The four asynchronous operations of the service. *)
Inductive operation := OpAdd | OpStart | OpStop | OpRemove.

(** What stands at a path: a regular file that reads as text, a regular
    file whose bytes are no text, or a directory.  Permissions are not
    modelled. *)
Inductive entry :=
| Text (content : string)
| Binary
| Folder.

(** *** The world the connection manager acts on

    The records the service holds and those of them that are active; what
    is on disk; the process environment; what was printed; and [accepts],
    which tells whether the service will carry out a given operation on a
    given record or report a failure to the callback. *)
Record world := World {
  connections : list connection;
  active_connections : list active_connection;
  files : gmap string entry;
  environ : gmap string string;
  printed : list (string * string);
  accepts : operation -> connection -> bool
}.

Abbreviation M := (Py.M world).
Local Open Scope m_scope.

Global Instance setting_vpn_eq_dec : EqDecision setting_vpn.
Proof. solve_decision. Defined.
Global Instance profile_eq_dec : EqDecision profile.
Proof. solve_decision. Defined.
Global Instance connection_eq_dec : EqDecision connection.
Proof. solve_decision. Defined.

(** Dropping the first occurrence of a record. *)
Fixpoint remove_first (c : connection) (l : list connection) : list connection :=
  match l with
  | [] => []
  | d :: l' => if decide (d = c) then l' else d :: remove_first c l'
  end.

Fixpoint deactivate_first (c : connection) (l : list active_connection)
    : list active_connection :=
  match l with
  | [] => []
  | a :: l' =>
      if decide (get_connection a = c) then l' else a :: deactivate_first c l'
  end.

(** What the service does when it carries out an operation; deleting a
    profile also ends its activations. *)
Definition carry_out (op : operation) (c : connection) (w : world) : world :=
  match op with
  | OpAdd =>
      World (connections w ++ [c]) (active_connections w)
            (files w) (environ w) (printed w) (accepts w)
  | OpStart =>
      World (connections w) (active_connections w ++ [ActiveConnection c])
            (files w) (environ w) (printed w) (accepts w)
  | OpStop =>
      World (connections w) (deactivate_first c (active_connections w))
            (files w) (environ w) (printed w) (accepts w)
  | OpRemove =>
      World (remove_first c (connections w))
            (List.filter (fun a => negb (bool_decide (get_connection a = c)))
                         (active_connections w))
            (files w) (environ w) (printed w) (accepts w)
  end.

(** One asynchronous request and the run of the main loop until its
    callback fires: the outcome the callback will read with the
    [..._finish] function. *)
Definition submit (op : operation) (c : connection) : M bool :=
  fun w =>
    if accepts w op c then (Ok true, carry_out op c w) else (Ok false, w).

(** What stands at a path, for [parent_error]. *)
Definition kind (files : gmap string entry) (path : string) : option bool :=
  match files !! path with
  | Some Folder => Some true
  | Some _ => Some false
  | None => None
  end.

(** [with open(filename, "r") as f: f.readlines()], up to the split into
    lines. *)
Definition read_text (filename : string) : M string :=
  fun w =>
    match files w !! filename with
    | Some (Text content) => (Ok content, w)
    | Some Binary => (Raise UnicodeDecodeError, w)
    | Some Folder => (Raise IsADirectoryError, w)
    | None => (Raise (absent_error (kind (files w)) filename), w)
    end.

Definition environ_get (name : string) : M (option string) :=
  fun w => (Ok (environ w !! name), w).

Definition print (conn_name callback_type : string) : M unit :=
  fun w =>
    (Ok tt, World (connections w) (active_connections w) (files w) (environ w)
                  (printed w ++ [(conn_name, callback_type)]) (accepts w)).

(** [plugin_manager], an outside collaborator: it reads a profile file and
    builds a connection from it, or raises. *)
Record plugin_manager := PluginManager {
  import_connection_from_file :
    string -> gmap string entry -> result connection
}.

(** A caller-supplied [delete_cached_cert]: given a file name it acts on
    the files, or raises. *)
Definition cleanup : Type :=
  string -> gmap string entry -> result unit * gmap string entry.

Definition call_cleanup (f : cleanup) (filename : string) : M unit :=
  fun w =>
    let '(r, files') := f filename (files w) in
    (r, World (connections w) (active_connections w) files' (environ w)
              (printed w) (accepts w)).

Definition import_connection (p : plugin_manager) (filename : string)
    : M connection :=
  fun w => (import_connection_from_file p filename (files w), w).

(** The per-call context handed to the callback. *)
Record callback_data := CallbackData {
  callback_type : string;
  conn_name : string;
  delete_cached_cert : option cleanup;
  filename : option string
}.

(** The object a callback receives as [client]: the [NM.Client] for add,
    start and stop, the [NM.RemoteConnection] itself for remove.  Only the
    latter has a [delete_finish]. *)
Inductive source := SrcClient | SrcRemoteConnection.

(** For each callback type, the exception that wraps a failed finish. *)
Definition callback_type_dict (client : source) : gmap string exn :=
  match client with
  | SrcRemoteConnection =>
      list_to_map [("remove", RemoveConnectionFinishError)]
  | SrcClient =>
      list_to_map [("add", AddConnectionFinishError);
                   ("start", StartConnectionFinishError);
                   ("stop", StopConnectionFinishError)]
  end.

(** [l.index(x)] *)
Fixpoint list_index (x : string) (l : list string) : result nat :=
  match l with
  | [] => Raise ValueError
  | y :: l' =>
      if String.eqb y x then Ok O
      else bind (list_index x l') (fun i => Ok (S i))
  end.

(** [not s.strip()] *)
Definition blank (s : string) : bool := String.eqb (strip s) "".

(** *** The manager *)

Section Manager.
Variable K : constants.
(** [self.plugin_manager], [self.virtual_device_name] *)
Variable self_plugin_manager : plugin_manager.
Variable virtual_device_name : string.

Definition dynamic_callback (client : source) (result : bool)
    (data : callback_data) : M unit :=
  let callback_type_dict := callback_type_dict client in
  (* a missing key raises again inside the handler *)
  match callback_type_dict !! callback_type data with
  | None => raise KeyError
  | Some exception =>
      (if result then print (conn_name data) (callback_type data)
       else raise exception) ;;;
      ci <- environ_get (ENV_CI_NAME K) ;;
      (match ci with
       | Some (String _ _) => ret tt
       | _ =>
           if String.eqb (callback_type data) "add"
           then match delete_cached_cert data, filename data with
                | Some delete_cached_cert, Some filename =>
                    call_cleanup delete_cached_cert filename
                | _, _ => raise TypeError
                end
           else ret tt
       end)
  end.

Definition extract_virtual_device_type (filename : string) : M string :=
  let virtual_dev_type_list := ["tun"; "tap"] in
  content <- read_text filename ;;
  let content_list := readlines content in
  let dev_type := map rstrip (List.filter (contains "dev") content_list) in
  dev_type <-
    try_except
      (lift (bind (index dev_type 0) (fun first => index (split first) 1)))
      (is_exn IndexError) (fun _ => raise VirtualDeviceNotFound) ;;
  match list_index dev_type virtual_dev_type_list with
  | Raise _ => raise IllegalVirtualDevice
  | Ok index => lift (Py.index virtual_dev_type_list index)
  end.

(** The settings object is the connection's own; the changed settings are
    handed back to be stored in it. *)
Definition set_virtual_device_type (vpn_settings : setting_vpn)
    (filename : string) : M setting_vpn :=
  virtual_device_type <- extract_virtual_device_type filename ;;
  ret (add_data_item "dev-type" virtual_device_type
         (add_data_item "dev" virtual_device_name vpn_settings)).

(** The record found, as the object the list held it in. *)
Inductive found :=
| Remote (c : connection)
| Active (a : active_connection).

Definition saved (f : found) : connection :=
  match f with
  | Remote c => c
  | Active a => get_connection a
  end.

(** The loop of [get_proton_connection] over one list; [None] is the
    tuple [(False,)]. *)
Fixpoint first_proton (wrap : connection -> found) (all_cons : list connection)
    : result (option (found * string)) :=
  match all_cons with
  | [] => Ok None
  | conn :: all_cons' =>
      if String.eqb (get_connection_type conn) "vpn"
      then match get_setting_vpn conn with
           | None => Raise AttributeError
           | Some vpn_settings =>
               if bool_decide (get_data_item "dev" vpn_settings
                               = Some virtual_device_name)
               then Ok (Some (wrap conn, get_id conn))
               else first_proton wrap all_cons'
           end
      else first_proton wrap all_cons'
  end.

Definition get_proton_connection (connection_type : string)
    : M (option (found * string)) :=
  fun w =>
    if String.eqb connection_type "all_connections"
    then (first_proton Remote (connections w), w)
    else if String.eqb connection_type "active_connections"
    then (first_proton (fun c => Active (ActiveConnection c))
                       (map get_connection (active_connections w)), w)
    else (Raise KeyError, w).

Definition start_connection : M unit :=
  conn <- get_proton_connection "all_connections" ;;
  match conn with
  | None => raise ConnectionNotFound
  | Some (conn, conn_name) =>
      result <- submit OpStart (saved conn) ;;
      dynamic_callback SrcClient result
                       (CallbackData "start" conn_name None None)
  end.

(** Returns [False] when nothing is active, [None] otherwise. *)
Definition stop_connection : M (option bool) :=
  conn <- get_proton_connection "active_connections" ;;
  match conn with
  | None => ret (Some false)
  | Some (conn, conn_name) =>
      result <- submit OpStop (saved conn) ;;
      dynamic_callback SrcClient result
                       (CallbackData "stop" conn_name None None) ;;;
      ret None
  end.

Definition remove_connection : M unit :=
  conn <- get_proton_connection "all_connections" ;;
  match conn with
  | None => raise ConnectionNotFound
  | Some (conn, conn_name) =>
      stop_connection ;;;
      result <- submit OpRemove (saved conn) ;;
      dynamic_callback SrcRemoteConnection result
                       (CallbackData "remove" conn_name None None)
  end.

Definition add_connection (filename username password : pyobj)
    (delete_cached_cert : cleanup) : M unit :=
  match filename with
  | PyStr filename =>
      if blank filename then raise ValueError
      else
        match username, password with
        | PyStr username, PyStr password =>
            if blank username || blank password then raise ValueError
            else
              try_except (call_cleanup delete_cached_cert "test") (fun _ => true)
                (fun e => if is_exn FileNotFoundError e then ret tt
                          else raise NotImplementedError) ;;;
              connection <- import_connection self_plugin_manager filename ;;
              match get_setting_vpn connection with
              | None => raise AddConnectionCredentialsError
              | Some vpn_settings =>
                  let vpn_settings :=
                    add_secret "password" password
                      (add_data_item "username" username vpn_settings) in
                  vpn_settings <- set_virtual_device_type vpn_settings filename ;;
                  let connection :=
                    Connection (get_id connection) (Vpn vpn_settings) in
                  try_except remove_connection (is_exn ConnectionNotFound)
                             (fun _ => ret tt) ;;;
                  result <- submit OpAdd connection ;;
                  dynamic_callback SrcClient result
                    (CallbackData "add" (get_id connection)
                                  (Some delete_cached_cert) (Some filename))
              end
        | _, _ => raise TypeError
        end
  | _ => raise TypeError
  end.

(** *** Notions the properties are stated with *)

(** A record is the managed one when the [dev] item of its VPN settings is
    the fixed virtual-device name. *)
Definition is_managed (c : connection) : bool :=
  match get_setting_vpn c with
  | Some vpn_settings =>
      bool_decide (get_data_item "dev" vpn_settings = Some virtual_device_name)
  | None => false
  end.

Definition managed_count (w : world) : nat :=
  length (List.filter is_managed (connections w)).

(** The records that are not the managed one. *)
Definition unmanaged (w : world) : list connection :=
  List.filter (fun c => negb (is_managed c)) (connections w).

(** The first managed record of a list. *)
Definition first_managed (l : list connection) : option connection :=
  head (List.filter is_managed l).

End Manager.

End ConnectionManager.

(* ================================================================= *)
(** ** lib/services/user_manager.py *)

Module UserManager.
Import Py.
Import ServerManager (pyobj(..)).

(** (The message of each [TypeError] branch is built with a stray unary
    [+] on a string, itself a [TypeError].) *)
Definition validate_username_password (username password : pyobj)
    : result unit :=
  match username with
  | PyStr username =>
      match password with
      | PyStr password =>
          if ConnectionManager.blank username || ConnectionManager.blank password
          then Raise ValueError
          else Ok tt
      | _ => Raise TypeError
      end
  | _ => Raise TypeError
  end.

End UserManager.

(* ================================================================= *)
(** ** Sample data *)

Module Examples.
Import Py.

Definition example_constants : constants :=
  Constants "/cache/serverlist.json" "/cache" "CI" "proton0".

Section Catalog.
Import ServerManager.

Definition example_server (name : string) (features : Z) (score : Q) : server :=
  Server name 0 1 features score "CH" [Subserver "10.0.0.1"].

(** A session of tier 2 that serves [catalog]. *)
Definition example_session (catalog : list server) : Session :=
  {| api_request := fun endpoint =>
       if String.eqb endpoint "/vpn" then Ok (JVpn 2)
       else Ok (JLogicals catalog) |}.

Definition empty_world : world := World ∅ 0 [].

(** A world whose cache file was written [age] minutes ago. *)
Definition cached_world (age : Z) (catalog : list server) : world :=
  World (<[CACHED_SERVERLIST example_constants :=
             File (timedelta_minutes (100 - age)) (JLogicals catalog)]>
           (<[PROTON_XDG_CACHE_HOME example_constants := Dir]> ∅))
        (timedelta_minutes 100) [].

(** Fifty servers, the n-th with score n. *)
Definition fifty_servers : list server :=
  map (fun n : nat => example_server "CH#1" 0 (Z.of_nat n # 1)) (seq 0 50).

End Catalog.

Section Profiles.
Import ConnectionManager.

Definition line (s : string) : string := s +:+ String LF "".

(** An OpenVPN profile with the given [dev] directive. *)
Definition example_profile (dev : string) : string :=
  line "client" +:+ line dev +:+ line "proto udp".

(** A plugin that turns any file into a VPN profile named after it. *)
Definition example_plugin : plugin_manager :=
  PluginManager (fun filename _ =>
    Ok (Connection filename (Vpn (SettingVpn ∅ ∅)))).

(** [os.remove] *)
Definition remove_file : cleanup :=
  fun filename files =>
    match files !! filename with
    | Some Folder => (Raise IsADirectoryError, files)
    | Some _ => (Ok tt, delete filename files)
    | None => (Raise (absent_error (kind files) filename), files)
    end.

(** No record yet, three profiles on disk, a service that accepts every
    request. *)
Definition fresh_world : world :=
  World [] []
        (<["ch.ovpn" := Text (example_profile "dev tun")]>
           (<["us.ovpn" := Text (example_profile "dev tap")]>
              (<["tun0.ovpn" := Text (example_profile "dev tun0")]> ∅)))
        ∅ [] (fun _ _ => true).

End Profiles.

End Examples.

(* ================================================================= *)
(** ** Properties *)

Section RegexFacts.
Import Py Regex.

Lemma head_In {A} (l : list A) (x : A) : head l = Some x -> In x l.
Proof. destruct l; simpl; [discriminate | intros [= ->]; now left]. Qed.

Lemma in_run_cat r1 r2 st m :
  In m (run (Cat r1 r2) st) <-> exists mid, In mid (run r1 st) /\ In m (run r2 mid).
Proof. simpl. apply in_flat_map. Qed.

Lemma in_run_alt r1 r2 st m :
  In m (run (Alt r1 r2) st) <-> In m (run r1 st) \/ In m (run r2 st).
Proof. simpl. apply in_app_iff. Qed.

Lemma in_run_opt r st m :
  In m (run (Opt r) st) <-> In m (run r st) \/ m = st.
Proof. simpl. rewrite in_app_iff. simpl. intuition. Qed.

Lemma in_run_group i r st m :
  In m (run (Group i r) st) <-> exists m', In m' (run r st) /\ m = close i st m'.
Proof. simpl. rewrite in_map_iff. split; intros (m' & ? & ?); exists m'; auto. Qed.

Lemma in_step p st m :
  In m (step p st) <->
  exists c l, rest st = c :: l /\ p c = true /\ m = MState (S (pos st)) l (caps st).
Proof.
  unfold step. destruct (rest st) as [|c l].
  - split; [intros [] | intros (? & ? & ? & _); discriminate].
  - destruct (p c) eqn:E; simpl.
    + split.
      * intros [<- | []]. eauto.
      * intros (? & ? & [= <- <-] & _ & ->). now left.
    + split; [intros [] | intros (? & ? & [= <- <-] & ? & _); congruence].
Qed.

Lemma in_repeat_S f lo hi st m :
  In m (repeat_greedy f lo (S hi) st) <->
  (exists mid, In mid (f st) /\ In m (repeat_greedy f (Nat.pred lo) hi mid))
  \/ (lo = O /\ m = st).
Proof.
  simpl. rewrite in_app_iff, in_flat_map.
  destruct lo; simpl; intuition; discriminate.
Qed.

Lemma in_repeat_O f lo st m :
  In m (repeat_greedy f lo O st) <-> lo = O /\ m = st.
Proof. destruct lo; simpl; intuition; discriminate. Qed.

Lemma in_run_eol st m :
  In m (run Eol st) <-> m = st /\ (rest st = [] \/ rest st = [LF]).
Proof.
  simpl. destruct (rest st) as [|c [|d l]]; simpl.
  - intuition.
  - destruct (Ascii.eqb c LF) eqn:E; simpl.
    + apply Ascii.eqb_eq in E. subst. intuition.
    + split; [intros [] | intros (_ & [? | [= ->]]); [discriminate | ]].
      rewrite Ascii.eqb_refl in E. discriminate.
  - split; [intros [] | intros (_ & [? | ?]); discriminate].
Qed.

Lemma in_run_bol st m :
  In m (run Bol st) <-> m = st /\ pos st = O.
Proof. simpl. destruct (pos st); simpl; intuition; discriminate. Qed.

(** A pattern anchored with [^] can only match at offset 0. *)
Lemma search_from_bol r p l :
  search_from (Cat Bol r) (S p) l = None.
Proof. revert p. induction l; intros p; simpl; auto. Qed.

Lemma search_bol r s :
  search (Cat Bol r) s = head (run r (MState 0 (chars s) [])).
Proof.
  unfold search. destruct (chars s); simpl; rewrite app_nil_r;
    destruct (head _); auto using search_from_bol.
Qed.

End RegexFacts.

Section Grammar.
Import Py Regex ServerManager.

Ltac inv_step :=
  match goal with
  | H : In _ (run _ (close _ _ (MState _ _ _))) |- _ =>
      unfold close in H; cbn [rest pos caps Nat.sub take] in H
  | H : In _ (repeat_greedy _ _ _ (close _ _ (MState _ _ _))) |- _ =>
      unfold close in H; cbn [rest pos caps Nat.sub take] in H
  | H : In _ (run (Cat _ _) (MState _ _ _)) |- _ =>
      apply in_run_cat in H; destruct H as (? & H & ?)
  | H : In _ (run (Alt _ _) (MState _ _ _)) |- _ =>
      apply in_run_alt in H; destruct H as [H | H]
  | H : In _ (run (Opt _) (MState _ _ _)) |- _ =>
      apply in_run_opt in H; destruct H as [H | ->]
  | H : In _ (run (Group _ _) (MState _ _ _)) |- _ =>
      apply in_run_group in H; destruct H as (? & H & ->)
  | H : In _ (run (Class _) (MState _ _ _)) |- _ =>
      apply in_step in H; cbn [rest pos caps] in H;
      destruct H as (? & ? & -> & ? & ->)
  | H : In _ (run (Lit _) (MState _ _ _)) |- _ =>
      apply in_step in H; cbn [rest pos caps] in H;
      let E := fresh in
      destruct H as (? & ? & -> & E & ->); apply Ascii.eqb_eq in E; subst
  | H : In _ (run (Rep ?r ?lo ?hi) ?st) |- _ =>
      change (run (Rep r lo hi) st) with (repeat_greedy (run r) lo hi st) in H
  | H : In _ (repeat_greedy _ _ (S _) (MState _ _ _)) |- _ =>
      apply in_repeat_S in H; cbn [Nat.pred] in H;
      destruct H as [(? & H & ?) | (? & ->)]; [ | try discriminate ]
  | H : In _ (repeat_greedy _ _ O (MState _ _ _)) |- _ =>
      apply in_repeat_O in H; destruct H as (? & ->); try discriminate
  | H : In _ (run Eps (MState _ _ _)) |- _ => destruct H as [<- | []]
  | H : In _ (run Eol (MState _ _ _)) |- _ =>
      apply in_run_eol in H; cbn [rest pos caps] in H;
      destruct H as (-> & [-> | ->])
  end.

Ltac class_facts :=
  repeat match goal with
         | H : _ = true |- _ => rewrite H
         end.

Ltac close_shape :=
  unfold group, digits; cbn [caps assoc Nat.eqb forallb length take];
  repeat split;
  first [ reflexivity
        | right; reflexivity
        | left; reflexivity
        | assumption
        | cbn [forallb]; class_facts; reflexivity
        | cbn [length]; lia
        | left; do 2 eexists; repeat split; first [reflexivity | assumption] ].

Lemma re_short_inv x m :
  search re_short x = Some m ->
  exists c1 c2 ds tor,
    group m 2 = Some (text [c1; c2]) /\
    group m 4 = Some (text ds) /\
    group m 5 = tor /\ (tor = None \/ tor = Some "TOR") /\
    is_word c1 = true /\ is_word c2 = true /\ digits ds /\
    (1 <= length ds <= 3)%nat.
Proof.
  unfold re_short, cat_all. cbn [foldr]. rewrite search_bol.
  intros H. apply head_In in H.
  remember (chars x) as l0 eqn:E. clear E x.
  cbv [word cat_all foldr map chars String.list_ascii_of_string] in H.
  repeat inv_step.
  all: do 4 eexists; close_shape.
Qed.

Lemma re_long_inv x m :
  search re_long x = Some m ->
  exists c1 c2 cc2 ds tor,
    group m 3 = Some (text [c1; c2]) /\
    group m 5 = Some (text cc2) /\
    group m 7 = Some (text ds) /\
    group m 8 = tor /\ (tor = None \/ tor = Some "TOR") /\
    is_word c1 = true /\ is_word c2 = true /\
    ((exists u1 u2, cc2 = [u1; u2] /\ is_ascii_upper u1 = true
                    /\ is_ascii_upper u2 = true)
     \/ cc2 = chars "FREE") /\
    digits ds /\ (1 <= length ds <= 3)%nat.
Proof.
  unfold re_long, cat_all. cbn [foldr]. rewrite search_bol.
  intros H. apply head_In in H.
  remember (chars x) as l0 eqn:E. clear E x.
  cbv [word cat_all foldr map chars String.list_ascii_of_string] in H.
  repeat inv_step.
  all: do 5 eexists; close_shape.
Qed.

Ltac bool_facts :=
  repeat match goal with
         | H : _ = true |- _ => rewrite H
         | H : _ = false |- _ => rewrite H
         end.

(** Class tests on literal characters are evaluated; those on variables are
    left for the hypotheses to settle. *)
Ltac literal_class p :=
  repeat match goal with
         | |- context [p ?c] =>
             tryif is_var c then fail
             else (let b := eval vm_compute in (p c) in
                   change (p c) with b)
         end.

Ltac eval_match :=
  repeat (progress (cbn; bool_facts;
                    literal_class is_digit; literal_class is_word;
                    literal_class is_ascii_upper)).

Ltac short_digit_lists ds :=
  destruct ds as [|?d [|?d [|?d [|? ?]]]];
  cbn [length forallb] in *; try lia;
  repeat match goal with
         | H : _ && _ = true |- _ => apply andb_prop in H; destruct H
         end.

(** The canonical short form is matched by the short pattern, group for
    group. *)
Lemma re_short_canonical c1 c2 ds tor :
  is_word c1 = true -> is_word c2 = true ->
  digits ds -> (1 <= length ds <= 3)%nat ->
  tor = None \/ tor = Some "TOR" ->
  exists m,
    search re_short (text (c1 :: c2 :: "#"%char :: ds ++ tor_chars tor)) = Some m /\
    group m 2 = Some (text [c1; c2]) /\
    group m 4 = Some (text ds) /\
    group m 5 = tor.
Proof.
  intros Hc1 Hc2 Hds Hlen Htor. unfold digits in Hds.
  unfold re_short, cat_all. cbn [foldr]. rewrite search_bol.
  short_digit_lists ds; destruct Htor; subst tor;
    eval_match; eexists; repeat split; reflexivity.
Qed.

Lemma upper_not_digit c : is_ascii_upper c = true -> is_digit c = false.
Proof.
  unfold is_ascii_upper, is_digit, between.
  destruct (N.leb_spec 65 (code c)), (N.leb_spec (code c) 57); simpl;
    try discriminate; try lia.
Qed.

(** The canonical long form is matched by the long pattern only. *)
Lemma re_long_canonical c1 c2 cc2 ds tor :
  is_word c1 = true -> is_word c2 = true ->
  ((exists u1 u2, cc2 = [u1; u2] /\ is_ascii_upper u1 = true
                  /\ is_ascii_upper u2 = true)
   \/ cc2 = chars "FREE") ->
  digits ds -> (1 <= length ds <= 3)%nat ->
  tor = None \/ tor = Some "TOR" ->
  let y := text (c1 :: c2 :: "-"%char :: cc2 ++ "#"%char :: ds ++ tor_chars tor) in
  search re_short y = None /\
  exists m,
    search re_long y = Some m /\
    group m 3 = Some (text [c1; c2]) /\
    group m 5 = Some (text cc2) /\
    group m 7 = Some (text ds) /\
    group m 8 = tor.
Proof.
  intros Hc1 Hc2 Hcc Hds Hlen Htor y. subst y. unfold digits in Hds.
  unfold re_short, re_long, cat_all. cbn [foldr]. rewrite !search_bol.
  destruct Hcc as [(u1 & u2 & -> & Hu1 & Hu2) | ->].
  - pose proof (upper_not_digit _ Hu1) as Hn1.
    short_digit_lists ds; destruct Htor; subst tor;
      (split; [eval_match; reflexivity
              | eval_match; eexists; repeat split; reflexivity]).
  - short_digit_lists ds; destruct Htor; subst tor;
      (split; [eval_match; reflexivity
              | eval_match; eexists; repeat split; reflexivity]).
Qed.

Lemma chars_text l : chars (text l) = l.
Proof. apply String.list_ascii_of_string_of_list_ascii. Qed.

Lemma text_chars s : text (chars s) = s.
Proof. apply String.string_of_list_ascii_of_string. Qed.

Lemma text_app l1 l2 : text (l1 ++ l2) = text l1 +:+ text l2.
Proof.
  unfold text. induction l1 as [|c l1 IH]; simpl; [reflexivity | now rewrite IH].
Qed.

Lemma drop_while_idem p l : drop_while p (drop_while p l) = drop_while p l.
Proof.
  induction l as [|c l IH]; simpl; [reflexivity|].
  destruct (p c) eqn:E; [exact IH | simpl; now rewrite E].
Qed.

Lemma drop_while_digits p l : digits l -> digits (drop_while p l).
Proof.
  unfold digits. induction l as [|c l IH]; simpl; [auto|].
  intros H. apply andb_prop in H as [Hc Hl].
  destruct (p c); [auto | cbn [forallb]; rewrite Hc, Hl; reflexivity].
Qed.

Lemma drop_while_length p l : (length (drop_while p l) <= length l)%nat.
Proof. induction l as [|c l IH]; simpl; [lia | destruct (p c); simpl; lia]. Qed.

Lemma lstrip_char_text c l : lstrip_char c (text l) = text (drop_while (Ascii.eqb c) l).
Proof. unfold lstrip_char. now rewrite chars_text. Qed.

Lemma tor_suffix_text tor : tor_suffix tor = text (tor_chars tor).
Proof. destruct tor; simpl; [now rewrite text_chars | reflexivity]. Qed.

Lemma short_form_text c1 c2 ds tor :
  (String c1 (String c2 "") +:+ "#" +:+ text ds) +:+ tor_suffix tor
  = text (c1 :: c2 :: "#"%char :: ds ++ tor_chars tor).
Proof.
  rewrite tor_suffix_text.
  change (String c1 (String c2 (String "#" (text ds +:+ text (tor_chars tor))))
          = String c1 (String c2 (String "#" (text (ds ++ tor_chars tor))))).
  now rewrite text_app.
Qed.

Lemma long_form_text c1 c2 cc2 ds tor :
  String c1 (String c2 "") +:+ "-" +:+ text cc2 +:+ "#" +:+ text ds
    +:+ tor_suffix tor
  = text (c1 :: c2 :: "-"%char :: cc2 ++ "#"%char :: ds ++ tor_chars tor).
Proof.
  rewrite tor_suffix_text.
  change (String c1 (String c2 (String "-"
            (text cc2 +:+ String "#" (text ds +:+ text (tor_chars tor)))))
          = String c1 (String c2 (String "-"
              (text (cc2 ++ "#"%char :: ds ++ tor_chars tor))))).
  rewrite text_app. simpl. now rewrite text_app.
Qed.

Lemma text_nonempty l : text l <> "" -> (1 <= length l)%nat.
Proof. destruct l; simpl; [congruence | lia]. Qed.

Lemma return_servername_total s : exists r, return_servername s = Ok r.
Proof.
  unfold return_servername.
  destruct (search re_short s) as [m|] eqn:Es.
  - destruct (re_short_inv _ _ Es) as (c1 & c2 & ds & tor & _ & -> & _).
    simpl. eauto.
  - destruct (search re_long s) as [m|] eqn:El; [|eauto].
    destruct (re_long_inv _ _ El) as (c1 & c2 & cc2 & ds & tor & _ & _ & -> & _).
    simpl. eauto.
Qed.

(** C8 (as amended).  On every string [is_servername_valid] returns a
    boolean and does not raise; on any argument that is not a string it
    raises [TypeError], as its first check says. *)
Theorem valid_total_on_strings (servername : pyobj) :
  match servername with
  | PyStr _ => exists b, is_servername_valid servername = Ok b
  | _ => is_servername_valid servername = Raise TypeError
  end.
Proof.
  destruct servername; try reflexivity.
  destruct (return_servername_total s) as [r Hr].
  simpl. rewrite Hr. simpl. eauto.
Qed.

(** C9 (as amended).  For every servername the grammar accepts whose
    number is not made of zeros only, the normalised name is accepted again
    and normalises to itself. *)
Theorem normalize_idempotent (x y n : string) :
  return_servername x = Ok (Some y) ->
  matched_number x = Some n ->
  lstrip_char "0" n <> "" ->
  return_servername y = Ok (Some y) /\ is_servername_valid (PyStr y) = Ok true.
Proof.
  intros Hx Hn Hnz.
  assert (Hy : return_servername y = Ok (Some y)); cycle 1.
  { split; [exact Hy|]. simpl. rewrite Hy. simpl.
    destruct (String.eqb y "") eqn:E; [|reflexivity].
    apply String.eqb_eq in E. subst y.
    revert Hy. vm_compute. discriminate. }
  revert Hx Hn. unfold return_servername at 1, matched_number.
  destruct (search re_short x) as [m|] eqn:Es.
  - destruct (re_short_inv _ _ Es)
      as (c1 & c2 & ds & tor & -> & -> & -> & Htor & Hc1 & Hc2 & Hds & Hlen).
    cbn [lstrip_zeros bind format_group]. intros [= <-] [= <-].
    rewrite lstrip_char_text in *.
    set (ds' := drop_while (Ascii.eqb "0") ds) in *.
    assert (Hds' : digits ds') by now apply drop_while_digits.
    assert (Hlen' : (1 <= length ds' <= 3)%nat).
    { split; [now apply text_nonempty|].
      pose proof (drop_while_length (Ascii.eqb "0") ds). subst ds'. lia. }
    destruct (re_short_canonical c1 c2 ds' tor Hc1 Hc2 Hds' Hlen' Htor)
      as (m' & Hm' & G2 & G4 & G5).
    rewrite short_form_text.
    unfold return_servername. rewrite Hm', G2, G4, G5.
    cbn [lstrip_zeros bind format_group].
    rewrite lstrip_char_text. subst ds'. rewrite drop_while_idem.
    now rewrite <- short_form_text.
  - destruct (search re_long x) as [m|] eqn:El; [|discriminate].
    destruct (re_long_inv _ _ El)
      as (c1 & c2 & cc2 & ds & tor & -> & -> & -> & -> & Htor & Hc1 & Hc2
          & Hcc & Hds & Hlen).
    cbn [lstrip_zeros bind format_group]. intros [= <-] [= <-].
    rewrite lstrip_char_text in *.
    set (ds' := drop_while (Ascii.eqb "0") ds) in *.
    assert (Hds' : digits ds') by now apply drop_while_digits.
    assert (Hlen' : (1 <= length ds' <= 3)%nat).
    { split; [now apply text_nonempty|].
      pose proof (drop_while_length (Ascii.eqb "0") ds). subst ds'. lia. }
    destruct (re_long_canonical c1 c2 cc2 ds' tor Hc1 Hc2 Hcc Hds' Hlen' Htor)
      as (Hshort & m' & Hm' & G3 & G5 & G7 & G8).
    rewrite long_form_text.
    unfold return_servername. rewrite Hshort, Hm', G3, G5, G7, G8.
    cbn [lstrip_zeros bind format_group].
    rewrite lstrip_char_text. subst ds'. rewrite drop_while_idem.
    now rewrite <- long_form_text.
Qed.
End Grammar.


Lemma In_take {A} n (l : list A) a : In a (take n l) -> In a l.
Proof.
  revert n. induction l as [|x l IH]; intros [|n]; simpl; try tauto.
  intros [-> | H]; eauto.
Qed.

Lemma In_drop {A} n (l : list A) a : In a (drop n l) -> In a l.
Proof.
  revert n. induction l as [|x l IH]; intros [|n]; simpl; try tauto.
  eauto.
Qed.

Section Sorting.
Import Py ServerManager.
Context {A : Type} (key : A -> Q).

Lemma Qltb_true a b : Qltb a b = true -> (a < b)%Q.
Proof.
  unfold Qltb. intros H. apply negb_true_iff in H.
  apply Qnot_le_lt. intros Hle. apply Qle_bool_iff in Hle. congruence.
Qed.

Lemma Qltb_false a b : Qltb a b = false -> (b <= a)%Q.
Proof.
  unfold Qltb. intros H. apply negb_false_iff in H. now apply Qle_bool_iff.
Qed.

Lemma insert_by_perm x l : Permutation (insert_by key x l) (x :: l).
Proof.
  induction l as [|y l IH]; simpl; [reflexivity|].
  destruct (Qltb (key y) (key x)); [|reflexivity].
  rewrite IH. apply perm_swap.
Qed.

Lemma sorted_perm l : Permutation (sorted key l) l.
Proof.
  induction l as [|x l IH]; simpl; [reflexivity|].
  rewrite insert_by_perm. now constructor.
Qed.

Definition key_le (a b : A) : Prop := (key a <= key b)%Q.

Lemma insert_by_sorted x l :
  StronglySorted key_le l -> StronglySorted key_le (insert_by key x l).
Proof.
  induction 1 as [|y l Hl IH Hy]; simpl.
  - repeat constructor.
  - destruct (Qltb (key y) (key x)) eqn:E.
    + constructor; [exact IH|].
      apply Qltb_true, Qlt_le_weak in E.
      eapply Permutation_Forall; [symmetry; apply insert_by_perm|].
      constructor; assumption.
    + apply Qltb_false in E.
      constructor; [now constructor|].
      constructor; [exact E|].
      eapply Forall_impl; [exact Hy|].
      intros b Hb. unfold key_le in *. eapply Qle_trans; eassumption.
Qed.

Lemma sorted_sorted l : StronglySorted key_le (sorted key l).
Proof.
  induction l; simpl; [constructor | now apply insert_by_sorted].
Qed.

Lemma sorted_length l : length (sorted key l) = length l.
Proof. apply Permutation_length, sorted_perm. Qed.

(** In a sorted list, nothing in a prefix is above anything after it. *)
Lemma sorted_split n l a b :
  StronglySorted key_le l ->
  In a (take n l) -> In b (drop n l) -> key_le a b.
Proof.
  intros Hs. revert n. induction Hs as [|x l Hl IH Hx]; intros n.
  - destruct n; intros [].
  - destruct n as [|n]; [intros []|]. simpl. intros [<- | Ha] Hb.
    + rewrite List.Forall_forall in Hx. apply Hx. eapply In_drop, Hb.
    + eauto.
Qed.
End Sorting.

Section Selection.
Import Examples.
Import Py ServerManager.
Local Open Scope m_scope.

Lemma random_choice_In {A} draw (l : list A) :
  l <> [] -> exists a, random_choice draw l = Ok a /\ In a l.
Proof.
  intros Hl. unfold random_choice, index.
  destruct l as [|x l']; [congruence|].
  set (l := x :: l') in *.
  assert (Hlt : (draw mod length l < length l)%nat)
    by (apply Nat.mod_upper_bound; subst l; simpl; lia).
  destruct (lookup_lt_is_Some_2 _ _ Hlt) as [a Ha].
  rewrite Ha. exists a. split; [reflexivity|].
  apply list_elem_of_In. eapply list_elem_of_lookup_2, Ha.
Qed.

Lemma random_choice_inv {A} draw (l : list A) a :
  random_choice draw l = Ok a -> In a l.
Proof.
  intros H. destruct l as [|x l']; [discriminate|].
  destruct (random_choice_In draw (x :: l')) as (b & Hb & Hin); [congruence|].
  congruence.
Qed.

Lemma get_fastest_server_eq draw server_pool :
  get_fastest_server draw server_pool =
  bind (random_choice draw (take (pool_size server_pool) (sorted Score server_pool)))
       (fun s => Ok (Name s)).
Proof. unfold get_fastest_server, pool_size. now rewrite sorted_length. Qed.

Lemma get_fastest_server_inv draw server_pool name :
  get_fastest_server draw server_pool = Ok name ->
  exists chosen, In chosen server_pool /\ Name chosen = name.
Proof.
  rewrite get_fastest_server_eq. unfold bind.
  destruct (random_choice _ _) as [chosen|] eqn:E; [|discriminate].
  intros [= <-]. exists chosen. split; [|reflexivity].
  apply random_choice_inv in E. apply In_take in E.
  exact (Permutation_in _ (sorted_perm Score server_pool) E).
Qed.

Lemma get_fastest_server_some draw server_pool :
  server_pool <> [] ->
  exists chosen,
    get_fastest_server draw server_pool = Ok (Name chosen) /\ In chosen server_pool.
Proof.
  intros Hne. rewrite get_fastest_server_eq.
  assert (Hne' : take (pool_size server_pool) (sorted Score server_pool) <> []).
  { intros E. apply (f_equal length) in E.
    rewrite length_take, sorted_length in E. unfold pool_size in E.
    destruct server_pool; [congruence|]. cbn [length] in E.
    destruct (50 <=? _)%nat; simpl in E; lia. }
  destruct (random_choice_In draw _ Hne') as (chosen & Hc & Hin).
  exists chosen. rewrite Hc. split; [reflexivity|].
  apply In_take in Hin.
  exact (Permutation_in _ (sorted_perm Score server_pool) Hin).
Qed.

(** C6.  From a non-empty pool the selector returns the name of one of
    the [k] entries of lowest score, [k] being 4 when the pool has at least
    50 entries and 1 otherwise; below 50 the result does not depend on the
    random draw. *)
Theorem top_k_selection (draw : nat) (server_pool : list server) :
  server_pool <> [] ->
  exists chosen top rest,
    get_fastest_server draw server_pool = Ok (Name chosen) /\
    In chosen top /\
    Permutation server_pool (top ++ rest) /\
    (forall a b, In a top -> In b rest -> (Score a <= Score b)%Q) /\
    length top = (if (50 <=? length server_pool)%nat then 4 else 1)%nat /\
    ((length server_pool < 50)%nat ->
     forall draw', get_fastest_server draw' server_pool = Ok (Name chosen)).
Proof.
  intros Hne.
  set (fastest_pool := sorted Score server_pool).
  set (top := take (pool_size server_pool) fastest_pool).
  assert (Hlen : length fastest_pool = length server_pool) by apply sorted_length.
  assert (Hpos : (0 < length server_pool)%nat)
    by (destruct server_pool; [congruence | simpl; lia]).
  assert (Htop : length top = pool_size server_pool).
  { subst top. rewrite length_take, Hlen. unfold pool_size.
    destruct (Nat.leb_spec 50 (length server_pool)); lia. }
  assert (Hne' : top <> []).
  { intros E. rewrite E in Htop. unfold pool_size in Htop.
    destruct (50 <=? _)%nat; discriminate. }
  destruct (random_choice_In draw top Hne') as (chosen & Hc & Hin).
  exists chosen, top, (drop (pool_size server_pool) fastest_pool).
  repeat split.
  - rewrite get_fastest_server_eq. fold fastest_pool top. now rewrite Hc.
  - exact Hin.
  - subst top. rewrite take_drop. symmetry. apply sorted_perm.
  - intros a b Ha Hb.
    exact (sorted_split Score _ _ a b (sorted_sorted Score server_pool) Ha Hb).
  - exact Htop.
  - intros Hsmall draw'. rewrite get_fastest_server_eq. fold fastest_pool top.
    unfold pool_size in Htop.
    destruct (Nat.leb_spec 50 (length server_pool)); [lia|].
    destruct top as [|t [|? ?]]; try discriminate.
    destruct Hin as [<- | []].
    unfold random_choice, index. cbn [length]. rewrite Nat.mod_1_r. reflexivity.
Qed.

Lemma mbind_ok {W A B} (m : Py.M W A) (k : A -> Py.M W B) w a w1 :
  m w = (Ok a, w1) -> mbind m k w = k a w1.
Proof. unfold mbind. now intros ->. Qed.

Lemma mbind_inv {W A B} (m : Py.M W A) (k : A -> Py.M W B) w b w' :
  mbind m k w = (Ok b, w') ->
  exists a w1, m w = (Ok a, w1) /\ k a w1 = (Ok b, w').
Proof.
  unfold mbind. destruct (m w) as [[a|e] w1]; [eauto | discriminate].
Qed.

Lemma validate_ok s p :
  p <> "" -> validate_session_protocol (PySession s) (PyStr p) = Ok (s, p).
Proof. destruct p; [congruence | reflexivity]. Qed.

Lemma validate_inv session protocol s p :
  validate_session_protocol session protocol = Ok (s, p) ->
  session = PySession s /\ protocol = PyStr p /\ p <> "".
Proof.
  destruct session; try discriminate. destruct protocol; try discriminate.
  simpl. destruct s1; simpl; [discriminate|].
  intros [= -> <-]. repeat split; congruence.
Qed.

(** [filter_servers] reads the cache, asks for the tier, and leaves the
    files as they are. *)
Lemma filter_servers_inv K s w servers w' :
  filter_servers K s w = (Ok servers, w') ->
  exists t catalog tier,
    fs w !! CACHED_SERVERLIST K = Some (File t (JLogicals catalog)) /\
    api_request s "/vpn" = Ok (JVpn tier) /\
    servers = List.filter
                (fun server => (Tier server <=? tier) && (Status server =? 1))
                catalog /\
    fs w' = fs w /\ clock w' = clock w /\ requests w' = requests w ++ ["/vpn"].
Proof.
  unfold filter_servers, fetch_user_tier, mbind, load_json, request, ret, raise.
  destruct (fs w !! CACHED_SERVERLIST K) as [[|t data|t b]|] eqn:E;
    try discriminate.
  simpl. destruct (api_request s "/vpn") as [[| tier |]|]; try discriminate.
  destruct data; try discriminate.
  intros [= <- <-]. exists t, LogicalServers, tier. simpl. auto 10.
Qed.

(** Looking a server of the list up by its name finds its addresses. *)
Lemma generate_ip_list_found servername servers :
  In servername (map Name servers) ->
  exists ips, generate_ip_list servername servers = Ok ips.
Proof.
  unfold generate_ip_list, extract_server_value, index. intros H.
  apply in_map_iff in H as (x & Hx & Hin).
  assert (Hf : In x (List.filter (fun s => String.eqb (Name s) servername) servers)).
  { apply filter_In. split; [exact Hin|]. now apply String.eqb_eq. }
  destruct (List.filter _ servers) as [|y l]; [destruct Hf|].
  simpl. eauto.
Qed.


(** C1 as stated fails: the only server has [Features] 3, both the
    Secure-Core and the Tor bit set, and [fastest] returns it. *)
Lemma fastest_picks_secure_core_tor :
  let sc_tor := example_server "CH-US#1" 3 (1 # 2) in
  fst (fastest example_constants 0 (PySession (example_session [sc_tor]))
               (PyStr "udp") empty_world)
  = Ok (VpnCert "udp" (Name sc_tor) ["10.0.0.1"])
  /\ has_feature 1 sc_tor = true /\ has_feature 2 sc_tor = true.
Proof. vm_compute. auto. Qed.

(** C1 (as amended).  Whatever [fastest] returns is a server of the
    tier-filtered catalog whose [Features] value is neither exactly 1
    (Secure-Core) nor exactly 2 (Tor). *)
Theorem fastest_excludes_exact_features K draw session protocol w cert w' :
  fastest K draw session protocol w = (Ok cert, w') ->
  exists s t catalog tier chosen,
    session = PySession s /\
    fs w' !! CACHED_SERVERLIST K = Some (File t (JLogicals catalog)) /\
    api_request s "/vpn" = Ok (JVpn tier) /\
    In chosen catalog /\ Tier chosen <= tier /\ Status chosen = 1 /\
    Name chosen = cert_servername cert /\
    Features chosen <> 1 /\ Features chosen <> 2.
Proof.
  unfold fastest. intros H.
  apply mbind_inv in H as ([s p] & w0 & Hv & H).
  unfold lift in Hv. injection Hv as Hv <-.
  apply validate_inv in Hv as (-> & -> & Hp).
  apply mbind_inv in H as ([] & w1 & Hc & H).
  apply mbind_inv in H as (servers & w2 & Hf & H).
  apply filter_servers_inv in Hf
    as (t & catalog & tier & Hfile & Htier & -> & Hfs & _ & _).
  apply mbind_inv in H as (servername & w3 & Hg & H).
  unfold lift in Hg. injection Hg as Hg <-.
  apply get_fastest_server_inv in Hg as (chosen & Hin & <-).
  apply filter_In in Hin as [Hin Hfeat].
  apply filter_In in Hin as [Hin Htier'].
  apply andb_prop in Htier' as [Ht Hs].
  apply mbind_inv in H as (ips & w4 & Hi & H).
  unfold generate_vpn_cert, ret in H. injection H as <- <-.
  assert (Hw4 : fs w4 = fs w2).
  { unfold try_except, lift in Hi.
    destruct (generate_ip_list _ _) as [|e]; [now injection Hi as _ <-|].
    destruct (is_exn IndexError e); [discriminate|discriminate]. }
  exists s, t, catalog, tier, chosen.
  rewrite Hw4, Hfs. repeat split; try assumption; try lia.
  all: intros E; rewrite E in Hfeat; discriminate.
Qed.

(** C10.  With an empty pool the selector fails with a bare [IndexError]:
    in [get_fastest_server] itself, in [fastest] when every eligible server
    has [Features] 1 or 2, and in [random_c] when the tier-filtered catalog
    is empty.  Neither [ServerListEmptyError] nor [IllegalServername] is
    raised. *)
Theorem empty_pool_raises_index_error K draw s p (Hp : p <> "") :
  get_fastest_server draw [] = Raise IndexError /\
  (forall w w1 servers w2,
     cache_servers K s false (PyStr (CACHED_SERVERLIST K)) w = (Ok tt, w1) ->
     filter_servers K s w1 = (Ok servers, w2) ->
     (forall x, In x servers -> Features x = 1 \/ Features x = 2) ->
     fastest K draw (PySession s) (PyStr p) w = (Raise IndexError, w2)) /\
  (forall w w2,
     filter_servers K s w = (Ok [], w2) ->
     random_c K draw (PySession s) (PyStr p) w = (Raise IndexError, w2)).
Proof.
  split; [reflexivity|]. split.
  - intros w w1 servers w2 Hc Hf Hall. unfold fastest.
    erewrite mbind_ok by (unfold lift; rewrite validate_ok by assumption; reflexivity).
    cbv beta iota. erewrite mbind_ok by exact Hc.
    cbv beta iota. erewrite mbind_ok by exact Hf.
    cbv beta iota zeta.
    assert (Hpool : List.filter
              (fun server => negb (Z_in (Features server) [1; 2])) servers = []).
    { clear Hf. induction servers as [|x l IH]; [reflexivity|].
      cbn [List.filter].
      assert (negb (Z_in (Features x) [1; 2]) = false) as ->
        by (destruct (Hall x (or_introl eq_refl)) as [-> | ->]; reflexivity).
      apply IH. intros y Hy. apply Hall. now right. }
    rewrite Hpool. reflexivity.
  - intros w w2 Hf. unfold random_c.
    erewrite mbind_ok by (unfold lift; rewrite validate_ok by assumption; reflexivity).
    cbv beta iota. erewrite mbind_ok by exact Hf. reflexivity.
Qed.

Lemma allowed_features_unknown literal :
  ~ In literal feature_literals -> allowed_features !! literal = None.
Proof.
  intros H. unfold allowed_features.
  rewrite !list_to_map_cons, list_to_map_nil. cbn [fst snd].
  rewrite !lookup_insert_ne by (intros <-; apply H; simpl; auto 10).
  apply lookup_empty.
Qed.

(** C7 as stated fails: [P2P] is not one of the five literals, yet
    [feature_f] accepts it and returns a server. *)
Lemma feature_f_accepts_upper_case :
  ~ In "P2P" feature_literals /\
  fst (feature_f example_constants 0
         (PySession (example_session [example_server "CH#5" 4 (1 # 2)]))
         (PyStr "udp") [PyList [PyStr "P2P"]] empty_world)
  = Ok (VpnCert "udp" "CH#5" ["10.0.0.1"]).
Proof.
  split; [|vm_compute; reflexivity].
  simpl. intros H. repeat destruct H as [H | H]; try discriminate; exact H.
Qed.

(** C7 (as amended).  [feature_f] trims and lower-cases the literal.  If
    the result is none of [sc], [tor], [p2p], [stream], [ipv6] it raises
    [ValueError] and leaves the world as it was: no request, no file
    access.  Otherwise it keeps the servers of the tier-filtered catalog
    whose [Features] equals the value of the literal, raises
    [ServerListEmptyError] if there is none, and else returns one of them. *)
Theorem feature_f_outcomes K draw s p lit more args w (Hp : p <> "") :
  let literal := lower (strip lit) in
  let call := feature_f K draw (PySession s) (PyStr p)
                        (PyList (PyStr lit :: more) :: args) in
  map (fun l => allowed_features !! l) feature_literals
    = [Some 1; Some 2; Some 4; Some 8; Some 16] /\
  (~ In literal feature_literals -> call w = (Raise ValueError, w)) /\
  (forall feature w1 servers w2,
     allowed_features !! literal = Some feature ->
     cache_servers K s false (PyStr (CACHED_SERVERLIST K)) w = (Ok tt, w1) ->
     filter_servers K s w1 = (Ok servers, w2) ->
     let server_pool := List.filter (fun x => Features x =? feature) servers in
     (server_pool = [] -> call w = (Raise ServerListEmptyError, w2)) /\
     (server_pool <> [] ->
      exists chosen ips,
        In chosen server_pool /\
        call w = (Ok (VpnCert p (Name chosen) ips), w2))).
Proof.
  intros literal call. split; [vm_compute; reflexivity|].
  assert (Hcall : call w =
    match allowed_features !! literal with
    | None => (Raise ValueError, w)
    | Some feature =>
        (cache_servers K s false (PyStr (CACHED_SERVERLIST K)) ;;;
         servers <- filter_servers K s ;;
         let server_pool := List.filter (fun x => Features x =? feature) servers in
         if (length server_pool =? 0)%nat then raise ServerListEmptyError
         else
           servername <- lift (get_fastest_server draw server_pool) ;;
           ip_list <- try_except (lift (generate_ip_list servername servers))
                        (is_exn IndexError) (fun _ => raise IllegalServername) ;;
           generate_vpn_cert p s servername ip_list)%M w
    end).
  { subst call. unfold feature_f.
    erewrite mbind_ok
      by (unfold lift; rewrite validate_ok by assumption; reflexivity).
    cbv beta iota. unfold mbind at 1 2. unfold lift at 1 2.
    change (index (PyStr lit :: more) 0%nat) with (@Ok pyobj (PyStr lit)).
    cbv beta iota. cbn [str_method]. fold literal.
    destruct (allowed_features !! literal); reflexivity. }
  split.
  - intros Hout. rewrite Hcall, allowed_features_unknown by assumption.
    reflexivity.
  - intros feature w1 servers w2 Hfeat Hc Hf server_pool.
    rewrite Hcall, Hfeat.
    erewrite mbind_ok by exact Hc. cbv beta.
    erewrite mbind_ok by exact Hf. cbv beta zeta. fold server_pool.
    split.
    + intros ->. reflexivity.
    + intros Hne.
      destruct (get_fastest_server_some draw server_pool Hne)
        as (chosen & Hg & Hpool).
      assert (Hall : In (Name chosen) (map Name servers)).
      { apply in_map. apply filter_In in Hpool. tauto. }
      destruct (generate_ip_list_found _ _ Hall) as [ips Hips].
      exists chosen, ips. split; [exact Hpool|].
      destruct server_pool as [|x l]; [congruence|]. cbn [length Nat.eqb].
      unfold mbind, lift, try_except. rewrite Hg, Hips. reflexivity.
Qed.

Lemma length_eqb_0 (s : string) : s <> "" -> (String.length s =? 0)%nat = false.
Proof. destruct s; [congruence | reflexivity]. Qed.






End Selection.

Section Lifecycle.
Import Py ConnectionManager.
Local Open Scope m_scope.
Local Open Scope nat_scope.

Variable K : constants.
Variable pm : plugin_manager.
Variable name : string.

Local Abbreviation is_managed := (ConnectionManager.is_managed name).
Local Abbreviation managed_count := (ConnectionManager.managed_count name).

Lemma dict_start : callback_type_dict SrcClient !! "start" = Some StartConnectionFinishError.
Proof. vm_compute. reflexivity. Qed.
Lemma dict_stop : callback_type_dict SrcClient !! "stop" = Some StopConnectionFinishError.
Proof. vm_compute. reflexivity. Qed.
Lemma dict_add : callback_type_dict SrcClient !! "add" = Some AddConnectionFinishError.
Proof. vm_compute. reflexivity. Qed.
Lemma dict_remove :
  callback_type_dict SrcRemoteConnection !! "remove" = Some RemoveConnectionFinishError.
Proof. vm_compute. reflexivity. Qed.

(** A callback other than that of an add returns when the operation
    succeeded and raises the operation's own exception when it failed. *)
Lemma dynamic_callback_plain client result ctype exc conn_name w :
  callback_type_dict client !! ctype = Some exc ->
  String.eqb ctype "add" = false ->
  exists w',
    dynamic_callback K client result (CallbackData ctype conn_name None None) w
    = (if result then Ok tt else Raise exc, w')
    /\ connections w' = connections w.
Proof.
  intros Hd Hadd. unfold dynamic_callback. cbn [callback_type ConnectionManager.conn_name].
  rewrite Hd, Hadd. unfold mbind, print, raise, environ_get, ret.
  destruct result; cbn [connections environ].
  - destruct (environ w !! ENV_CI_NAME K) as [[|? ?]|]; eauto.
  - eauto.
Qed.

Lemma dynamic_callback_add result conn_name del filename w r w' :
  dynamic_callback K SrcClient result
    (CallbackData "add" conn_name (Some del) (Some filename)) w = (r, w') ->
  connections w' = connections w /\ (r = Ok tt -> result = true).
Proof.
  unfold dynamic_callback. cbn [callback_type ConnectionManager.conn_name
    delete_cached_cert ConnectionManager.filename].
  rewrite dict_add. change (String.eqb "add" "add") with true. cbv iota.
  unfold mbind, print, raise, environ_get, ret, call_cleanup.
  destruct result; cbn [connections environ files].
  - destruct (environ w !! ENV_CI_NAME K) as [[|? ?]|];
      cbn [connections active_connections files environ printed accepts].
    + destruct (del filename (files w)) as [r0 f0]. intros [= <- <-]. auto.
    + intros [= <- <-]. auto.
    + destruct (del filename (files w)) as [r0 f0]. intros [= <- <-]. auto.
  - intros [= <- <-]. split; [reflexivity | discriminate].
Qed.

Lemma first_proton_none wrap l :
  first_proton name wrap l = Ok None -> List.filter is_managed l = [].
Proof.
  induction l as [|c l IH]; [reflexivity|]. cbn [first_proton List.filter].
  unfold is_managed, get_connection_type, get_setting_vpn.
  destruct (get_profile c) as [v|t].
  - change (String.eqb "vpn" "vpn") with true. cbv iota.
    destruct (bool_decide _); [discriminate | exact IH].
  - destruct (String.eqb t "vpn"); [discriminate | exact IH].
Qed.

Lemma first_proton_some wrap l f id :
  first_proton name wrap l = Ok (Some (f, id)) ->
  exists c, f = wrap c /\ id = get_id c /\ In c l /\ is_managed c = true.
Proof.
  induction l as [|c l IH]; [discriminate|]. cbn [first_proton].
  unfold is_managed at 1, get_connection_type, get_setting_vpn.
  destruct (get_profile c) as [v|t] eqn:Ec.
  - change (String.eqb "vpn" "vpn") with true. cbv iota.
    destruct (bool_decide _) eqn:Ed.
    + intros [= <- <-]. exists c. repeat split; [now left|].
      unfold is_managed, get_setting_vpn. now rewrite Ec.
    + intros H. destruct (IH H) as (c' & ? & ? & ? & ?). exists c'. simpl. auto.
  - destruct (String.eqb t "vpn"); [discriminate|].
    intros H. destruct (IH H) as (c' & ? & ? & ? & ?). exists c'. simpl. auto.
Qed.

Lemma first_proton_raise wrap l e :
  first_proton name wrap l = Raise e -> e = AttributeError.
Proof.
  induction l as [|c l IH]; [discriminate|]. cbn [first_proton].
  destruct (String.eqb _ "vpn"); [|exact IH].
  destruct (get_setting_vpn c); [|congruence].
  destruct (bool_decide _); [discriminate | exact IH].
Qed.

Lemma remove_first_count c l :
  In c l -> is_managed c = true ->
  S (length (List.filter is_managed (remove_first c l)))
  = length (List.filter is_managed l).
Proof.
  intros Hin Hm. induction l as [|d l IH]; [destruct Hin|].
  cbn [remove_first List.filter]. destruct (decide (d = c)) as [->|Hne].
  - rewrite Hm. reflexivity.
  - destruct Hin as [->|Hin]; [congruence|].
    cbn [List.filter]. destruct (is_managed d); cbn [length]; rewrite <- (IH Hin); reflexivity.
Qed.


Lemma submit_conns op c w r w' :
  submit op c w = (r, w') ->
  (r = Ok false /\ w' = w) \/ (r = Ok true /\ w' = carry_out op c w).
Proof. unfold submit. destruct (accepts w op c); intros [= <- <-]; auto. Qed.

Lemma stop_connection_spec w r w' :
  stop_connection K name w = (r, w') ->
  connections w' = connections w /\ r <> Raise ConnectionNotFound.
Proof.
  unfold stop_connection, mbind at 1, get_proton_connection.
  change (String.eqb "active_connections" "all_connections") with false.
  change (String.eqb "active_connections" "active_connections") with true.
  cbv iota.
  destruct (first_proton _ _ _) as [[[f id]|]|e] eqn:E.
  - unfold mbind.
    destruct (submit OpStop (saved f) w) as [r1 w1] eqn:Es.
    apply submit_conns in Es as [[-> ->] | [-> ->]].
    + destruct (dynamic_callback_plain SrcClient false "stop" _ id w dict_stop eq_refl)
        as (w2 & -> & Hc).
      intros [= <- <-]. split; [exact Hc | discriminate].
    + destruct (dynamic_callback_plain SrcClient true "stop" _ id
                  (carry_out OpStop (saved f) w) dict_stop eq_refl)
        as (w2 & -> & Hc).
      unfold ret. intros [= <- <-]. split; [exact Hc | discriminate].
  - unfold ret. intros [= <- <-]. split; [reflexivity | discriminate].
  - apply first_proton_raise in E as ->.
    intros [= <- <-]. split; [reflexivity | discriminate].
Qed.

(** [remove_connection] either deletes the first managed record and
    returns, or changes no record and raises; it raises
    [ConnectionNotFound] only when there is no managed record. *)
Lemma remove_connection_spec w r w' :
  remove_connection K name w = (r, w') ->
  (r = Ok tt /\ S (managed_count w') = managed_count w)
  \/ (exists e, r = Raise e /\ connections w' = connections w
                /\ (e = ConnectionNotFound -> managed_count w = 0)).
Proof.
  unfold remove_connection, mbind at 1, get_proton_connection.
  change (String.eqb "all_connections" "all_connections") with true. cbv iota.
  destruct (first_proton _ _ _) as [[[f id]|]|e] eqn:E.
  - apply first_proton_some in E as (c & -> & -> & Hin & Hm).
    unfold mbind at 1.
    destruct (stop_connection K name w) as [r1 w1] eqn:Es.
    apply stop_connection_spec in Es as [Hc1 Hnf].
    destruct r1 as [?|e1].
    + unfold mbind. cbn [saved].
      destruct (submit OpRemove c w1) as [r2 w2] eqn:Er.
      apply submit_conns in Er as [[-> ->] | [-> ->]].
      * destruct (dynamic_callback_plain SrcRemoteConnection false "remove" _
                    (get_id c) w1 dict_remove eq_refl) as (w3 & -> & Hc3).
        intros [= <- <-]. right. eexists. repeat split; [congruence | discriminate].
      * destruct (dynamic_callback_plain SrcRemoteConnection true "remove" _
                    (get_id c) (carry_out OpRemove c w1) dict_remove eq_refl)
          as (w3 & -> & Hc3).
        intros [= <- <-]. left. split; [reflexivity|].
        unfold managed_count. rewrite Hc3. cbn [carry_out connections].
        rewrite Hc1. now apply remove_first_count.
    + intros [= <- <-]. right. exists e1. repeat split; [exact Hc1 | congruence].
  - unfold raise. intros [= <- <-]. right. eexists. repeat split.
    intros _. unfold managed_count. now rewrite (first_proton_none _ _ E).
  - apply first_proton_raise in E as ->.
    intros [= <- <-]. right. eexists. repeat split. discriminate.
Qed.

Lemma start_connection_spec w r w' :
  start_connection K name w = (r, w') -> connections w' = connections w.
Proof.
  unfold start_connection, mbind at 1, get_proton_connection.
  change (String.eqb "all_connections" "all_connections") with true. cbv iota.
  destruct (first_proton _ _ _) as [[[f id]|]|e] eqn:E.
  - unfold mbind.
    destruct (submit OpStart (saved f) w) as [r1 w1] eqn:Es.
    apply submit_conns in Es as [[-> ->] | [-> ->]].
    + destruct (dynamic_callback_plain SrcClient false "start" _ id w dict_start eq_refl)
        as (w2 & -> & Hc).
      now intros [= <- <-].
    + destruct (dynamic_callback_plain SrcClient true "start" _ id
                  (carry_out OpStart (saved f) w) dict_start eq_refl)
        as (w2 & -> & Hc).
      now intros [= <- <-].
  - now intros [= <- <-].
  - now intros [= <- <-].
Qed.


Lemma extract_world filename w r w' :
  extract_virtual_device_type filename w = (r, w') -> w' = w.
Proof.
  unfold extract_virtual_device_type, mbind, read_text, try_except, lift, raise.
  destruct (files w !! filename) as [[content| |]|];
    try (now intros [= _ <-]).
  destruct (bind _ _) as [dev_type|e].
  - destruct (list_index _ _); [|now intros [= _ <-]].
    now intros [= _ <-].
  - destruct (is_exn IndexError e); now intros [= _ <-].
Qed.

Lemma new_record_managed id vpn_settings virtual_device_type :
  is_managed
    (Connection id
       (Vpn (add_data_item "dev-type" virtual_device_type
               (add_data_item "dev" name vpn_settings)))) = true.
Proof.
  unfold is_managed, get_setting_vpn, get_data_item, add_data_item.
  cbn [get_profile data_items].
  rewrite lookup_insert_ne by discriminate. rewrite lookup_insert_eq.
  now apply bool_decide_eq_true.
Qed.

Lemma managed_count_add c w :
  managed_count (carry_out OpAdd c w)
  = managed_count w + (if is_managed c then 1 else 0).
Proof.
  unfold managed_count. cbn [carry_out connections].
  rewrite List.filter_app, length_app. cbn [List.filter].
  destruct (is_managed c); reflexivity.
Qed.

Lemma add_connection_spec filename username password del w r w' :
  add_connection K pm name filename username password del w = (r, w') ->
  managed_count w <= 1 ->
  managed_count w' <= 1 /\ (r = Ok tt -> managed_count w' = 1).
Proof.
  intros Hrun Hle.
  assert (Hstay : forall e, (r, w') = (Raise e, w) ->
            managed_count w' <= 1 /\ (r = Ok tt -> managed_count w' = 1)).
  { intros e [= -> ->]. split; [exact Hle | discriminate]. }
  unfold add_connection in Hrun.
  destruct filename as [| | |filename| | |]; try (symmetry in Hrun; eauto; fail).
  destruct (blank filename); [symmetry in Hrun; eauto|].
  destruct username as [| | |username| | |]; try (symmetry in Hrun; eauto; fail).
  destruct password as [| | |password| | |]; try (symmetry in Hrun; eauto; fail).
  destruct (blank username || blank password); [symmetry in Hrun; eauto|].
  unfold mbind at 1 in Hrun.
  destruct (try_except _ _ _ w) as [r1 w1] eqn:E1.
  assert (H1 : connections w1 = connections w).
  { unfold try_except, call_cleanup, ret, raise in E1.
    destruct (del "test" (files w)) as [[?|e] fl];
      [|destruct (is_exn FileNotFoundError e)]; now injection E1 as _ <-. }
  clear E1 Hstay.
  assert (Hstay : forall e w0, connections w0 = connections w ->
            (r, w') = (Raise e, w0) ->
            managed_count w' <= 1 /\ (r = Ok tt -> managed_count w' = 1)).
  { intros e w0 Hc [= -> ->]. unfold managed_count in *. rewrite Hc.
    split; [exact Hle | discriminate]. }
  destruct r1 as [[]|e1]; [|symmetry in Hrun; eauto].
  unfold mbind at 1, import_connection in Hrun.
  destruct (import_connection_from_file pm filename (files w1)) as [connection|e2];
    [|symmetry in Hrun; eauto].
  destruct (get_setting_vpn connection) as [vpn_settings|];
    [|symmetry in Hrun; eauto].
  unfold mbind at 1, set_virtual_device_type, mbind at 1 in Hrun.
  destruct (extract_virtual_device_type filename w1) as [r2 w2] eqn:E2.
  apply extract_world in E2 as ->.
  destruct r2 as [virtual_device_type|e2]; [|symmetry in Hrun; eauto].
  unfold ret at 1 in Hrun. cbn [get_id] in Hrun.
  set (new := Connection (get_id connection) _) in Hrun.
  assert (Hnew : is_managed new = true) by apply new_record_managed.
  unfold mbind at 1, try_except in Hrun.
  destruct (remove_connection K name w1) as [r3 w3] eqn:E3.
  apply remove_connection_spec in E3
    as [[-> Hcount] | (e3 & -> & Hc3 & Hnone)].
  - (* the previous record was deleted *)
    assert (H0 : managed_count w3 = 0).
    { unfold managed_count in *. rewrite H1 in Hcount. lia. }
    unfold mbind in Hrun.
    destruct (submit OpAdd new w3) as [r4 w4] eqn:E4.
    apply submit_conns in E4 as [[-> ->] | [-> ->]];
      apply dynamic_callback_add in Hrun as [Hc Hok].
    + unfold managed_count in *. rewrite Hc.
      split; [lia | intros Hr; specialize (Hok Hr); discriminate].
    + pose proof (managed_count_add new w3) as Hadd.
      rewrite Hnew in Hadd. unfold managed_count in *. rewrite Hc. lia.
  - destruct (is_exn ConnectionNotFound e3) eqn:Ee;
      [|symmetry in Hrun; eapply Hstay; [|exact Hrun]; congruence].
    assert (e3 = ConnectionNotFound) as -> by (destruct e3; try discriminate; reflexivity).
    assert (H0 : managed_count w3 = 0).
    { unfold managed_count in *. rewrite Hc3. now apply Hnone. }
    unfold ret, mbind in Hrun.
    destruct (submit OpAdd new w3) as [r4 w4] eqn:E4.
    apply submit_conns in E4 as [[-> ->] | [-> ->]];
      apply dynamic_callback_add in Hrun as [Hc Hok].
    + unfold managed_count in *. rewrite Hc.
      split; [lia | intros Hr; specialize (Hok Hr); discriminate].
    + pose proof (managed_count_add new w3) as Hadd.
      rewrite Hnew in Hadd. unfold managed_count in *. rewrite Hc. lia.
Qed.

(** C4.  If at most one managed record exists, then at most one exists
    after [add_connection], [remove_connection], [start_connection] or
    [stop_connection], whatever their outcome; exactly one exists after an
    add that returns, and so after two adds in a row. *)
Theorem at_most_one_managed_record (w : world) :
  managed_count w <= 1 ->
  (forall filename username password del r w',
     add_connection K pm name filename username password del w = (r, w') ->
     managed_count w' <= 1 /\ (r = Ok tt -> managed_count w' = 1)) /\
  (forall r w',
     remove_connection K name w = (r, w') ->
     managed_count w' <= 1 /\ (r = Ok tt -> managed_count w' = 0)) /\
  (forall r w',
     start_connection K name w = (r, w') -> managed_count w' = managed_count w) /\
  (forall r w',
     stop_connection K name w = (r, w') -> managed_count w' = managed_count w) /\
  (forall filename1 username1 password1 del1 w1
          filename2 username2 password2 del2 w2,
     add_connection K pm name filename1 username1 password1 del1 w = (Ok tt, w1) ->
     add_connection K pm name filename2 username2 password2 del2 w1 = (Ok tt, w2) ->
     managed_count w2 = 1).
Proof.
  intros Hle. repeat apply conj.
  - intros. eapply add_connection_spec; eassumption.
  - intros r w' H. apply remove_connection_spec in H
      as [[-> Hc] | (e & -> & Hc & _)].
    + split; [lia | intros _; lia].
    + unfold managed_count in *. rewrite Hc. split; [exact Hle | discriminate].
  - intros r w' H. apply start_connection_spec in H.
    unfold managed_count. now rewrite H.
  - intros r w' H. apply stop_connection_spec in H as [H _].
    unfold managed_count. now rewrite H.
  - intros ? ? ? ? w1 ? ? ? ? w2 H1 H2.
    apply add_connection_spec in H1 as [Hle1 _]; [|exact Hle].
    apply add_connection_spec in H2 as [_ H2]; [|exact Hle1].
    now apply H2.
Qed.

End Lifecycle.

Section DeviceType.
Import Py ConnectionManager Examples.

Lemma list_index_tun_tap dev_type :
  list_index dev_type ["tun"; "tap"] =
  if String.eqb "tun" dev_type then Ok 0%nat
  else if String.eqb "tap" dev_type then Ok 1%nat
  else Raise ValueError.
Proof.
  cbn [list_index].
  destruct (String.eqb "tun" dev_type); [reflexivity|].
  destruct (String.eqb "tap" dev_type); reflexivity.
Qed.

(** C2 as stated fails: a profile whose [dev] line is [dev tun0] is
    refused with [IllegalVirtualDevice]; [tun] is not returned. *)
Lemma dev_tun0_is_illegal :
  files fresh_world !! "tun0.ovpn" = Some (Text (example_profile "dev tun0")) /\
  List.filter (contains "dev") (readlines (example_profile "dev tun0"))
    = [line "dev tun0"] /\
  extract_virtual_device_type "tun0.ovpn" fresh_world
    = (Raise IllegalVirtualDevice, fresh_world) /\
  extract_virtual_device_type "tun0.ovpn" fresh_world
    <> (Ok "tun", fresh_world).
Proof.
  assert (H : extract_virtual_device_type "tun0.ovpn" fresh_world
              = (Raise IllegalVirtualDevice, fresh_world))
    by (vm_compute; reflexivity).
  split; [vm_compute; reflexivity|].
  split; [vm_compute; reflexivity|].
  split; [exact H|].
  rewrite H. discriminate.
Qed.

(** C2 (as amended).  [extract_virtual_device_type] takes the second
    token of the first line that contains [dev]: it returns it when it is
    [tun] or [tap] exactly, raises [IllegalVirtualDevice] for any other
    token, [tun0] and [ppp0] included, and raises [VirtualDeviceNotFound]
    when no line contains [dev] or the line has no second token. *)
Theorem extract_virtual_device_type_cases filename content (w : world) :
  files w !! filename = Some (Text content) ->
  let matching := List.filter (contains "dev") (readlines content) in
  let call := extract_virtual_device_type filename w in
  (matching = [] -> call = (Raise VirtualDeviceNotFound, w)) /\
  (forall first others,
     matching = first :: others ->
     match split (rstrip first) !! 1%nat with
     | None => call = (Raise VirtualDeviceNotFound, w)
     | Some dev_type =>
         if String.eqb "tun" dev_type || String.eqb "tap" dev_type
         then call = (Ok dev_type, w)
         else call = (Raise IllegalVirtualDevice, w)
     end) /\
  (forall others,
     (matching = line "dev tun" :: others -> call = (Ok "tun", w)) /\
     (matching = line "dev tap" :: others -> call = (Ok "tap", w)) /\
     (matching = line "dev tun0" :: others ->
      call = (Raise IllegalVirtualDevice, w)) /\
     (matching = line "dev ppp0" :: others ->
      call = (Raise IllegalVirtualDevice, w))).
Proof.
  intros Hfile matching call.
  assert (Hcall : call =
    match matching with
    | [] => (Raise VirtualDeviceNotFound, w)
    | first :: _ =>
        match split (rstrip first) !! 1%nat with
        | None => (Raise VirtualDeviceNotFound, w)
        | Some dev_type =>
            if String.eqb "tun" dev_type then (Ok "tun", w)
            else if String.eqb "tap" dev_type then (Ok "tap", w)
            else (Raise IllegalVirtualDevice, w)
        end
    end).
  { subst call. unfold extract_virtual_device_type, mbind, read_text.
    rewrite Hfile. fold matching. unfold try_except, lift, raise, index.
    destruct matching as [|first others]; [reflexivity|]. cbn [map bind].
    change ((rstrip first :: map rstrip others) !! 0%nat) with (Some (rstrip first)).
    cbn [bind].
    destruct (split (rstrip first) !! 1%nat) as [dev_type|]; [|reflexivity].
    cbv beta iota. rewrite list_index_tun_tap.
    destruct (String.eqb "tun" dev_type); [reflexivity|].
    destruct (String.eqb "tap" dev_type); reflexivity. }
  split; [|split].
  - intros E. now rewrite Hcall, E.
  - intros first others E. rewrite Hcall, E.
    destruct (split (rstrip first) !! 1%nat) as [dev_type|]; [|reflexivity].
    destruct (String.eqb "tun" dev_type) eqn:Etun.
    + apply String.eqb_eq in Etun as <-. reflexivity.
    + destruct (String.eqb "tap" dev_type) eqn:Etap; [|reflexivity].
      apply String.eqb_eq in Etap as <-. reflexivity.
  - intros others. repeat split; intros E; rewrite Hcall, E; reflexivity.
Qed.

(** A profile on disk, as C2 supposes. *)
Lemma extract_virtual_device_type_cases_witness :
  files fresh_world !! "ch.ovpn" = Some (Text (example_profile "dev tun")) /\
  extract_virtual_device_type "ch.ovpn" fresh_world = (Ok "tun", fresh_world).
Proof.
  split; [vm_compute; reflexivity|].
  refine (proj1 (proj2 (proj2
    (extract_virtual_device_type_cases "ch.ovpn" (example_profile "dev tun")
       fresh_world _)) []) _);
    vm_compute; reflexivity.
Defined.

End DeviceType.

Section Instances.
Import Py ServerManager Examples.

(** C8 as stated fails: an integer, [None] or a list is answered with
    [TypeError], not with a boolean. *)
Lemma valid_raises_on_non_string :
  is_servername_valid (PyInt 1) = Raise TypeError /\
  is_servername_valid PyNone = Raise TypeError /\
  is_servername_valid (PyList [PyStr "PT#1"]) = Raise TypeError.
Proof. repeat split. Qed.

(** C9 as stated fails: [PT000] is accepted and normalises to [PT#], the
    zeros stripped, which the grammar rejects. *)
Lemma normalize_not_idempotent_on_zero :
  is_servername_valid (PyStr "PT000") = Ok true /\
  return_servername "PT000" = Ok (Some "PT#") /\
  return_servername "PT#" = Ok None /\
  return_servername "PT#" <> return_servername "PT000".
Proof.
  split; [vm_compute; reflexivity|].
  split; [vm_compute; reflexivity|].
  split; [vm_compute; reflexivity|].
  vm_compute. discriminate.
Qed.

(** The hypotheses of C9 hold of [PT#01-TOR]. *)
Lemma normalize_idempotent_witness :
  return_servername "PT#01-TOR" = Ok (Some "PT#1-TOR") /\
  matched_number "PT#01-TOR" = Some "01" /\
  lstrip_char "0" "01" <> "" /\
  return_servername "PT#1-TOR" = Ok (Some "PT#1-TOR") /\
  is_servername_valid (PyStr "PT#1-TOR") = Ok true.
Proof.
  split; [vm_compute; reflexivity|].
  split; [vm_compute; reflexivity|].
  split; [vm_compute; discriminate|].
  apply (normalize_idempotent "PT#01-TOR" "PT#1-TOR" "01");
    vm_compute; [reflexivity | reflexivity | discriminate].
Defined.

(** C3.  The patterns are case-sensitive: of the three lower-case inputs
    only [pt1] is accepted, and it normalises to [pt#1].  The canonical
    forms arise from the upper-cased, trimmed name that [direct] computes
    first; [direct] then validates the raw input and so rejects
    [pt#01-tor] and [is-de01]. *)
Theorem direct_validates_raw_input K s w :
  return_servername "pt1" = Ok (Some "pt#1") /\
  return_servername "pt#01-tor" = Ok None /\
  return_servername "is-de01" = Ok None /\
  return_servername <$> upper (strip "pt1") = Some (Ok (Some "PT#1")) /\
  return_servername <$> upper (strip "pt#01-tor")
    = Some (Ok (Some "PT#1-TOR")) /\
  return_servername <$> upper (strip "is-de01")
    = Some (Ok (Some "IS-DE#1")) /\
  direct K (PySession s) (PyStr "udp") [PyStr "pt#01-tor"] w
    = (Raise IllegalServername, w) /\
  direct K (PySession s) (PyStr "udp") [PyStr "is-de01"] w
    = (Raise IllegalServername, w).
Proof. repeat split; vm_compute; reflexivity. Qed.

(** A run of [fastest] that returns, as C1 supposes. *)
Lemma fastest_excludes_exact_features_witness :
  let session := example_session [example_server "CH#5" 4 (1 # 2)] in
  let run := fastest example_constants 0 (PySession session) (PyStr "udp")
                     empty_world in
  run = (Ok (VpnCert "udp" "CH#5" ["10.0.0.1"]), snd run) /\
  exists s t catalog tier chosen,
    PySession session = PySession s /\
    fs (snd run) !! CACHED_SERVERLIST example_constants
      = Some (File t (JLogicals catalog)) /\
    api_request s "/vpn" = Ok (JVpn tier) /\
    In chosen catalog /\ Tier chosen <= tier /\ Status chosen = 1 /\
    Name chosen = "CH#5" /\
    Features chosen <> 1 /\ Features chosen <> 2.
Proof.
  intros session run.
  split; [vm_compute; reflexivity|].
  apply (fastest_excludes_exact_features example_constants 0
           (PySession session) (PyStr "udp") empty_world
           (VpnCert "udp" "CH#5" ["10.0.0.1"]) (snd run)).
  vm_compute. reflexivity.
Defined.

(** A pool of fifty servers meets the hypothesis of C6. *)
Lemma top_k_selection_witness :
  fifty_servers <> [] /\
  exists chosen top rest,
    get_fastest_server 7 fifty_servers = Ok (Name chosen) /\
    In chosen top /\
    Permutation fifty_servers (top ++ rest) /\
    (forall a b, In a top -> In b rest -> (Score a <= Score b)%Q) /\
    length top = (if (50 <=? length fifty_servers)%nat then 4 else 1)%nat /\
    ((length fifty_servers < 50)%nat ->
     forall draw', get_fastest_server draw' fifty_servers = Ok (Name chosen)).
Proof.
  split; [vm_compute; discriminate|].
  apply (top_k_selection 7 fifty_servers). vm_compute. discriminate.
Defined.

(** A catalog of one Secure-Core and one Tor server meets the hypotheses
    of C10. *)
Lemma empty_pool_raises_index_error_witness :
  let session := example_session
                   [example_server "CH-US#1" 1 (1 # 2);
                    example_server "CH#9-TOR" 2 (1 # 3)] in
  let cached := cache_servers example_constants session false
                  (PyStr (CACHED_SERVERLIST example_constants)) empty_world in
  let filtered := filter_servers example_constants session (snd cached) in
  "udp" <> "" /\
  cached = (Ok tt, snd cached) /\
  filtered = (Ok [example_server "CH-US#1" 1 (1 # 2);
                  example_server "CH#9-TOR" 2 (1 # 3)], snd filtered) /\
  fastest example_constants 0 (PySession session) (PyStr "udp") empty_world
    = (Raise IndexError, snd filtered).
Proof.
  intros session cached filtered.
  split; [discriminate|].
  split; [vm_compute; reflexivity|].
  split; [vm_compute; reflexivity|].
  refine (proj1 (proj2
    (empty_pool_raises_index_error example_constants 0 session "udp" _))
    empty_world (snd cached) _ (snd filtered) _ _ _).
  - discriminate.
  - vm_compute. reflexivity.
  - vm_compute. reflexivity.
  - intros x [<- | [<- | []]]; vm_compute; auto.
Defined.

(** An unknown literal, as the first part of C7 supposes. *)
Lemma feature_f_outcomes_witness :
  "udp" <> "" /\
  ~ In (lower (strip " Bogus ")) feature_literals /\
  feature_f example_constants 0
    (PySession (example_session [example_server "CH#5" 4 (1 # 2)]))
    (PyStr "udp") [PyList [PyStr " Bogus "]] empty_world
  = (Raise ValueError, empty_world).
Proof.
  assert (Hout : ~ In (lower (strip " Bogus ")) feature_literals).
  { vm_compute. intros H.
    repeat destruct H as [H | H]; try discriminate; exact H. }
  split; [discriminate|]. split; [exact Hout|].
  refine (proj1 (proj2
    (feature_f_outcomes example_constants 0
       (example_session [example_server "CH#5" 4 (1 # 2)]) "udp" " Bogus "
       [] [] empty_world _)) Hout).
  discriminate.
Defined.


End Instances.

Section LifecycleInstances.
Import Py ConnectionManager Examples.

(** Two adds in a row from a world without records, as C4 supposes. *)
Lemma at_most_one_managed_record_witness :
  let add := add_connection example_constants example_plugin "proton0" in
  let first := add (PyStr "ch.ovpn") (PyStr "user") (PyStr "secret")
                   remove_file fresh_world in
  let second := add (PyStr "us.ovpn") (PyStr "user") (PyStr "secret")
                    remove_file (snd first) in
  (managed_count "proton0" fresh_world <= 1)%nat /\
  first = (Ok tt, snd first) /\
  second = (Ok tt, snd second) /\
  managed_count "proton0" (snd second) = 1%nat.
Proof.
  intros add first second.
  split; [vm_compute; lia|].
  split; [vm_compute; reflexivity|].
  split; [vm_compute; reflexivity|].
  refine (proj2 (proj2 (proj2 (proj2
    (at_most_one_managed_record example_constants example_plugin "proton0"
       fresh_world _))))
    (PyStr "ch.ovpn") (PyStr "user") (PyStr "secret") remove_file (snd first)
    (PyStr "us.ovpn") (PyStr "user") (PyStr "secret") remove_file (snd second)
    _ _).
  - vm_compute. lia.
  - vm_compute. reflexivity.
  - vm_compute. reflexivity.
Defined.

End LifecycleInstances.

(* ================================================================= *)
(** ** Further properties of the code *)

Section Strategies.
Import Py ServerManager Examples.
Local Open Scope m_scope.

Lemma mbind_lift_raise {W A B} (r : result A) (k : A -> Py.M W B) e w :
  r = Raise e -> mbind (lift r) k w = (Raise e, w).
Proof. intros ->. reflexivity. Qed.

(** X1.  Every strategy checks the session and the protocol first: when the
    check fails, with [TypeError] or [ValueError], the strategy raises that
    error and the world is as before, no file touched, no request made. *)
Theorem strategies_validate_first K draw session protocol args e w :
  validate_session_protocol session protocol = Raise e ->
  (e = TypeError \/ e = ValueError) /\
  fastest K draw session protocol w = (Raise e, w) /\
  country_f K draw session protocol args w = (Raise e, w) /\
  direct K session protocol args w = (Raise e, w) /\
  feature_f K draw session protocol args w = (Raise e, w) /\
  random_c K draw session protocol w = (Raise e, w).
Proof.
  intros H. split.
  - destruct session; try (injection H as <-; now left).
    destruct protocol; try (injection H as <-; now left).
    simpl in H. destruct (String.length s0 =? 0)%nat; [|discriminate].
    injection H as <-. now right.
  - unfold fastest, country_f, direct, feature_f, random_c.
    repeat split; apply mbind_lift_raise; exact H.
Qed.

(** A call without a session, as X1 supposes. *)
Lemma strategies_validate_first_witness :
  validate_session_protocol PyNone (PyStr "udp") = Raise TypeError /\
  fastest example_constants 0 PyNone (PyStr "udp") empty_world
    = (Raise TypeError, empty_world).
Proof.
  split; [reflexivity|].
  exact (proj1 (proj2
    (strategies_validate_first example_constants 0 PyNone (PyStr "udp") []
       TypeError empty_world eq_refl))).
Defined.

End Strategies.

Section Cache.
Import Py ServerManager Examples.
Local Open Scope m_scope.

Ltac cache_unfold :=
  unfold cache_servers, mbind, isdir, isfile, getmtime, try_except, now, mkdir,
    ret, raise, request, dump_json.

Ltac cache_norm :=
  repeat (cbv beta iota zeta; cbn [fs clock requests is_exn negb orb bind];
          rewrite ?lookup_insert_eq;
          rewrite ?lookup_insert_ne by congruence;
          repeat match goal with
                 | H : fs _ !! _ = _ |- _ => rewrite H
                 end).

Lemma parent_error_cases k path :
  parent_error k path = None \/
  parent_error k path = Some FileNotFoundError \/
  parent_error k path = Some NotADirectoryError.
Proof.
  unfold parent_error. destruct (String.eqb path ""); [auto|].
  destruct (forallb _ _); [auto|].
  destruct (k _) as [[|]|]; auto. destruct (blocked _ _ _); auto.
Qed.

Ltac lookups :=
  repeat (rewrite lookup_insert_eq || rewrite lookup_insert_ne by congruence).

Ltac cache_eval :=
  repeat
    (progress
       (cbv beta iota zeta;
        cbn [fs clock requests is_exn negb orb];
        repeat match goal with
               | H : forall p, fs _ !! p = _ |- _ => rewrite !H
               end;
        rewrite ?lookup_insert_eq;
        rewrite ?lookup_insert_ne by congruence;
        repeat match goal with
               | H : _ !! _ = _ |- _ => rewrite !H
               | H : parent_error _ _ = _ |- _ => rewrite !H
               end)
     || match goal with
        | |- context [parent_error ?k ?p] =>
            let E := fresh "E" in
            destruct (parent_error_cases k p) as [E | [E | E]];
            rewrite !E
        end).

(** The run of [cache_servers] on a cache path that is not empty, case
    by case of what stands at the cache path, at the cache directory and
    where they are to lie. *)
Lemma cache_servers_run K s force path w :
  path <> "" ->
  cache_servers K s force (PyStr path) w =
  let continue files :=
    let asked := World files (clock w) (requests w ++ ["/vpn/logicals"]) in
    let fetch (reach : option exn) :=
      match api_request s "/vpn/logicals" with
      | Raise e => (Raise e, asked)
      | Ok data =>
          match reach with
          | Some e => (Raise e, asked)
          | None =>
              (Ok tt, World (<[path := File (clock w) data]> files) (clock w)
                            (requests w ++ ["/vpn/logicals"]))
          end
      end in
    match files !! path with
    | Some Dir => fetch (Some IsADirectoryError)
    | Some (File t _) | Some (Corrupt t _) =>
        if (clock w - timedelta_minutes REFRESH_INTERVAL >? t) || force
        then fetch None
        else (Ok tt, World files (clock w) (requests w))
    | None =>
        match parent_error (kind files) path with
        | Some NotADirectoryError =>
            (Raise NotADirectoryError, World files (clock w) (requests w))
        | reach => fetch reach
        end
    end in
  match fs w !! path with
  | Some Dir => (Raise IsADirectoryError, w)
  | _ =>
      match fs w !! PROTON_XDG_CACHE_HOME K with
      | Some Dir => continue (fs w)
      | Some _ => (Raise FileExistsError, w)
      | None =>
          match parent_error (kind (fs w)) (PROTON_XDG_CACHE_HOME K) with
          | Some e => (Raise e, w)
          | None => continue (<[PROTON_XDG_CACHE_HOME K := Dir]> (fs w))
          end
      end
  end.
Proof.
  intros Hne. cbv zeta. cache_unfold. unfold absent_error.
  rewrite length_eqb_0 by assumption.
  destruct w as [files clock requests].
  assert (Hnorm : forall p, fs (World files clock requests) !! p = files !! p)
    by reflexivity.
  destruct (String.eqb_spec path (PROTON_XDG_CACHE_HOME K)) as [->|Hneq];
    [ destruct (files !! PROTON_XDG_CACHE_HOME K) as [[|t d|t b]|] eqn:Eh
    | destruct (files !! path) as [[|t d|t b]|] eqn:Ep;
      destruct (files !! PROTON_XDG_CACHE_HOME K) as [[|t' d'|t' b']|] eqn:Eh ].
  all: cache_eval.
  all: try reflexivity.
  all: repeat match goal with
              | |- context [?a >? ?b] => destruct (a >? b)
              end; destruct force; cbn [orb]; try reflexivity.
  all: destruct (api_request s "/vpn/logicals"); cache_eval; reflexivity.
Qed.


(** X2.  A cache path that is not a string, is empty, or names a directory
    is refused with [TypeError], [FileNotFoundError] or
    [IsADirectoryError]; so is, with [FileExistsError], a cache directory
    whose place a regular file takes.  In each case nothing is requested
    and no file is touched. *)
Theorem cache_servers_refuses_bad_paths K s force cached_serverlist w :
  match cached_serverlist with
  | PyStr path =>
      (path = "" ->
       cache_servers K s force cached_serverlist w = (Raise FileNotFoundError, w)) /\
      (path <> "" -> fs w !! path = Some Dir ->
       cache_servers K s force cached_serverlist w = (Raise IsADirectoryError, w)) /\
      (path <> "" -> fs w !! path <> Some Dir ->
       forall n, fs w !! PROTON_XDG_CACHE_HOME K = Some n -> n <> Dir ->
       cache_servers K s force cached_serverlist w = (Raise FileExistsError, w))
  | _ => cache_servers K s force cached_serverlist w = (Raise TypeError, w)
  end.
Proof.
  destruct cached_serverlist as [| | |path| | |]; try reflexivity.
  split; [|split].
  - intros ->. reflexivity.
  - intros Hne Hdir. rewrite cache_servers_run by assumption.
    now rewrite Hdir.
  - intros Hne Hnd n Hhome Hn. rewrite cache_servers_run by assumption.
    rewrite Hhome.
    destruct (fs w !! path) as [[| |]|]; [congruence| | |];
      destruct n; congruence.
Qed.

(** The cache directory given as the cache path, as the second case of X2
    supposes. *)
Lemma cache_servers_refuses_bad_paths_witness :
  cache_servers example_constants (example_session []) true
    (PyStr (PROTON_XDG_CACHE_HOME example_constants)) (cached_world 5 [])
  = (Raise IsADirectoryError, cached_world 5 []).
Proof.
  refine (proj1 (proj2
    (cache_servers_refuses_bad_paths example_constants (example_session [])
       true (PyStr (PROTON_XDG_CACHE_HOME example_constants))
       (cached_world 5 []))) _ _).
  - discriminate.
  - vm_compute. reflexivity.
Defined.

Lemma cache_servers_nonempty K s force path w r w1 :
  cache_servers K s force (PyStr path) w = (r, w1) ->
  path = "" -> r = Raise FileNotFoundError /\ w1 = w.
Proof. intros H ->. now injection H as <- <-. Qed.

(** What a call of [cache_servers] that returns leaves behind. *)
Lemma cache_servers_post K s force path w w1 :
  cache_servers K s force (PyStr path) w = (Ok tt, w1) ->
  path <> "" /\ path <> PROTON_XDG_CACHE_HOME K /\
  clock w1 = clock w /\
  fs w1 !! PROTON_XDG_CACHE_HOME K = Some Dir /\
  (forall q, q <> path -> q <> PROTON_XDG_CACHE_HOME K ->
             fs w1 !! q = fs w !! q) /\
  if refresh_due force path w
  then exists data, api_request s "/vpn/logicals" = Ok data /\
                    fs w1 !! path = Some (File (clock w) data) /\
                    requests w1 = requests w ++ ["/vpn/logicals"]
  else (exists n, fs w !! path = Some n /\ n <> Dir) /\
       fs w1 !! path = fs w !! path /\ requests w1 = requests w.
Proof.
  intros H.
  destruct (String.eqb_spec path "") as [E|Hne];
    [destruct (cache_servers_nonempty _ _ _ _ _ _ _ H E); discriminate|].
  revert H. rewrite cache_servers_run by assumption. cbv zeta.
  unfold refresh_due.
  destruct (String.eqb_spec path (PROTON_XDG_CACHE_HOME K)) as [->|Hneq];
    [ destruct (fs w !! PROTON_XDG_CACHE_HOME K) as [[|t d|t b]|] eqn:Eh
    | destruct (fs w !! path) as [[|t d|t b]|] eqn:Ep;
      destruct (fs w !! PROTON_XDG_CACHE_HOME K) as [[|t' d'|t' b']|] eqn:Eh ].
  all: try discriminate.
  all: cache_eval; try discriminate.
  all: try (destruct (clock w - timedelta_minutes REFRESH_INTERVAL >? t) eqn:Et;
            [ assert ((clock w - t >? timedelta_minutes REFRESH_INTERVAL) = true)
                as -> by lia
            | assert ((clock w - t >? timedelta_minutes REFRESH_INTERVAL) = false)
                as -> by lia ]).
  all: destruct force; cbn [orb].
  all: try (destruct (api_request s "/vpn/logicals") as [data|e] eqn:Ea).
  all: try discriminate.
  all: intros HH; inversion HH; subst; clear HH; cbn [fs clock requests].
  all: split; [assumption|]; split; [assumption|]; split; [reflexivity|].
  all: split; [lookups; first [reflexivity | assumption]|].
  all: split; [intros q Hq1 Hq2; now lookups|].
  all: try (eexists; repeat split; lookups;
            first [reflexivity | eassumption]; fail).
  all: split; [eexists; split; [reflexivity | discriminate]|].
  all: split; [lookups; first [reflexivity | assumption] | reflexivity].
Qed.


(** X3.  When [cache_servers] returns after a refresh that was due, the
    cache file holds the answer of the API and loads as it, whatever the
    file held before.  When no refresh was due the file is not looked
    into: it loads as it did before, and a cache file that is no JSON
    document, as a write cut short leaves it, is left in place and still
    fails to load. *)
Theorem cache_then_load K s force w w1 :
  let path := CACHED_SERVERLIST K in
  cache_servers K s force (PyStr path) w = (Ok tt, w1) ->
  if refresh_due force path w
  then exists data,
         api_request s "/vpn/logicals" = Ok data /\
         load_json path w1 = (Ok data, w1)
  else load_json path w1 = (fst (load_json path w), w1) /\
       forall t is_text,
         fs w !! path = Some (Corrupt t is_text) ->
         load_json path w1
         = (Raise (if is_text then JSONDecodeError else UnicodeDecodeError),
            w1).
Proof.
  intros path H. apply cache_servers_post in H as (_ & _ & _ & _ & _ & H).
  unfold load_json. destruct (refresh_due force path w).
  - destruct H as (data & Ha & Hf & _). exists data. now rewrite Hf.
  - destruct H as ((n & Hn & Hdir) & Hf & _). rewrite Hf, Hn. split.
    + destruct n; [congruence | reflexivity | reflexivity].
    + intros t is_text [= ->]. reflexivity.
Qed.

(** A cache file five minutes old that is no JSON document, as the
    second case of X3 supposes. *)
Lemma cache_then_load_witness :
  let K := example_constants in
  let s := example_session fifty_servers in
  let w := World (<[CACHED_SERVERLIST K := Corrupt (timedelta_minutes 95) true]>
                    (<[PROTON_XDG_CACHE_HOME K := Dir]> ∅))
                 (timedelta_minutes 100) [] in
  cache_servers K s false (PyStr (CACHED_SERVERLIST K)) w = (Ok tt, w) /\
  refresh_due false (CACHED_SERVERLIST K) w = false /\
  load_json (CACHED_SERVERLIST K) w = (Raise JSONDecodeError, w).
Proof.
  intros K s w.
  assert (Hrun : cache_servers K s false (PyStr (CACHED_SERVERLIST K)) w
                 = (Ok tt, w)) by (vm_compute; reflexivity).
  assert (Hdue : refresh_due false (CACHED_SERVERLIST K) w = false)
    by (vm_compute; reflexivity).
  split; [exact Hrun|]. split; [exact Hdue|].
  pose proof (cache_then_load K s false w w Hrun) as H.
  cbv zeta in H. rewrite Hdue in H.
  refine (proj2 H (timedelta_minutes 95) true _).
  vm_compute. reflexivity.
Defined.

(** X4.  Whatever its outcome, [cache_servers] leaves every path other
    than the cache file and the cache directory as it was, does not move
    the clock, and makes at most the one request for the catalog. *)
Theorem cache_servers_frame K s force path w r w1 :
  cache_servers K s force (PyStr path) w = (r, w1) ->
  (forall q, q <> path -> q <> PROTON_XDG_CACHE_HOME K ->
             fs w1 !! q = fs w !! q) /\
  clock w1 = clock w /\
  (requests w1 = requests w \/ requests w1 = requests w ++ ["/vpn/logicals"]).
Proof.
  intros H.
  destruct (String.eqb_spec path "") as [E|Hne];
    [destruct (cache_servers_nonempty _ _ _ _ _ _ _ H E) as [_ ->]; auto|].
  revert H. rewrite cache_servers_run by assumption. cbv zeta.
  destruct (String.eqb_spec path (PROTON_XDG_CACHE_HOME K)) as [->|Hneq];
    [ destruct (fs w !! PROTON_XDG_CACHE_HOME K) as [[|t d|t b]|] eqn:Eh
    | destruct (fs w !! path) as [[|t d|t b]|] eqn:Ep;
      destruct (fs w !! PROTON_XDG_CACHE_HOME K) as [[|t' d'|t' b']|] eqn:Eh ].
  all: cache_eval.
  all: repeat match goal with
         | |- context [if ?b then _ else _] => destruct b
         | |- context [match api_request ?s ?e with _ => _ end] =>
             destruct (api_request s e)
         end.
  all: intros HH; inversion HH; subst; clear HH; cbn [fs clock requests].
  all: split; [intros q Hq1 Hq2; now lookups|]; auto.
Qed.

(** A refresh of a stale cache, as X4 supposes. *)
Lemma cache_servers_frame_witness :
  let K := example_constants in
  let w := cached_world 20 [] in
  let run := cache_servers K (example_session fifty_servers) false
               (PyStr (CACHED_SERVERLIST K)) w in
  run = (Ok tt, snd run) /\
  (forall q, q <> CACHED_SERVERLIST K -> q <> PROTON_XDG_CACHE_HOME K ->
             fs (snd run) !! q = fs w !! q) /\
  clock (snd run) = clock w /\
  (requests (snd run) = requests w \/
   requests (snd run) = requests w ++ ["/vpn/logicals"]).
Proof.
  intros K w run.
  assert (Hrun : run = (Ok tt, snd run)) by (vm_compute; reflexivity).
  split; [exact Hrun|].
  exact (cache_servers_frame K _ false (CACHED_SERVERLIST K) w _ _ Hrun).
Defined.

(** X5.  A cache that has just been fetched is fresh for the refresh
    interval: a refresh that is not forced and comes at most 15 minutes
    later requests nothing and changes nothing, while one that comes later
    than that requests the catalog again. *)
Theorem fetched_cache_stays_fresh K s force path w w1 d :
  cache_servers K s force (PyStr path) w = (Ok tt, w1) ->
  refresh_due force path w = true ->
  0 <= d ->
  (d <= timedelta_minutes REFRESH_INTERVAL ->
   cache_servers K s false (PyStr path) (later d w1) = (Ok tt, later d w1)) /\
  (timedelta_minutes REFRESH_INTERVAL < d ->
   requests (snd (cache_servers K s false (PyStr path) (later d w1)))
   = requests w1 ++ ["/vpn/logicals"]).
Proof.
  intros H Hdue Hd.
  apply cache_servers_post in H as (Hne & Hneq & Hclock & Hhome & _ & H).
  rewrite Hdue in H. destruct H as (data & Ha & Hfile & Hreq).
  assert (Hrun : forall b,
    (clock w + d - timedelta_minutes REFRESH_INTERVAL >? clock w) = b ->
    cache_servers K s false (PyStr path) (later d w1) =
    if b then (Ok tt, World (<[path := File (clock w + d) data]> (fs w1))
                            (clock w + d) (requests w1 ++ ["/vpn/logicals"]))
    else (Ok tt, later d w1)).
  { intros b Hb. rewrite cache_servers_run by assumption. cbv zeta.
    unfold later. cbn [fs clock requests]. rewrite Hfile, Hhome, Hclock, Hb.
    destruct b; cbn [orb]; [|reflexivity].
    rewrite Ha. reflexivity. }
  split; intros Hd'.
  - rewrite (Hrun false); [reflexivity|lia].
  - rewrite (Hrun true); [reflexivity|lia].
Qed.

(** A second call ten minutes after the first fetch, as X5 supposes. *)
Lemma fetched_cache_stays_fresh_witness :
  let K := example_constants in
  let s := example_session fifty_servers in
  let path := CACHED_SERVERLIST K in
  let run := cache_servers K s false (PyStr path) empty_world in
  let w1 := snd run in
  run = (Ok tt, w1) /\
  refresh_due false path empty_world = true /\
  0 <= timedelta_minutes 10 /\
  timedelta_minutes 10 <= timedelta_minutes REFRESH_INTERVAL /\
  cache_servers K s false (PyStr path) (later (timedelta_minutes 10) w1)
  = (Ok tt, later (timedelta_minutes 10) w1).
Proof.
  intros K s path run w1.
  split; [vm_compute; reflexivity|].
  split; [vm_compute; reflexivity|].
  split; [vm_compute; discriminate|].
  split; [vm_compute; discriminate|].
  refine (proj1 (fetched_cache_stays_fresh K s false path empty_world w1
                   (timedelta_minutes 10) _ _ _) _).
  - vm_compute. reflexivity.
  - vm_compute. reflexivity.
  - vm_compute. discriminate.
  - vm_compute. discriminate.
Defined.


End Cache.

Section Outcomes.
Import Py ServerManager Examples.
Local Open Scope m_scope.

Lemma filter_names_none servername (servers : list server) :
  ~ In servername (map Name servers) ->
  List.filter (fun server => String.eqb (Name server) servername) servers = [].
Proof.
  induction servers as [|x l IH]; [reflexivity|]. cbn [map List.filter].
  intros H. destruct (String.eqb_spec (Name x) servername) as [E|_].
  - destruct H. now left.
  - apply IH. intros Hin. apply H. now right.
Qed.

Lemma generate_ip_list_absent servername (servers : list server) :
  ~ In servername (map Name servers) ->
  generate_ip_list servername servers = Raise IndexError.
Proof.
  intros H. unfold generate_ip_list, extract_server_value.
  now rewrite filter_names_none.
Qed.

Lemma generate_ip_list_first servername before (s : server) after :
  Name s = servername ->
  ~ In servername (map Name before) ->
  generate_ip_list servername (before ++ s :: after)
  = Ok (map EntryIP (Servers s)).
Proof.
  intros Hs Hb. unfold generate_ip_list, extract_server_value.
  rewrite List.filter_app, filter_names_none by assumption.
  cbn [app List.filter]. rewrite Hs, String.eqb_refl. reflexivity.
Qed.

(** X6.  [generate_ip_list] raises [IndexError] exactly for a name no
    server of the list bears, and otherwise gives the entry addresses of
    the first server of that name. *)
Theorem generate_ip_list_first_match servername (servers : list server) :
  (generate_ip_list servername servers = Raise IndexError
   <-> ~ In servername (map Name servers)) /\
  (forall before s after,
     servers = before ++ s :: after ->
     Name s = servername ->
     ~ In servername (map Name before) ->
     generate_ip_list servername servers = Ok (map EntryIP (Servers s))).
Proof.
  split.
  - split.
    + intros H Hin. destruct (generate_ip_list_found _ _ Hin) as [ips E].
      congruence.
    + apply generate_ip_list_absent.
  - intros before s after -> Hs Hb. now apply generate_ip_list_first.
Qed.

(** Two servers of one name: the addresses are those of the first. *)
Lemma generate_ip_list_first_match_witness :
  let a := example_server "CH#1" 0 (1 # 1) in
  let b := Server "CH#1" 0 1 4 (1 # 2) "CH" [Subserver "10.0.0.2"] in
  generate_ip_list "CH#1" [a; b] = Ok ["10.0.0.1"].
Proof.
  intros a b.
  refine (proj2 (generate_ip_list_first_match "CH#1" [a; b]) [] a [b] _ _ _).
  - reflexivity.
  - reflexivity.
  - intros [].
Defined.

Lemma insert_by_front {A} (key : A -> Q) s l :
  (forall b, In b l -> (key s <= key b)%Q) ->
  insert_by key s l = s :: l.
Proof.
  destruct l as [|y l]; [reflexivity|]. intros H. cbn [insert_by].
  destruct (Qltb (key y) (key s)) eqn:E; [|reflexivity].
  apply Qltb_true in E. specialize (H y (or_introl eq_refl)).
  exfalso. eapply Qlt_not_le; eassumption.
Qed.

Lemma insert_by_behind {A} (key : A -> Q) a s l :
  (key s < key a)%Q ->
  insert_by key a (s :: l) = s :: insert_by key a l.
Proof.
  intros H. cbn [insert_by].
  destruct (Qltb (key s) (key a)) eqn:E; [reflexivity|].
  apply Qltb_false in E. exfalso. eapply Qlt_not_le; eassumption.
Qed.

Lemma sorted_first_minimum {A} (key : A -> Q) before s after :
  (forall a, In a before -> (key s < key a)%Q) ->
  (forall b, In b after -> (key s <= key b)%Q) ->
  sorted key (before ++ s :: after) = s :: sorted key (before ++ after).
Proof.
  intros Hb Ha. induction before as [|a l IH]; cbn [app sorted].
  - apply insert_by_front. intros b Hin. apply Ha.
    eapply Permutation_in; [apply sorted_perm | exact Hin].
  - rewrite IH by (intros x Hx; apply Hb; now right).
    apply insert_by_behind. apply Hb. now left.
Qed.

(** X7.  Among servers of equal score the order of the pool decides: from
    a pool of fewer than 50, the selector returns the first server that no
    other server undercuts, whatever the draw. *)
Theorem small_pool_picks_first_minimum draw before s after :
  (length (before ++ s :: after) < 50)%nat ->
  (forall a, In a before -> (Score s < Score a)%Q) ->
  (forall b, In b after -> (Score s <= Score b)%Q) ->
  get_fastest_server draw (before ++ s :: after) = Ok (Name s).
Proof.
  intros Hlen Hb Ha. rewrite get_fastest_server_eq.
  rewrite sorted_first_minimum by assumption.
  unfold pool_size. destruct (Nat.leb_spec 50 (length (before ++ s :: after)));
    [lia|].
  cbn [take]. unfold random_choice, index. cbn [length].
  rewrite Nat.mod_1_r. reflexivity.
Qed.

(** Two servers tie on the lowest score; the earlier one is returned. *)
Lemma small_pool_picks_first_minimum_witness :
  let slow := example_server "CH#1" 0 (3 # 1) in
  let first := example_server "CH#2" 0 (1 # 2) in
  let second := example_server "CH#3" 0 (2 # 4) in
  get_fastest_server 5 [slow; first; second] = Ok "CH#2".
Proof.
  intros slow first second.
  refine (small_pool_picks_first_minimum 5 [slow] first [second] _ _ _).
  - vm_compute. lia.
  - intros a [<- | []]. vm_compute. reflexivity.
  - intros b [<- | []]. vm_compute. discriminate.
Defined.

Lemma generate_ip_list_inv servername servers ips :
  generate_ip_list servername servers = Ok ips ->
  exists x, In x servers /\ Name x = servername /\ ips = map EntryIP (Servers x).
Proof.
  unfold generate_ip_list, extract_server_value, index.
  destruct (List.filter _ servers) as [|x l] eqn:E; [discriminate|].
  simpl. intros [= <-].
  assert (Hin : In x (List.filter
            (fun server => String.eqb (Name server) servername) servers))
    by (rewrite E; now left).
  apply filter_In in Hin as [Hin Hn]. apply String.eqb_eq in Hn. eauto.
Qed.

Lemma generate_ip_list_raise servername servers e :
  generate_ip_list servername servers = Raise e -> e = IndexError.
Proof.
  unfold generate_ip_list, extract_server_value, index.
  destruct (List.filter _ servers); simpl; congruence.
Qed.

(** The lookup of the addresses of the chosen name: a name without server
    is an [IllegalServername]; the world is left as it is. *)
Lemma lookup_ips_inv servername servers (w : world) ips w' :
  try_except (lift (generate_ip_list servername servers))
             (is_exn IndexError) (fun _ => raise IllegalServername) w
  = (Ok ips, w') ->
  w' = w /\ generate_ip_list servername servers = Ok ips.
Proof.
  unfold try_except, lift, raise.
  destruct (generate_ip_list servername servers) as [l|e] eqn:E.
  - intros [= <- <-]. auto.
  - apply generate_ip_list_raise in E as ->. discriminate.
Qed.

Lemma lookup_ips_eq servername servers (w : world) :
  try_except (lift (generate_ip_list servername servers))
             (is_exn IndexError) (fun _ => raise IllegalServername) w
  = match generate_ip_list servername servers with
    | Ok ips => (Ok ips, w)
    | Raise _ => (Raise IllegalServername, w)
    end.
Proof.
  unfold try_except, lift, raise.
  destruct (generate_ip_list servername servers) as [l|e] eqn:E;
    [reflexivity|].
  apply generate_ip_list_raise in E as ->. reflexivity.
Qed.

Lemma filter_servers_frame K s w r w' :
  filter_servers K s w = (r, w') ->
  fs w' = fs w /\ clock w' = clock w /\
  (requests w' = requests w \/ requests w' = requests w ++ ["/vpn"]).
Proof.
  unfold filter_servers, fetch_user_tier, mbind, load_json, request, ret, raise.
  destruct (fs w !! CACHED_SERVERLIST K) as [[|t data|t b]|];
    try (intros [= <- <-]; auto; fail).
  cbn [fs clock requests].
  destruct (api_request s "/vpn") as [[| tier |]|]; try destruct data;
    intros [= <- <-]; cbn [fs clock requests]; auto.
Qed.

Lemma ips_eligible K s p servername t catalog tier (w : world) ips :
  fs w !! CACHED_SERVERLIST K = Some (File t (JLogicals catalog)) ->
  api_request s "/vpn" = Ok (JVpn tier) ->
  generate_ip_list servername
    (List.filter (fun server => (Tier server <=? tier) && (Status server =? 1))
                 catalog) = Ok ips ->
  eligible K s w (VpnCert p servername ips).
Proof.
  intros Hfile Htier E.
  apply generate_ip_list_inv in E as (x & Hin & Hname & ->).
  apply filter_In in Hin as [Hin Hx]. apply andb_prop in Hx as [Ht Hs].
  exists t, catalog, tier, x. cbn [cert_servername cert_ip_list].
  repeat split; try assumption; lia.
Qed.

Ltac lifted H x Hx :=
  apply mbind_inv in H as (x & ? & Hx & H);
  unfold lift in Hx; injection Hx as Hx <-.

Ltac start_strategy H :=
  let s := fresh "s" in
  let p := fresh "p" in
  let Hv := fresh "Hv" in
  apply mbind_inv in H as ([s p] & ? & Hv & H);
  unfold lift in Hv; injection Hv as Hv <-;
  apply validate_inv in Hv as (-> & -> & ?).

Ltac load_catalog H :=
  let Hf := fresh "Hf" in
  apply mbind_inv in H as (? & ? & Hf & H);
  apply filter_servers_inv in Hf as (? & ? & ? & ? & ? & -> & Hfs & _ & _).

Ltac finish_strategy H :=
  let Hi := fresh "Hi" in
  apply mbind_inv in H as (? & ? & Hi & H);
  apply lookup_ips_inv in Hi as [-> Hi];
  try (destruct (negb (existsb _ _)); [discriminate|]);
  unfold generate_vpn_cert, ret in H; injection H as <- <-;
  eexists; split; [reflexivity|];
  eapply ips_eligible; [|eassumption|eassumption];
  match goal with Hfs : fs _ = fs _ |- _ => rewrite Hfs end; eassumption.

(** X8.  Whichever strategy returns a certificate request, it is for a
    server of the cached catalog that the session's tier reaches and whose
    status is 1, with that server's name and entry addresses. *)
Theorem strategies_return_eligible_servers K draw session protocol args cert w w' :
  fastest K draw session protocol w = (Ok cert, w') \/
  country_f K draw session protocol args w = (Ok cert, w') \/
  direct K session protocol args w = (Ok cert, w') \/
  feature_f K draw session protocol args w = (Ok cert, w') \/
  random_c K draw session protocol w = (Ok cert, w') ->
  exists s, session = PySession s /\ eligible K s w' cert.
Proof.
  intros [H | [H | [H | [H | H]]]].
  - unfold fastest in H. start_strategy H.
    apply mbind_inv in H as ([] & ? & _ & H). load_catalog H.
    lifted H servername Hg. finish_strategy H.
  - unfold country_f in H. start_strategy H.
    lifted H first_arg Hi. destruct first_arg; try discriminate.
    lifted H country_code Hc.
    apply mbind_inv in H as ([] & ? & _ & H). load_catalog H.
    destruct (length _ =? 0)%nat; [discriminate|].
    lifted H servername Hg. finish_strategy H.
  - unfold direct in H. start_strategy H.
    destruct args as [|user_input args]; [discriminate|].
    lifted H input Hi. lifted H servername Hn. lifted H valid Hvalid.
    destruct (negb valid); [discriminate|].
    apply mbind_inv in H as ([] & ? & _ & H). load_catalog H.
    destruct servername as [servername|]; [|discriminate].
    finish_strategy H.
  - unfold feature_f in H. start_strategy H.
    destruct args as [|[] args]; try discriminate.
    lifted H first_arg Hi. lifted H literal_feature Hl.
    destruct (allowed_features !! literal_feature); [|discriminate].
    apply mbind_inv in H as ([] & ? & _ & H). load_catalog H.
    destruct (length _ =? 0)%nat; [discriminate|].
    lifted H servername Hg. finish_strategy H.
  - unfold random_c in H. start_strategy H. load_catalog H.
    lifted H chosen Hc. finish_strategy H.
Qed.

(** A run of [fastest] that returns, as X8 supposes. *)
Lemma strategies_return_eligible_servers_witness :
  let catalog := [example_server "CH#1" 0 (1 # 2)] in
  let s := example_session catalog in
  exists s', PySession s = PySession s' /\
    eligible example_constants s'
      (World (<["/cache/serverlist.json" := File 0 (JLogicals catalog)]>
                (<["/cache" := Dir]> ∅))
             0 ["/vpn/logicals"; "/vpn"])
      (VpnCert "udp" "CH#1" ["10.0.0.1"]).
Proof.
  intros catalog s.
  refine (strategies_return_eligible_servers example_constants 0
            (PySession s) (PyStr "udp") [] _ empty_world _ _).
  left. vm_compute. reflexivity.
Defined.

(** [direct] on a name given as such or as the second element of a list. *)
Lemma direct_eq K s p arg x a rest more (w : world) :
  p <> "" ->
  arg = PyStr x \/ arg = PyList (a :: PyStr x :: rest) ->
  direct K (PySession s) (PyStr p) (arg :: more) w =
  match is_servername_valid (PyStr x) with
  | Raise e => (Raise e, w)
  | Ok false => (Raise IllegalServername, w)
  | Ok true =>
      (cache_servers K s false (PyStr (CACHED_SERVERLIST K)) ;;;
       servers <- filter_servers K s ;;
       match upper (strip x) with
       | Some servername =>
           ip_list <- try_except
                        (lift (generate_ip_list servername servers))
                        (is_exn IndexError)
                        (fun _ => raise IllegalServername) ;;
           if negb (existsb (String.eqb servername) (map Name servers))
           then raise TypeError
           else generate_vpn_cert p s servername ip_list
       | None => raise IllegalServername
       end) w
  end.
Proof.
  intros Hp Harg. unfold direct.
  erewrite mbind_ok
    by (unfold lift; rewrite validate_ok by assumption; reflexivity).
  cbv beta iota.
  assert (Hin : match arg with
                | PyList l => index l 1
                | _ => Ok arg
                end = Ok (PyStr x))
    by (destruct Harg as [-> | ->]; reflexivity).
  rewrite Hin. unfold mbind at 1 2 3, lift at 1 2 3. cbn [str_method].
  destruct (is_servername_valid (PyStr x)) as [[|]|e]; reflexivity.
Qed.

(** X9.  [direct] refuses a name the grammar rejects before it touches the
    cache or the API.  For a name it accepts it looks up the trimmed,
    upper-cased input in the tier-filtered catalog: a name no server bears
    is an [IllegalServername] (the membership test that follows the lookup
    has nothing left to refuse), and otherwise the request is for the first
    server of that name.  An input whose upper case has a character above
    code point 255, as the micro sign has, is the name of no server the
    model can list, and [IllegalServername] too. *)
Theorem direct_outcomes K s p arg x a rest more w :
  p <> "" ->
  arg = PyStr x \/ arg = PyList (a :: PyStr x :: rest) ->
  let call := direct K (PySession s) (PyStr p) (arg :: more) in
  (is_servername_valid (PyStr x) = Ok false ->
   call w = (Raise IllegalServername, w)) /\
  (is_servername_valid (PyStr x) = Ok true ->
   forall w1 servers w2,
     cache_servers K s false (PyStr (CACHED_SERVERLIST K)) w = (Ok tt, w1) ->
     filter_servers K s w1 = (Ok servers, w2) ->
     (upper (strip x) = None -> call w = (Raise IllegalServername, w2)) /\
     (forall servername,
        upper (strip x) = Some servername ->
        (~ In servername (map Name servers) ->
         call w = (Raise IllegalServername, w2)) /\
        (forall before sv after,
           servers = before ++ sv :: after ->
           Name sv = servername ->
           ~ In servername (map Name before) ->
           call w
           = (Ok (VpnCert p servername (map EntryIP (Servers sv))), w2)))).
Proof.
  intros Hp Harg call. subst call.
  rewrite (direct_eq K s p arg x a rest more w Hp Harg).
  split; [intros ->; reflexivity|].
  intros -> w1 servers w2 Hc Hf.
  erewrite mbind_ok by exact Hc. cbv beta.
  erewrite mbind_ok by exact Hf. cbv beta.
  split; [intros ->; reflexivity|].
  intros servername ->.
  unfold mbind. rewrite lookup_ips_eq. split.
  - intros Hout. now rewrite generate_ip_list_absent.
  - intros before sv after -> Hname Hb.
    rewrite generate_ip_list_first by assumption.
    assert (existsb (String.eqb servername)
              (map Name (before ++ sv :: after)) = true) as ->.
    { apply existsb_exists. exists (Name sv). split.
      - apply in_map, in_elt.
      - rewrite Hname. apply String.eqb_refl. }
    reflexivity.
Qed.

(** A lower-case name of a server of the catalog, and a name of two micro
    signs that a server of the catalog bears as it is, as X9 supposes:
    the first is found under its upper case, the second is looked up under
    a Greek name and not found. *)
Lemma direct_outcomes_witness :
  let K := example_constants in
  let micro := String "181" (String "181" "#1") in
  let catalog := [example_server "CH#1" 0 (1 # 2);
                  example_server micro 0 (1 # 3)] in
  let s := example_session catalog in
  let cached := cache_servers K s false (PyStr (CACHED_SERVERLIST K))
                  empty_world in
  let filtered := filter_servers K s (snd cached) in
  direct K (PySession s) (PyStr "udp") [PyStr "ch#1"] empty_world
  = (Ok (VpnCert "udp" "CH#1" ["10.0.0.1"]), snd filtered) /\
  is_servername_valid (PyStr micro) = Ok true /\
  direct K (PySession s) (PyStr "udp") [PyStr micro] empty_world
  = (Raise IllegalServername, snd filtered).
Proof.
  intros K micro catalog s cached filtered.
  assert (Hvalid : is_servername_valid (PyStr micro) = Ok true)
    by (vm_compute; reflexivity).
  split; [|split; [exact Hvalid|]].
  - refine (proj2 (proj2 (proj2
      (direct_outcomes K s "udp" (PyStr "ch#1") "ch#1" PyNone [] []
         empty_world _ _) _ (snd cached) catalog (snd filtered) _ _)
      "CH#1" _)
      [] (example_server "CH#1" 0 (1 # 2)) [example_server micro 0 (1 # 3)]
      _ _ _).
    + discriminate.
    + left. reflexivity.
    + vm_compute. reflexivity.
    + vm_compute. reflexivity.
    + vm_compute. reflexivity.
    + vm_compute. reflexivity.
    + reflexivity.
    + reflexivity.
    + intros [].
  - refine (proj1 (proj2
      (direct_outcomes K s "udp" (PyStr micro) micro PyNone [] []
         empty_world _ _) Hvalid (snd cached) catalog (snd filtered) _ _) _).
    + discriminate.
    + left. reflexivity.
    + vm_compute. reflexivity.
    + vm_compute. reflexivity.
    + vm_compute. reflexivity.
Defined.

Lemma filter_nil_iff {A} (f : A -> bool) (l : list A) :
  List.filter f l = [] <-> forall x, In x l -> f x = false.
Proof.
  induction l as [|y l IH]; cbn [List.filter].
  - split; [intros _ x [] | reflexivity].
  - destruct (f y) eqn:E.
    + split; [discriminate|]. intros H.
      specialize (H y (or_introl eq_refl)). congruence.
    + rewrite IH. split.
      * intros H x [<- | Hx]; auto.
      * intros H x Hx. apply H. now right.
Qed.

(** X10.  [country_f] takes the country code from the second element of
    the list it is given, trimmed and upper-cased.  An empty argument tuple
    or a list of fewer than two elements is an [IndexError], an argument
    that is no list a [TypeError], a code that is no string an
    [AttributeError], each before any file or request.  Otherwise it
    raises [ValueError] when no eligible server of that exit country has
    [Features] other than 1 and 2, as for a code whose upper case has a
    character above code point 255, and else returns such a server with
    the addresses listed under its name. *)
Theorem country_f_outcomes K draw s p w :
  p <> "" ->
  let call := country_f K draw (PySession s) (PyStr p) in
  call [] w = (Raise IndexError, w) /\
  (forall first more,
     (forall l, first <> PyList l) ->
     call (first :: more) w = (Raise TypeError, w)) /\
  (forall l more,
     (length l < 2)%nat -> call (PyList l :: more) w = (Raise IndexError, w)) /\
  (forall a code l more,
     (forall x, code <> PyStr x) ->
     call (PyList (a :: code :: l) :: more) w = (Raise AttributeError, w)) /\
  (forall a code l more w1 servers w2,
     cache_servers K s false (PyStr (CACHED_SERVERLIST K)) w = (Ok tt, w1) ->
     filter_servers K s w1 = (Ok servers, w2) ->
     let args := PyList (a :: PyStr code :: l) :: more in
     (upper (strip code) = None -> call args w = (Raise ValueError, w2)) /\
     (forall country_code,
        upper (strip code) = Some country_code ->
        let wanted x :=
          In x servers /\ ExitCountry x = country_code /\
          Features x <> 1 /\ Features x <> 2 in
        ((forall x, ~ wanted x) -> call args w = (Raise ValueError, w2)) /\
        ((exists x, wanted x) ->
         exists chosen ips,
           wanted chosen /\
           generate_ip_list (Name chosen) servers = Ok ips /\
           call args w = (Ok (VpnCert p (Name chosen) ips), w2)))).
Proof.
  intros Hp call.
  assert (Hstart : forall args,
    call args w =
    (first <- lift (index args 0) ;;
     match first with
     | PyList l =>
         country_code <- lift (bind (index l 1) (str_method upper)) ;;
         cache_servers K s false (PyStr (CACHED_SERVERLIST K)) ;;;
         servers <- filter_servers K s ;;
         let server_pool :=
           List.filter
             (fun server =>
                negb (Z_in (Features server) [1; 2])
                && eq_str (ExitCountry server) country_code)
             servers in
         if (length server_pool =? 0)%nat then raise ValueError
         else
           servername <- lift (get_fastest_server draw server_pool) ;;
           ip_list <- try_except (lift (generate_ip_list servername servers))
                        (is_exn IndexError)
                        (fun _ => raise IllegalServername) ;;
           generate_vpn_cert p s servername ip_list
     | _ => raise TypeError
     end) w).
  { intros args. subst call. unfold country_f.
    erewrite mbind_ok
      by (unfold lift; rewrite validate_ok by assumption; reflexivity).
    reflexivity. }
  split; [|split; [|split; [|split]]].
  - rewrite Hstart. reflexivity.
  - intros first more Hfirst. rewrite Hstart.
    destruct first; try reflexivity. now destruct (Hfirst l).
  - intros l more Hlen. rewrite Hstart.
    destruct l as [|a [|b l]]; cbn [length] in Hlen; try lia; reflexivity.
  - intros a code l more Hcode. rewrite Hstart.
    destruct code; try reflexivity. now destruct (Hcode s0).
  - intros a code l more w1 servers w2 Hc Hf args.
    assert (Hrun : call args w =
      (let server_pool :=
         List.filter
           (fun server =>
              negb (Z_in (Features server) [1; 2])
              && eq_str (ExitCountry server) (upper (strip code)))
           servers in
       if (length server_pool =? 0)%nat then raise ValueError
       else
         servername <- lift (get_fastest_server draw server_pool) ;;
         ip_list <- try_except (lift (generate_ip_list servername servers))
                      (is_exn IndexError)
                      (fun _ => raise IllegalServername) ;;
         generate_vpn_cert p s servername ip_list) w2).
    { rewrite Hstart. subst args. unfold mbind at 1 2, lift at 1 2.
      change (index (PyList (a :: PyStr code :: l) :: more) 0%nat)
        with (@Ok pyobj (PyList (a :: PyStr code :: l))).
      cbv beta iota.
      change (index (a :: PyStr code :: l) 1%nat) with (@Ok pyobj (PyStr code)).
      cbn [bind str_method].
      erewrite mbind_ok by exact Hc. cbv beta.
      erewrite mbind_ok by exact Hf. reflexivity. }
    rewrite Hrun. split.
    + intros ->. cbv zeta.
      assert (List.filter
                (fun server =>
                   negb (Z_in (Features server) [1; 2])
                   && eq_str (ExitCountry server) None) servers = []) as ->;
        [|reflexivity].
      apply filter_nil_iff. intros y _. apply andb_false_r.
    + intros country_code -> wanted. cbv zeta.
      set (server_pool := List.filter _ servers).
      assert (Hpool : forall x, In x server_pool <-> wanted x).
      { intros x. subst server_pool wanted. rewrite filter_In. cbv beta.
        unfold Z_in, eq_str. cbn [existsb].
        rewrite andb_true_iff, negb_true_iff.
        rewrite !orb_false_iff, !Z.eqb_neq, String.eqb_eq. tauto. }
      clearbody server_pool. split.
      * intros Hnone.
        assert (server_pool = []) as ->; [|reflexivity].
        destruct server_pool as [|x l']; [reflexivity|].
        destruct (Hnone x). apply Hpool. now left.
      * intros [x Hx]. apply Hpool in Hx.
        assert (Hne : server_pool <> [])
          by (intros E; rewrite E in Hx; exact Hx).
        destruct (get_fastest_server_some draw server_pool Hne)
          as (chosen & Hg & Hin).
        assert (Hall : In (Name chosen) (map Name servers)).
        { apply in_map. apply Hpool in Hin. apply Hin. }
        destruct (generate_ip_list_found _ _ Hall) as [ips Hips].
        exists chosen, ips. split; [now apply Hpool|].
        split; [exact Hips|].
        assert ((length server_pool =? 0)%nat = false) as ->
          by (destruct server_pool; [congruence | reflexivity]).
        unfold mbind, lift, try_except. rewrite Hg, Hips. reflexivity.
Qed.

(** A code in lower case between blanks and a cache five minutes old, as
    the last case of X10 supposes. *)
Lemma country_f_outcomes_witness :
  let K := example_constants in
  let catalog := [Server "SE#1" 0 1 0 (1 # 4) "SE" [Subserver "10.0.0.2"];
                  example_server "CH#1" 0 (1 # 2)] in
  let s := example_session catalog in
  let w := cached_world 5 catalog in
  let filtered := filter_servers K s w in
  exists chosen ips,
    (In chosen catalog /\ ExitCountry chosen = "CH" /\
     Features chosen <> 1 /\ Features chosen <> 2) /\
    generate_ip_list (Name chosen) catalog = Ok ips /\
    country_f K 0 (PySession s) (PyStr "udp")
      [PyList [PyStr "c"; PyStr " ch "]] w
    = (Ok (VpnCert "udp" (Name chosen) ips), snd filtered).
Proof.
  intros K catalog s w filtered.
  assert (Hp : "udp" <> "") by discriminate.
  destruct (country_f_outcomes K 0 s "udp" w Hp) as (_ & _ & _ & _ & H).
  destruct (H (PyStr "c") " ch " [] [] w catalog (snd filtered)) as [_ H2].
  - vm_compute. reflexivity.
  - vm_compute. reflexivity.
  - apply (H2 "CH"); [vm_compute; reflexivity|].
    exists (example_server "CH#1" 0 (1 # 2)).
    repeat split; try (vm_compute; discriminate). right. now left.
Defined.

Lemma absent_error_cases k path :
  absent_error k path = FileNotFoundError \/
  absent_error k path = NotADirectoryError
  /\ parent_error k path = Some NotADirectoryError.
Proof.
  unfold absent_error. unfold parent_error.
  destruct (String.eqb path ""); [auto|].
  destruct (forallb _ _); [auto|].
  destruct (k _) as [[|]|]; auto. destruct (blocked _ _ _); auto.
Qed.

(** X11.  [random_c] never refreshes the cache: whatever its outcome the
    files and the clock are as before and the only request it can have
    made is the one for the tier.  With a valid session and protocol and
    no cache file it raises [FileNotFoundError] at once, or
    [NotADirectoryError] if a regular file stands where the directory of
    the cache file should. *)
Theorem random_c_never_refreshes K draw session protocol w r w' :
  random_c K draw session protocol w = (r, w') ->
  fs w' = fs w /\ clock w' = clock w /\
  (requests w' = requests w \/ requests w' = requests w ++ ["/vpn"]) /\
  (fs w !! CACHED_SERVERLIST K = None ->
   w' = w /\
   (r = Raise FileNotFoundError \/
    r = Raise NotADirectoryError
    /\ parent_error (kind (fs w)) (CACHED_SERVERLIST K)
       = Some NotADirectoryError \/
    exists e, validate_session_protocol session protocol = Raise e)).
Proof.
  unfold random_c, mbind at 1, lift at 1.
  destruct (validate_session_protocol session protocol) as [[s p]|e] eqn:Ev.
  - unfold mbind at 1.
    destruct (filter_servers K s w) as [r1 w1] eqn:Ef.
    pose proof (filter_servers_frame _ _ _ _ _ Ef) as (Hfs & Hclock & Hreq).
    assert (Hnone : fs w !! CACHED_SERVERLIST K = None ->
                    r1 = Raise (absent_error (kind (fs w))
                                  (CACHED_SERVERLIST K)) /\ w1 = w).
    { intros Hn. revert Ef. unfold filter_servers, mbind, load_json.
      rewrite Hn. now intros [= <- <-]. }
    assert (Hframe : forall r0 : result vpn_cert,
      (fs w !! CACHED_SERVERLIST K = None ->
       r0 = Raise (absent_error (kind (fs w)) (CACHED_SERVERLIST K))) ->
      fs w1 = fs w /\ clock w1 = clock w /\
      (requests w1 = requests w \/ requests w1 = requests w ++ ["/vpn"]) /\
      (fs w !! CACHED_SERVERLIST K = None ->
       w1 = w /\
       (r0 = Raise FileNotFoundError \/
        r0 = Raise NotADirectoryError
        /\ parent_error (kind (fs w)) (CACHED_SERVERLIST K)
           = Some NotADirectoryError \/
        exists e, @Ok (Session * string) (s, p) = Raise e))).
    { intros r0 Hr0. split; [|split; [|split]]; try assumption.
      intros Hn. split; [apply (Hnone Hn)|]. rewrite (Hr0 Hn).
      destruct (absent_error_cases (kind (fs w)) (CACHED_SERVERLIST K))
        as [-> | [-> Hp]]; auto. }
    destruct r1 as [servers|e1].
    + unfold mbind at 1, lift at 1.
      destruct (random_choice draw servers) as [chosen|e2].
      * unfold mbind. rewrite lookup_ips_eq.
        destruct (generate_ip_list _ _); intros [= <- <-];
          apply Hframe; intros Hn; destruct (Hnone Hn); discriminate.
      * intros [= <- <-]. apply Hframe.
        intros Hn; destruct (Hnone Hn); discriminate.
    + intros [= <- <-]. apply Hframe.
      intros Hn. destruct (Hnone Hn) as [[= ->] _]. reflexivity.
  - intros [= <- <-]. split; [|split; [|split]]; eauto.
Qed.

(** Runs of [random_c] as X11 supposes: on a stale cache, and without a
    cache file, once in an empty world and once with a regular file where
    the cache directory should be. *)
Lemma random_c_never_refreshes_witness :
  let K := example_constants in
  let catalog := [example_server "CH#1" 0 (1 # 2)] in
  let s := example_session catalog in
  let w := cached_world 20 catalog in
  let blocked := World {["/cache" := File 0 JOther]} 0 [] in
  let run := random_c K 0 (PySession s) (PyStr "udp") in
  (run w = (Ok (VpnCert "udp" "CH#1" ["10.0.0.1"]), snd (run w)) /\
   fs (snd (run w)) = fs w /\ clock (snd (run w)) = clock w /\
   (requests (snd (run w)) = requests w \/
    requests (snd (run w)) = requests w ++ ["/vpn"])) /\
  (run empty_world = (Raise FileNotFoundError, snd (run empty_world)) /\
   snd (run empty_world) = empty_world) /\
  (run blocked = (Raise NotADirectoryError, snd (run blocked)) /\
   snd (run blocked) = blocked).
Proof.
  intros K catalog s w blocked run.
  assert (Hrun : run w = (Ok (VpnCert "udp" "CH#1" ["10.0.0.1"]), snd (run w)))
    by (vm_compute; reflexivity).
  assert (Hempty : run empty_world
                   = (Raise FileNotFoundError, snd (run empty_world)))
    by (vm_compute; reflexivity).
  assert (Hblocked : run blocked
                     = (Raise NotADirectoryError, snd (run blocked)))
    by (vm_compute; reflexivity).
  split; [|split]; (split; [assumption|]).
  - destruct (random_c_never_refreshes K 0 (PySession s) (PyStr "udp") w _ _
                Hrun) as (Hfs & Hclock & Hreq & _).
    auto.
  - destruct (random_c_never_refreshes K 0 (PySession s) (PyStr "udp")
                empty_world _ _ Hempty) as (_ & _ & _ & Hnone).
    apply Hnone. reflexivity.
  - destruct (random_c_never_refreshes K 0 (PySession s) (PyStr "udp")
                blocked _ _ Hblocked) as (_ & _ & _ & Hnone).
    apply Hnone. reflexivity.
Defined.

(** X12.  [random_c] excludes no feature: every server of the
    tier-filtered catalog is returned for some draw, a Secure-Core or Tor
    server as any other. *)
Theorem random_c_reaches_every_server K s p w servers w2 i sv :
  p <> "" ->
  filter_servers K s w = (Ok servers, w2) ->
  servers !! i = Some sv ->
  exists ips,
    generate_ip_list (Name sv) servers = Ok ips /\
    random_c K i (PySession s) (PyStr p) w
    = (Ok (VpnCert p (Name sv) ips), w2).
Proof.
  intros Hp Hf Hi.
  assert (Hin : In (Name sv) (map Name servers)).
  { apply in_map. apply list_elem_of_In. eapply list_elem_of_lookup_2, Hi. }
  destruct (generate_ip_list_found _ _ Hin) as [ips Hips].
  exists ips. split; [exact Hips|]. unfold random_c.
  erewrite mbind_ok
    by (unfold lift; rewrite validate_ok by assumption; reflexivity).
  cbv beta iota. erewrite mbind_ok by exact Hf. cbv beta.
  assert (Hlt : (i < length servers)%nat) by (eapply lookup_lt_Some, Hi).
  assert (Hc : random_choice i servers = Ok sv).
  { unfold random_choice, index. destruct servers as [|y l]; [discriminate|].
    rewrite Nat.mod_small by exact Hlt. now rewrite Hi. }
  unfold mbind at 1, lift at 1. rewrite Hc. cbv beta iota zeta.
  unfold mbind. rewrite lookup_ips_eq, Hips. reflexivity.
Qed.

(** The second server of a cached catalog, a Secure-Core one, as X12
    supposes. *)
Lemma random_c_reaches_every_server_witness :
  let K := example_constants in
  let catalog := [example_server "CH#1" 0 (1 # 2);
                  example_server "CH-US#1" 1 (1 # 3)] in
  let s := example_session catalog in
  let w := cached_world 5 catalog in
  exists ips,
    generate_ip_list "CH-US#1" catalog = Ok ips /\
    random_c K 1 (PySession s) (PyStr "udp") w
    = (Ok (VpnCert "udp" "CH-US#1" ips), snd (filter_servers K s w)).
Proof.
  intros K catalog s w.
  refine (random_c_reaches_every_server K s "udp" w catalog
            (snd (filter_servers K s w)) 1
            (example_server "CH-US#1" 1 (1 # 3)) _ _ _).
  - discriminate.
  - vm_compute. reflexivity.
  - reflexivity.
Defined.




End Outcomes.

Section Names.
Import Py Regex ServerManager.

Lemma valid_of_return servername l :
  return_servername servername = Ok (Some (text l)) -> l <> [] ->
  is_servername_valid (PyStr servername) = Ok true.
Proof.
  intros H Hl. cbn [is_servername_valid]. rewrite H. cbn [bind falsy].
  destruct l as [|c l]; [congruence | reflexivity].
Qed.

(** X14.  The names the catalog uses are all accepted: two word
    characters, [#], one to three digits and an optional [-TOR], with or
    without a second country code of two capitals or [FREE] after a dash.
    Normalising such a name strips the leading zeros of its number and
    nothing else. *)
Theorem canonical_names_are_valid c1 c2 cc2 ds tor :
  is_word c1 = true -> is_word c2 = true ->
  ((exists u1 u2, cc2 = [u1; u2] /\ is_ascii_upper u1 = true
                  /\ is_ascii_upper u2 = true)
   \/ cc2 = chars "FREE") ->
  digits ds -> (1 <= length ds <= 3)%nat ->
  tor = None \/ tor = Some "TOR" ->
  let number := drop_while (Ascii.eqb "0") ds in
  let short n := text (c1 :: c2 :: "#"%char :: n ++ tor_chars tor) in
  let long n :=
    text (c1 :: c2 :: "-"%char :: cc2 ++ "#"%char :: n ++ tor_chars tor) in
  return_servername (short ds) = Ok (Some (short number)) /\
  return_servername (long ds) = Ok (Some (long number)) /\
  is_servername_valid (PyStr (short ds)) = Ok true /\
  is_servername_valid (PyStr (long ds)) = Ok true.
Proof.
  intros Hc1 Hc2 Hcc Hds Hlen Htor number short long.
  destruct (re_short_canonical c1 c2 ds tor Hc1 Hc2 Hds Hlen Htor)
    as (m & Hm & G2 & G4 & G5).
  destruct (re_long_canonical c1 c2 cc2 ds tor Hc1 Hc2 Hcc Hds Hlen Htor)
    as (Hshort & m' & Hm' & G3 & G5' & G7 & G8).
  assert (Hs : return_servername (short ds) = Ok (Some (short number))).
  { subst short. cbv beta. unfold return_servername.
    rewrite Hm, G2, G4, G5. cbn [lstrip_zeros bind format_group].
    rewrite lstrip_char_text. fold number.
    now rewrite <- short_form_text. }
  assert (Hl : return_servername (long ds) = Ok (Some (long number))).
  { subst long. cbv beta. unfold return_servername.
    rewrite Hshort, Hm', G3, G5', G7, G8.
    cbn [lstrip_zeros bind format_group].
    rewrite lstrip_char_text. fold number.
    now rewrite <- long_form_text. }
  split; [exact Hs|]. split; [exact Hl|]. split.
  - eapply valid_of_return; [exact Hs | discriminate].
  - eapply valid_of_return; [exact Hl | discriminate].
Qed.

(** The characters of [CH#007-TOR] and [CH-US#007-TOR] meet the hypotheses
    of X14. *)
Lemma canonical_names_are_valid_witness :
  return_servername "CH#007-TOR" = Ok (Some "CH#7-TOR") /\
  return_servername "CH-US#007-TOR" = Ok (Some "CH-US#7-TOR") /\
  is_servername_valid (PyStr "CH#007-TOR") = Ok true /\
  is_servername_valid (PyStr "CH-US#007-TOR") = Ok true.
Proof.
  refine (canonical_names_are_valid "C" "H" ["U"; "S"]%char
            ["0"; "0"; "7"]%char (Some "TOR") _ _ _ _ _ _).
  - vm_compute. reflexivity.
  - vm_compute. reflexivity.
  - left. exists "U"%char, "S"%char. repeat split.
  - vm_compute. reflexivity.
  - vm_compute. lia.
  - right. reflexivity.
Defined.

End Names.

Section Records.
Import Py ConnectionManager Examples.
Local Open Scope m_scope.
Local Open Scope nat_scope.

Variable K : constants.
Variable pm : plugin_manager.
Variable name : string.

Local Abbreviation is_managed := (ConnectionManager.is_managed name).
Local Abbreviation managed_count := (ConnectionManager.managed_count name).
Local Abbreviation unmanaged := (ConnectionManager.unmanaged name).
Local Abbreviation first_managed := (ConnectionManager.first_managed name).

(** The loop of [get_proton_connection] stops at the first managed
    record. *)
Lemma first_proton_first wrap l f id :
  first_proton name wrap l = Ok (Some (f, id)) ->
  exists c, f = wrap c /\ id = get_id c /\ first_managed l = Some c.
Proof.
  unfold ConnectionManager.first_managed.
  induction l as [|c l IH]; [discriminate|]. cbn [first_proton List.filter].
  unfold is_managed at 1, get_connection_type, get_setting_vpn.
  destruct (get_profile c) as [v|t] eqn:Ec.
  - change (String.eqb "vpn" "vpn") with true. cbv iota.
    destruct (bool_decide _) eqn:Ed.
    + intros [= <- <-]. exists c. auto.
    + exact IH.
  - destruct (String.eqb t "vpn"); [discriminate | exact IH].
Qed.

Lemma first_managed_In l c :
  first_managed l = Some c -> In c l /\ is_managed c = true.
Proof.
  unfold ConnectionManager.first_managed. intros H. apply head_In in H.
  now apply filter_In in H.
Qed.

Lemma unmanaged_remove_first c l :
  is_managed c = true ->
  List.filter (fun d => negb (is_managed d)) (remove_first c l)
  = List.filter (fun d => negb (is_managed d)) l.
Proof.
  intros Hm. induction l as [|d l IH]; [reflexivity|].
  cbn [remove_first List.filter]. destruct (decide (d = c)) as [->|Hne].
  - now rewrite Hm.
  - cbn [List.filter]. now rewrite IH.
Qed.

Lemma remove_first_In (c d : connection) l :
  In d (remove_first c l) -> In d l.
Proof.
  induction l as [|x l IH]; [auto|]. cbn [remove_first].
  destruct (decide (x = c)); simpl; tauto.
Qed.

(** A callback other than that of an add prints when the operation
    succeeded and raises the operation's own exception when it failed. *)
Lemma dynamic_callback_plain_eq client result ctype exc id w :
  callback_type_dict client !! ctype = Some exc ->
  String.eqb ctype "add" = false ->
  dynamic_callback K client result (CallbackData ctype id None None) w
  = if result then (Ok tt, snd (print id ctype w)) else (Raise exc, w).
Proof.
  intros Hd Hadd. unfold dynamic_callback.
  cbn [callback_type ConnectionManager.conn_name].
  rewrite Hd, Hadd. unfold mbind, print, raise, environ_get, ret.
  destruct result; cbn [connections environ snd]; [|reflexivity].
  destruct (environ w !! ENV_CI_NAME K) as [[|? ?]|]; reflexivity.
Qed.

Lemma dynamic_callback_add_eq result id del fn w :
  dynamic_callback K SrcClient result
    (CallbackData "add" id (Some del) (Some fn)) w
  = if result
    then match environ w !! ENV_CI_NAME K with
         | Some (String _ _) => (Ok tt, snd (print id "add" w))
         | _ => call_cleanup del fn (snd (print id "add" w))
         end
    else (Raise AddConnectionFinishError, w).
Proof.
  unfold dynamic_callback.
  cbn [callback_type ConnectionManager.conn_name delete_cached_cert
       ConnectionManager.filename].
  rewrite dict_add. change (String.eqb "add" "add") with true. cbv iota.
  unfold mbind, print, raise, environ_get, ret.
  destruct result; cbn [connections environ snd]; [|reflexivity].
  destruct (environ w !! ENV_CI_NAME K) as [[|? ?]|]; reflexivity.
Qed.

Lemma stop_connection_eq w :
  stop_connection K name w =
  match first_proton name (fun c => Active (ActiveConnection c))
          (map get_connection (active_connections w)) with
  | Raise e => (Raise e, w)
  | Ok None => (Ok (Some false), w)
  | Ok (Some (f, id)) =>
      if accepts w OpStop (saved f)
      then (Ok None, snd (print id "stop" (carry_out OpStop (saved f) w)))
      else (Raise StopConnectionFinishError, w)
  end.
Proof.
  unfold stop_connection, mbind at 1, get_proton_connection.
  change (String.eqb "active_connections" "all_connections") with false.
  change (String.eqb "active_connections" "active_connections") with true.
  cbv iota.
  destruct (first_proton _ _ _) as [[[f id]|]|e]; try reflexivity.
  unfold mbind, submit.
  destruct (accepts w OpStop (saved f));
    rewrite (dynamic_callback_plain_eq SrcClient _ "stop" _ id _ dict_stop eq_refl);
    reflexivity.
Qed.


Lemma remove_connection_eq w :
  remove_connection K name w =
  match first_proton name Remote (connections w) with
  | Raise e => (Raise e, w)
  | Ok None => (Raise ConnectionNotFound, w)
  | Ok (Some (f, id)) =>
      match stop_connection K name w with
      | (Raise e, w1) => (Raise e, w1)
      | (Ok _, w1) =>
          if accepts w1 OpRemove (saved f)
          then (Ok tt, snd (print id "remove" (carry_out OpRemove (saved f) w1)))
          else (Raise RemoveConnectionFinishError, w1)
      end
  end.
Proof.
  unfold remove_connection, mbind at 1, get_proton_connection.
  change (String.eqb "all_connections" "all_connections") with true.
  cbv iota.
  destruct (first_proton _ _ _) as [[[f id]|]|e]; try reflexivity.
  unfold mbind at 1.
  destruct (stop_connection K name w) as [[?|e1] w1]; [|reflexivity].
  unfold mbind, submit.
  destruct (accepts w1 OpRemove (saved f));
    rewrite (dynamic_callback_plain_eq SrcRemoteConnection _ "remove" _ id _
               dict_remove eq_refl);
    reflexivity.
Qed.









(** The steps of [add_connection] on arguments that pass its checks. *)
Lemma add_connection_eq fn u pwd del w :
  blank fn = false -> blank u = false -> blank pwd = false ->
  add_connection K pm name (PyStr fn) (PyStr u) (PyStr pwd) del w =
  let '(r0, w0) := call_cleanup del "test" w in
  let finish new w1 :=
    dynamic_callback K SrcClient (accepts w1 OpAdd new)
      (CallbackData "add" (get_id new) (Some del) (Some fn))
      (if accepts w1 OpAdd new then carry_out OpAdd new w1 else w1) in
  if match r0 with Ok _ => true | Raise e => is_exn FileNotFoundError e end
  then
    match import_connection_from_file pm fn (files w0) with
    | Raise e => (Raise e, w0)
    | Ok c =>
        match get_setting_vpn c with
        | None => (Raise AddConnectionCredentialsError, w0)
        | Some vs =>
            match extract_virtual_device_type fn w0 with
            | (Raise e, _) => (Raise e, w0)
            | (Ok dt, _) =>
                let new :=
                  Connection (get_id c)
                    (Vpn (add_data_item "dev-type" dt
                            (add_data_item "dev" name
                               (add_secret "password" pwd
                                  (add_data_item "username" u vs))))) in
                match remove_connection K name w0 with
                | (Raise e, w1) =>
                    if is_exn ConnectionNotFound e then finish new w1
                    else (Raise e, w1)
                | (Ok _, w1) => finish new w1
                end
            end
        end
    end
  else (Raise NotImplementedError, w0).
Proof.
  intros Hfn Hu Hpwd. unfold add_connection. rewrite Hfn, Hu, Hpwd.
  cbn [orb]. unfold mbind at 1, try_except at 1.
  destruct (call_cleanup del "test" w) as [[[]|e0] w0] eqn:E0; cbv zeta.
  2: destruct (is_exn FileNotFoundError e0); [|reflexivity].
  all: unfold ret; unfold mbind at 1, import_connection;
    (destruct (import_connection_from_file pm fn (files w0)) as [c|e1];
     [|reflexivity]);
    (destruct (get_setting_vpn c) as [vs|]; [|reflexivity]);
    unfold mbind at 1, set_virtual_device_type, mbind at 1;
    destruct (extract_virtual_device_type fn w0) as [[dt|e2] w2] eqn:E2;
    apply extract_world in E2 as ->; try reflexivity;
    unfold ret; unfold mbind at 1, try_except at 1;
    destruct (remove_connection K name w0) as [[[]|e3] w1];
    try (destruct (is_exn ConnectionNotFound e3); [|reflexivity]);
    unfold mbind, submit; cbn [get_id];
    destruct (accepts w1 OpAdd _); reflexivity.
Qed.


Lemma call_cleanup_frame del f w r w0 :
  call_cleanup del f w = (r, w0) ->
  connections w0 = connections w /\
  active_connections w0 = active_connections w /\
  environ w0 = environ w /\ accepts w0 = accepts w /\
  del f (files w) = (r, files w0).
Proof.
  unfold call_cleanup. destruct (del f (files w)) as [r' fl].
  intros [= <- <-]. auto.
Qed.

Lemma stop_connection_keeps w r w1 :
  stop_connection K name w = (r, w1) ->
  files w1 = files w /\ environ w1 = environ w /\ accepts w1 = accepts w.
Proof.
  rewrite stop_connection_eq.
  destruct (first_proton _ _ _) as [[[f id]|]|e];
    [destruct (accepts w OpStop (saved f))| |]; intros [= <- <-]; auto.
Qed.

(** What [remove_connection] does to the records and leaves alone. *)
Lemma remove_connection_records w r w1 :
  remove_connection K name w = (r, w1) ->
  files w1 = files w /\ environ w1 = environ w /\ accepts w1 = accepts w /\
  ((connections w1 = connections w /\ r <> Ok tt) \/
   (exists c, is_managed c = true /\ In c (connections w) /\
              connections w1 = remove_first c (connections w) /\ r = Ok tt)).
Proof.
  rewrite remove_connection_eq.
  destruct (first_proton _ _ (connections w)) as [[[f id]|]|e] eqn:E.
  - apply first_proton_first in E as (c & -> & -> & Hc). cbn [saved].
    apply first_managed_In in Hc as [Hin Hm].
    destruct (stop_connection K name w) as [r1 w0] eqn:Es.
    pose proof (stop_connection_spec K name w r1 w0 Es) as [Hconn _].
    apply stop_connection_keeps in Es as (Hf & He & Ha).
    destruct r1 as [stopped|e1].
    + destruct (accepts w0 OpRemove c); intros [= <- <-].
      * cbn [print snd carry_out connections files environ accepts].
        rewrite Hconn. repeat split; try assumption. right. exists c. auto.
      * repeat split; try assumption. left. split; [assumption|discriminate].
    + intros [= <- <-]. repeat split; try assumption.
      left. split; [assumption|discriminate].
  - intros [= <- <-]. repeat split. left. split; [reflexivity|discriminate].
  - intros [= <- <-]. repeat split. left. split; [reflexivity|discriminate].
Qed.


Lemma extract_outcomes fn w r w' :
  extract_virtual_device_type fn w = (r, w') ->
  match r with
  | Ok dt =>
      (dt = "tun" \/ dt = "tap") /\
      exists content, files w !! fn = Some (Text content)
  | Raise e =>
      match files w !! fn with
      | Some (Text _) => e = VirtualDeviceNotFound \/ e = IllegalVirtualDevice
      | Some Binary => e = UnicodeDecodeError
      | Some Folder => e = IsADirectoryError
      | None => e = absent_error (kind (files w)) fn
      end
  end.
Proof.
  unfold extract_virtual_device_type, mbind, read_text, try_except, lift, raise.
  destruct (files w !! fn) as [[content| |]|];
    try (intros [= <- _]; reflexivity).
  destruct (bind _ _) as [dt|e] eqn:Eb.
  - rewrite list_index_tun_tap.
    destruct (String.eqb_spec "tun" dt) as [<-|_];
      [intros [= <- _]; simpl; eauto|].
    destruct (String.eqb_spec "tap" dt) as [<-|_];
      [intros [= <- _]; simpl; eauto|].
    intros [= <- _]. auto.
  - assert (e = IndexError) as ->.
    { revert Eb. unfold bind, index.
      destruct (_ !! 0) as [first|]; [destruct (_ !! 1)|]; congruence. }
    intros [= <- _]. auto.
Qed.



(** X18.  [add_connection] checks its arguments before anything else: a
    file name that is no string is a [TypeError], a blank one a
    [ValueError], and the user name and password are then checked exactly
    as [UserManager.validate_username_password] checks them.  A refused
    argument leaves the world as it was; the cleanup is not called. *)
Theorem add_connection_checks_arguments filename username password del w :
  let call := add_connection K pm name filename username password del w in
  match filename with
  | PyStr fn =>
      if blank fn then call = (Raise ValueError, w)
      else forall e,
             UserManager.validate_username_password username password
             = Raise e ->
             call = (Raise e, w)
  | _ => call = (Raise TypeError, w)
  end.
Proof.
  intros call. subst call. unfold add_connection.
  destruct filename as [| | |fn| | |]; try reflexivity.
  destruct (blank fn); [reflexivity|].
  intros e. unfold UserManager.validate_username_password.
  destruct username as [| | |u| | |]; try (intros [= <-]; reflexivity).
  destruct password as [| | |pwd| | |]; try (intros [= <-]; reflexivity).
  destruct (blank u || blank pwd); [intros [= <-]; reflexivity | discriminate].
Qed.

(** X19.  [add_connection] probes the cleanup and checks the profile
    before it removes anything.  The probe is a call of the cleanup on the
    name [test]: if it raises anything but [FileNotFoundError] the add
    fails with [NotImplementedError].  A profile the plugin cannot import,
    one without VPN settings, and one whose device type cannot be read
    then fail with the plugin's error, [AddConnectionCredentialsError] and
    the error of the extraction.  In all these cases the records and the
    activations are those from before the call. *)
Theorem add_connection_checks_profile_first fn u pwd del w r0 w0 :
  blank fn = false -> blank u = false -> blank pwd = false ->
  call_cleanup del "test" w = (r0, w0) ->
  let call := add_connection K pm name (PyStr fn) (PyStr u) (PyStr pwd) del in
  connections w0 = connections w /\
  active_connections w0 = active_connections w /\
  (forall e, r0 = Raise e -> e <> FileNotFoundError ->
             call w = (Raise NotImplementedError, w0)) /\
  (r0 = Ok tt \/ r0 = Raise FileNotFoundError ->
   (forall e, import_connection_from_file pm fn (files w0) = Raise e ->
              call w = (Raise e, w0)) /\
   (forall c, import_connection_from_file pm fn (files w0) = Ok c ->
      (get_setting_vpn c = None ->
       call w = (Raise AddConnectionCredentialsError, w0)) /\
      (forall vs e,
         get_setting_vpn c = Some vs ->
         extract_virtual_device_type fn w0 = (Raise e, w0) ->
         call w = (Raise e, w0)))).
Proof.
  intros Hfn Hu Hpwd Hprobe call.
  pose proof (call_cleanup_frame _ _ _ _ _ Hprobe) as (Hc & Ha & _).
  split; [exact Hc|]. split; [exact Ha|].
  subst call. rewrite add_connection_eq by assumption. rewrite Hprobe.
  cbv zeta. split.
  - intros e -> Hne.
    assert (is_exn FileNotFoundError e = false) as ->
      by (destruct e; try reflexivity; congruence).
    reflexivity.
  - intros Hr0.
    assert (match r0 with
            | Ok _ => true
            | Raise e => is_exn FileNotFoundError e
            end = true) as -> by (destruct Hr0 as [-> | ->]; reflexivity).
    split.
    + intros e ->. reflexivity.
    + intros c ->. split.
      * intros ->. reflexivity.
      * intros vs e -> ->. reflexivity.
Qed.

Lemma add_connection_ok filename username password del w w' :
  add_connection K pm name filename username password del w = (Ok tt, w') ->
  exists fn u pwd r0 w0 c vs dt r1 w1,
    filename = PyStr fn /\ username = PyStr u /\ password = PyStr pwd /\
    call_cleanup del "test" w = (r0, w0) /\
    import_connection_from_file pm fn (files w0) = Ok c /\
    get_setting_vpn c = Some vs /\
    extract_virtual_device_type fn w0 = (Ok dt, w0) /\
    remove_connection K name w0 = (r1, w1) /\
    (r1 = Ok tt \/ r1 = Raise ConnectionNotFound) /\
    let new :=
      Connection (get_id c)
        (Vpn (add_data_item "dev-type" dt
                (add_data_item "dev" name
                   (add_secret "password" pwd
                      (add_data_item "username" u vs))))) in
    accepts w1 OpAdd new = true /\
    dynamic_callback K SrcClient true
      (CallbackData "add" (get_id c) (Some del) (Some fn))
      (carry_out OpAdd new w1) = (Ok tt, w').
Proof.
  intros H.
  destruct filename as [| | |fn| | |]; try discriminate.
  destruct (blank fn) eqn:Hfn;
    [unfold add_connection in H; rewrite Hfn in H; discriminate|].
  destruct username as [| | |u| | |];
    try (unfold add_connection in H; rewrite Hfn in H; discriminate).
  destruct password as [| | |pwd| | |];
    try (unfold add_connection in H; rewrite Hfn in H; discriminate).
  destruct (blank u) eqn:Hu;
    [unfold add_connection in H; rewrite Hfn, Hu in H; discriminate|].
  destruct (blank pwd) eqn:Hpwd;
    [unfold add_connection in H; rewrite Hfn, Hu, Hpwd in H; discriminate|].
  rewrite add_connection_eq in H by assumption.
  destruct (call_cleanup del "test" w) as [r0 w0] eqn:E0. cbv zeta in H.
  destruct (match r0 with Ok _ => true | Raise e => _ end); [|discriminate].
  destruct (import_connection_from_file pm fn (files w0)) as [c|] eqn:Ei;
    [|discriminate].
  destruct (get_setting_vpn c) as [vs|] eqn:Ev; [|discriminate].
  destruct (extract_virtual_device_type fn w0) as [[dt|] w2] eqn:Ee;
    [|discriminate].
  pose proof (extract_world _ _ _ _ Ee) as ->.
  destruct (remove_connection K name w0) as [r1 w1] eqn:Er.
  exists fn, u, pwd, r0, w0, c, vs, dt, r1, w1.
  repeat (split; [reflexivity || assumption|]).
  cbn [get_id] in H.
  assert (Hr1 : r1 = Ok tt \/ r1 = Raise ConnectionNotFound).
  { destruct r1 as [[]|e]; [now left|].
    destruct e; try discriminate. now right. }
  split; [exact Hr1|].
  assert (Hfin :
    dynamic_callback K SrcClient
      (accepts w1 OpAdd
         (Connection (get_id c)
            (Vpn (add_data_item "dev-type" dt
                    (add_data_item "dev" name
                       (add_secret "password" pwd
                          (add_data_item "username" u vs)))))))
      (CallbackData "add" (get_id c) (Some del) (Some fn))
      (if accepts w1 OpAdd
            (Connection (get_id c)
               (Vpn (add_data_item "dev-type" dt
                       (add_data_item "dev" name
                          (add_secret "password" pwd
                             (add_data_item "username" u vs))))))
       then carry_out OpAdd
              (Connection (get_id c)
                 (Vpn (add_data_item "dev-type" dt
                         (add_data_item "dev" name
                            (add_secret "password" pwd
                               (add_data_item "username" u vs)))))) w1
       else w1) = (Ok tt, w')).
  { destruct r1 as [?|e]; [exact H|].
    destruct (is_exn ConnectionNotFound e); [exact H | discriminate]. }
  clear H. cbv zeta. destruct (accepts w1 OpAdd _) eqn:Ea.
  - split; [reflexivity | exact Hfin].
  - rewrite dynamic_callback_add_eq in Hfin. discriminate.
Qed.


(** X20.  When [add_connection] returns, the record it added is the last
    one the service holds; it carries the user name as a data item, the
    password as a secret, the fixed virtual-device name under [dev] and
    [tun] or [tap] under [dev-type].  If there was at most one managed
    record before, the new record is the only managed one. *)
Theorem add_connection_stores_credentials filename username password del w w' :
  add_connection K pm name filename username password del w = (Ok tt, w') ->
  exists u pwd new vs,
    username = PyStr u /\ password = PyStr pwd /\
    last (connections w') = Some new /\
    get_profile new = Vpn vs /\
    data_items vs !! "username" = Some u /\
    secrets vs !! "password" = Some pwd /\
    data_items vs !! "dev" = Some name /\
    (data_items vs !! "dev-type" = Some "tun" \/
     data_items vs !! "dev-type" = Some "tap") /\
    (managed_count w <= 1 ->
     List.filter is_managed (connections w') = [new]).
Proof.
  intros H.
  apply add_connection_ok in H
    as (fn & u & pwd & r0 & w0 & c & vs & dt & r1 & w1
        & -> & -> & -> & Hprobe & _ & _ & He & Hr & Hr1 & _ & H).
  apply dynamic_callback_add in H as [Hconn _].
  apply extract_outcomes in He as [He _].
  apply call_cleanup_frame in Hprobe as (Hc0 & _).
  eexists u, pwd, _, _. split; [reflexivity|]. split; [reflexivity|].
  split; [rewrite Hconn; cbn [carry_out connections]; apply last_snoc|].
  split; [reflexivity|].
  unfold add_data_item, add_secret. cbn [data_items secrets].
  rewrite !lookup_insert_eq.
  rewrite (lookup_insert_ne _ "dev-type" "username") by discriminate.
  rewrite (lookup_insert_ne _ "dev" "username") by discriminate.
  rewrite (lookup_insert_ne _ "dev-type" "dev") by discriminate.
  rewrite !lookup_insert_eq.
  split; [reflexivity|]. split; [reflexivity|]. split; [reflexivity|].
  split; [destruct He as [-> | ->]; auto|].
  intros Hle. rewrite Hconn. cbn [carry_out connections].
  rewrite List.filter_app. cbn [List.filter].
  rewrite (new_record_managed name).
  assert (Hzero : managed_count w1 = 0).
  { pose proof (remove_connection_spec K name w0 r1 w1 Hr) as Hspec.
    unfold ConnectionManager.managed_count in *. rewrite Hc0 in *.
    destruct Hspec as [[_ Hcount] | (e & -> & Hc & Hnone)]; [lia|].
    destruct Hr1 as [? | [= ->]]; [discriminate|].
    rewrite Hc. now apply Hnone. }
  unfold ConnectionManager.managed_count in Hzero.
  apply length_zero_iff_nil in Hzero. now rewrite Hzero.
Qed.

(** X21.  When [add_connection] returns, the profile file has been handed
    to the cleanup, which returned, unless the CI variable of the
    environment is set to a non-empty value: then the files are those the
    probe left. *)
Theorem add_connection_removes_certificate fn username password del w w' r0 w0 :
  add_connection K pm name (PyStr fn) username password del w = (Ok tt, w') ->
  call_cleanup del "test" w = (r0, w0) ->
  match environ w !! ENV_CI_NAME K with
  | Some (String _ _) => files w' = files w0
  | _ => del fn (files w0) = (Ok tt, files w')
  end.
Proof.
  intros H Hprobe.
  apply add_connection_ok in H
    as (fn' & u & pwd & r0' & w0' & c & vs & dt & r1 & w1
        & [= <-] & -> & -> & Hprobe' & _ & _ & _ & Hr & _ & _ & H).
  rewrite Hprobe in Hprobe'. injection Hprobe' as <- <-.
  apply call_cleanup_frame in Hprobe as (_ & _ & Henv & _ & _).
  apply remove_connection_records in Hr as (Hf1 & Hen1 & _ & _).
  rewrite dynamic_callback_add_eq in H.
  cbn [carry_out environ] in H. rewrite Hen1, Henv in H.
  destruct (environ w !! ENV_CI_NAME K) as [[|? ?]|].
  - apply call_cleanup_frame in H as (_ & _ & _ & _ & H).
    cbn [print snd files] in H. now rewrite Hf1 in H.
  - injection H as <-. cbn [print snd files]. exact Hf1.
  - apply call_cleanup_frame in H as (_ & _ & _ & _ & H).
    cbn [print snd files] in H. now rewrite Hf1 in H.
Qed.

Lemma add_connection_cases filename username password del w r w' :
  add_connection K pm name filename username password del w = (r, w') ->
  (w' = w /\ (r = Raise TypeError \/ r = Raise ValueError)) \/
  exists fn u pwd,
    filename = PyStr fn /\ username = PyStr u /\ password = PyStr pwd /\
    blank fn = false /\ blank u = false /\ blank pwd = false.
Proof.
  unfold add_connection, raise.
  destruct filename as [| | |fn| | |];
    try (intros [= <- <-]; left; auto; fail).
  destruct (blank fn) eqn:Hfn; [intros [= <- <-]; left; auto|].
  destruct username as [| | |u| | |];
    try (intros [= <- <-]; left; auto; fail).
  destruct password as [| | |pwd| | |];
    try (intros [= <- <-]; left; auto; fail).
  destruct (blank u) eqn:Hu; cbn [orb]; [intros [= <- <-]; left; auto|].
  destruct (blank pwd) eqn:Hpwd; [intros [= <- <-]; left; auto|].
  intros _. right. exists fn, u, pwd. repeat split; assumption.
Qed.

(** The records after [add_connection]: those from before, or those
    without the first managed one, and possibly the new record. *)
Lemma add_connection_records filename username password del w r w' :
  add_connection K pm name filename username password del w = (r, w') ->
  exists l,
    (l = connections w \/
     exists c, is_managed c = true /\ l = remove_first c (connections w)) /\
    (connections w' = l \/
     exists new, is_managed new = true /\ connections w' = l ++ [new]).
Proof.
  intros H.
  destruct (add_connection_cases _ _ _ _ _ _ _ H)
    as [[-> _] | (fn & u & pwd & -> & -> & -> & Hfn & Hu & Hpwd)];
    [eauto|].
  rewrite add_connection_eq in H by assumption.
  destruct (call_cleanup del "test" w) as [r0 w0] eqn:E0. cbv zeta in H.
  apply call_cleanup_frame in E0 as (Hc0 & _). rewrite <- Hc0.
  destruct (match r0 with Ok _ => true | Raise e => _ end);
    [|injection H as <- <-; eauto].
  destruct (import_connection_from_file pm fn (files w0)) as [c|];
    [|injection H as <- <-; eauto].
  destruct (get_setting_vpn c) as [vs|]; [|injection H as <- <-; eauto].
  destruct (extract_virtual_device_type fn w0) as [[dt|] w2];
    [|injection H as <- <-; eauto].
  destruct (remove_connection K name w0) as [r1 w1] eqn:Er.
  apply remove_connection_records in Er as (_ & _ & _ & Hrec).
  exists (connections w1). split.
  - destruct Hrec as [[-> _] | (c0 & Hm & _ & -> & _)]; eauto.
  - assert (Hfin : forall new,
      is_managed new = true ->
      dynamic_callback K SrcClient (accepts w1 OpAdd new)
        (CallbackData "add" (get_id new) (Some del) (Some fn))
        (if accepts w1 OpAdd new then carry_out OpAdd new w1 else w1)
      = (r, w') ->
      connections w' = connections w1 \/
      exists new, is_managed new = true
                  /\ connections w' = connections w1 ++ [new]).
    { intros new Hnew Hd. apply dynamic_callback_add in Hd as [Hd _].
      rewrite Hd. destruct (accepts w1 OpAdd new); eauto. }
    destruct r1 as [?|e].
    + eapply Hfin; [|exact H]. apply new_record_managed.
    + destruct (is_exn ConnectionNotFound e);
        [eapply Hfin; [|exact H]; apply new_record_managed|].
      injection H as <- <-. auto.
Qed.

Lemma unmanaged_app_managed l new :
  is_managed new = true ->
  List.filter (fun d => negb (is_managed d)) (l ++ [new])
  = List.filter (fun d => negb (is_managed d)) l.
Proof.
  intros H. rewrite List.filter_app. cbn [List.filter]. rewrite H.
  apply app_nil_r.
Qed.

(** X22.  The records that are not the managed one are out of reach: each
    of the four operations, whatever its outcome, leaves them as they
    were, in the same order. *)
Theorem unmanaged_records_untouched w :
  (forall filename username password del r w',
     add_connection K pm name filename username password del w = (r, w') ->
     unmanaged w' = unmanaged w) /\
  (forall r w',
     remove_connection K name w = (r, w') -> unmanaged w' = unmanaged w) /\
  (forall r w',
     start_connection K name w = (r, w') -> unmanaged w' = unmanaged w) /\
  (forall r w',
     stop_connection K name w = (r, w') -> unmanaged w' = unmanaged w).
Proof.
  unfold ConnectionManager.unmanaged. split; [|split; [|split]].
  - intros filename username password del r w' H.
    apply add_connection_records in H as (l & Hl & Hw).
    assert (El : List.filter (fun c => negb (is_managed c)) l
                 = List.filter (fun c => negb (is_managed c)) (connections w)).
    { destruct Hl as [-> | (c & Hm & ->)]; [reflexivity|].
      now apply unmanaged_remove_first. }
    destruct Hw as [-> | (new & Hnew & ->)]; [exact El|].
    now rewrite unmanaged_app_managed.
  - intros r w' H. apply remove_connection_records in H as (_ & _ & _ & H).
    destruct H as [[-> _] | (c & Hm & _ & -> & _)]; [reflexivity|].
    now apply unmanaged_remove_first.
  - intros r w' H. apply start_connection_spec in H. now rewrite H.
  - intros r w' H. apply stop_connection_spec in H as [H _]. now rewrite H.
Qed.


(** X24.  Each callback type goes with one kind of source: [remove] with
    the remote connection, [add], [start] and [stop] with the client.  Any
    other pairing, and any other type, raises [KeyError] whatever the
    result of the operation.  With the right pairing a failed operation
    raises the error of its type; in both cases nothing is printed and no
    cleanup is called. *)
Theorem dynamic_callback_pairing client result data w :
  let ctype := callback_type data in
  (match client with
   | SrcRemoteConnection => ctype <> "remove"
   | SrcClient => ~ In ctype ["add"; "start"; "stop"]
   end ->
   dynamic_callback K client result data w = (Raise KeyError, w)) /\
  (result = false ->
   forall exc,
     In (client, ctype, exc)
        [(SrcClient, "add", AddConnectionFinishError);
         (SrcClient, "start", StartConnectionFinishError);
         (SrcClient, "stop", StopConnectionFinishError);
         (SrcRemoteConnection, "remove", RemoveConnectionFinishError)] ->
     dynamic_callback K client result data w = (Raise exc, w)).
Proof.
  intros ctype. unfold dynamic_callback. fold ctype. split.
  - intros Hout.
    assert (callback_type_dict client !! ctype = None) as ->; [|reflexivity].
    destruct client; unfold callback_type_dict;
      rewrite ?list_to_map_cons, list_to_map_nil; cbn [fst snd];
      rewrite !lookup_insert_ne by (intros E; apply Hout; simpl; auto);
      apply lookup_empty.
  - intros -> exc Hin. simpl in Hin.
    destruct Hin as [H | [H | [H | [H | []]]]]; injection H as <- <- <-;
      reflexivity.
Qed.


(** X25.  [extract_virtual_device_type] only reads: it leaves the world
    as it was.  It returns nothing but [tun] or [tap], and only from a
    profile that is a readable text file.  From such a file it otherwise
    raises [VirtualDeviceNotFound] or [IllegalVirtualDevice]; a file that
    cannot be decoded raises [UnicodeDecodeError], a directory
    [IsADirectoryError], and a name with nothing behind it the error of
    [open]: [FileNotFoundError], or [NotADirectoryError] if a regular file
    stands where the directory of the profile should. *)
Theorem extract_virtual_device_type_range filename w r w' :
  extract_virtual_device_type filename w = (r, w') ->
  w' = w /\
  match r with
  | Ok dev_type =>
      (dev_type = "tun" \/ dev_type = "tap") /\
      exists content, files w !! filename = Some (Text content)
  | Raise e =>
      match files w !! filename with
      | Some (Text _) => e = VirtualDeviceNotFound \/ e = IllegalVirtualDevice
      | Some Binary => e = UnicodeDecodeError
      | Some Folder => e = IsADirectoryError
      | None =>
          e = FileNotFoundError \/
          e = NotADirectoryError
          /\ parent_error (kind (files w)) filename = Some NotADirectoryError
      end
  end.
Proof.
  intros H. split; [exact (extract_world _ _ _ _ H)|].
  apply extract_outcomes in H. destruct r as [dev_type|e]; [exact H|].
  destruct (files w !! filename) as [[content| |]|]; try exact H.
  subst e. apply absent_error_cases.
Qed.

End Records.

Section RecordsInstances.
Import Py ConnectionManager Examples.
Local Open Scope nat_scope.





(** A blank user name, as X18 supposes. *)
Lemma add_connection_checks_arguments_witness :
  UserManager.validate_username_password (PyStr " ") (PyStr "secret")
  = Raise ValueError /\
  add_connection example_constants example_plugin "proton0"
    (PyStr "ch.ovpn") (PyStr " ") (PyStr "secret") remove_file fresh_world
  = (Raise ValueError, fresh_world).
Proof.
  assert (Hv : UserManager.validate_username_password (PyStr " ")
                 (PyStr "secret") = Raise ValueError)
    by (vm_compute; reflexivity).
  split; [exact Hv|].
  pose proof (add_connection_checks_arguments example_constants example_plugin
                "proton0" (PyStr "ch.ovpn") (PyStr " ") (PyStr "secret")
                remove_file fresh_world) as H.
  cbv zeta in H. change (blank "ch.ovpn") with false in H. cbv iota in H.
  exact (H ValueError Hv).
Defined.

(** A profile with the device [tun0], as the last case of X19 supposes. *)
Lemma add_connection_checks_profile_first_witness :
  blank "tun0.ovpn" = false /\ blank "user" = false /\ blank "secret" = false /\
  call_cleanup remove_file "test" fresh_world
  = (Raise FileNotFoundError, fresh_world) /\
  add_connection example_constants example_plugin "proton0"
    (PyStr "tun0.ovpn") (PyStr "user") (PyStr "secret") remove_file fresh_world
  = (Raise IllegalVirtualDevice, fresh_world).
Proof.
  assert (Hprobe : call_cleanup remove_file "test" fresh_world
                   = (Raise FileNotFoundError, fresh_world))
    by (vm_compute; reflexivity).
  repeat (split; [vm_compute; reflexivity|]).
  refine (proj2 (proj2 (proj2 (proj2 (proj2
    (add_connection_checks_profile_first example_constants example_plugin
       "proton0" "tun0.ovpn" "user" "secret" remove_file fresh_world
       _ _ _ _ _ Hprobe))) _)
    (Connection "tun0.ovpn" (Vpn (SettingVpn ∅ ∅))) _)
    (SettingVpn ∅ ∅) IllegalVirtualDevice _ _).
  - vm_compute. reflexivity.
  - vm_compute. reflexivity.
  - vm_compute. reflexivity.
  - right. reflexivity.
  - vm_compute. reflexivity.
  - reflexivity.
  - vm_compute. reflexivity.
Defined.

(** An add that returns, as X20 supposes. *)
Lemma add_connection_stores_credentials_witness :
  let run := add_connection example_constants example_plugin "proton0"
               (PyStr "us.ovpn") (PyStr "user") (PyStr "secret")
               remove_file fresh_world in
  run = (Ok tt, snd run) /\
  exists u pwd new vs,
    PyStr "user" = PyStr u /\ PyStr "secret" = PyStr pwd /\
    last (connections (snd run)) = Some new /\
    get_profile new = Vpn vs /\
    data_items vs !! "username" = Some u /\
    secrets vs !! "password" = Some pwd /\
    data_items vs !! "dev" = Some "proton0" /\
    (data_items vs !! "dev-type" = Some "tun" \/
     data_items vs !! "dev-type" = Some "tap") /\
    (managed_count "proton0" fresh_world <= 1 ->
     List.filter (is_managed "proton0") (connections (snd run)) = [new]).
Proof.
  intros run.
  assert (Hrun : run = (Ok tt, snd run)) by (vm_compute; reflexivity).
  split; [exact Hrun|].
  exact (add_connection_stores_credentials example_constants example_plugin
           "proton0" _ _ _ _ _ _ Hrun).
Defined.

(** An add that returns, with no CI variable set, as X21 supposes. *)
Lemma add_connection_removes_certificate_witness :
  let run := add_connection example_constants example_plugin "proton0"
               (PyStr "ch.ovpn") (PyStr "user") (PyStr "secret")
               remove_file fresh_world in
  run = (Ok tt, snd run) /\
  call_cleanup remove_file "test" fresh_world
  = (Raise FileNotFoundError, fresh_world) /\
  remove_file "ch.ovpn" (files fresh_world) = (Ok tt, files (snd run)).
Proof.
  intros run.
  assert (Hrun : run = (Ok tt, snd run)) by (vm_compute; reflexivity).
  assert (Hprobe : call_cleanup remove_file "test" fresh_world
                   = (Raise FileNotFoundError, fresh_world))
    by (vm_compute; reflexivity).
  split; [exact Hrun|]. split; [exact Hprobe|].
  exact (add_connection_removes_certificate example_constants example_plugin
           "proton0" _ _ _ _ _ _ _ _ Hrun Hprobe).
Defined.

(** An add that replaces the managed record next to a record of another
    device, as X22 supposes. *)
Lemma unmanaged_records_untouched_witness :
  let c := Connection "ch" (Vpn (SettingVpn {["dev" := "proton0"]} ∅)) in
  let other := Connection "office" (Vpn (SettingVpn {["dev" := "tun7"]} ∅)) in
  let w := World [other; c] [] (files fresh_world) ∅ [] (fun _ _ => true) in
  let run := add_connection example_constants example_plugin "proton0"
               (PyStr "us.ovpn") (PyStr "user") (PyStr "secret")
               remove_file w in
  run = (Ok tt, snd run) /\
  unmanaged "proton0" (snd run) = [other].
Proof.
  intros c other w run.
  assert (Hrun : run = (Ok tt, snd run)) by (vm_compute; reflexivity).
  split; [exact Hrun|].
  rewrite (proj1 (unmanaged_records_untouched example_constants example_plugin
                    "proton0" w) _ _ _ _ _ _ Hrun).
  vm_compute. reflexivity.
Defined.


(** The callback of a removal handed the client, as X24 supposes. *)
Lemma dynamic_callback_pairing_witness :
  dynamic_callback example_constants SrcClient true
    (CallbackData "remove" "ch" None None) fresh_world
  = (Raise KeyError, fresh_world).
Proof.
  refine (proj1 (dynamic_callback_pairing example_constants SrcClient true
                   (CallbackData "remove" "ch" None None) fresh_world) _).
  cbn [callback_type]. intros [H | [H | [H | []]]]; discriminate.
Defined.


(** A profile that is there and one that is not, as X25 supposes. *)
Lemma extract_virtual_device_type_range_witness :
  let run := extract_virtual_device_type "us.ovpn" fresh_world in
  let lost := extract_virtual_device_type "missing.ovpn" fresh_world in
  (run = (Ok "tap", snd run) /\ snd run = fresh_world) /\
  (lost = (Raise FileNotFoundError, snd lost) /\ snd lost = fresh_world).
Proof.
  intros run lost.
  assert (Hrun : run = (Ok "tap", snd run)) by (vm_compute; reflexivity).
  assert (Hlost : lost = (Raise FileNotFoundError, snd lost))
    by (vm_compute; reflexivity).
  split; (split; [assumption|]).
  - exact (proj1 (extract_virtual_device_type_range "us.ovpn" fresh_world
                    _ _ Hrun)).
  - exact (proj1 (extract_virtual_device_type_range "missing.ovpn" fresh_world
                    _ _ Hlost)).
Defined.

End RecordsInstances.
